(** * finance-tracking: categories, transactions and their summaries

    A shallow embedding of the repository and use-case layers of
    rakahikmah/finance-tracking:

    - [error/error.go]                               -> [apperr]
    - Go's [time.Parse] / [Time.Format] for the one
      layout the code uses, ["2006-01-02"]            -> [gotime]
    - [internal/repository/mysql/entity]              -> [entity]
    - the two tables of [database/migration]          -> [DB]
    - [CategoryRepository], [TransactionRepository]   -> modules of the same name
    - [CrudCategory], [CrudTransaction]               -> modules of the same name
    - [TransactionHandler], create and update         -> module of the same name

    Go functions that return [(value, error)] and may panic are functions
    in the monad [M]: they read and write a [World] (the tables, the wall
    clock and the list of statements sent to the engine so far) and end
    in [Ok], [Fail] or [Panic].

    Conventions of the model.
    - [int64] is [Z]; the code only compares identifiers, it never does
      arithmetic on them.
    - [Amount] ([float64] in Go, [decimal(15,2)] in the schema) is a number
      of hundredths, a [Z]: the code only moves amounts around, tests them
      for zero and lets the engine add them up.
    - [time.Time] values of timestamp columns are seconds since Go's zero
      time; values of the [date] column are a calendar [Date].
    - [helper.LogError] only writes to the log and is left out.
    - The relational engine is assumed to answer every statement, and
      values are assumed to fit their columns (lengths, precision, the
      two values of the [type] enum).  The failures of the engine that are
      modelled are the ones the schema decides from what the code leaves
      out or refers to: a required column left out of an insert, a
      duplicate key, a dangling category reference.  The [users] table is
      outside the sources and so is its foreign key. *)

From Stdlib Require Import ZArith List String Ascii Bool Lia.
From Stdlib Require Import Permutation Sorted.
Import ListNotations.

Local Open Scope string_scope.
Local Open Scope Z_scope.

(* ================================================================= *)
(** ** Errors ([error/error.go]) *)

Module apperr.

(** The constructors of [CustomErrorResponse] the core uses.  Message and
    error-code texts live in package [entity], outside the sources at
    hand; a value of [ErrKind] stands for the pair of them. *)
Inductive ErrKind : Type :=
| RecordNotFound
| InvalidRequest
| Unauthorized
| Conflict.

Definition HTTPCode (k : ErrKind) : Z :=
  match k with
  | RecordNotFound => 404
  | InvalidRequest => 422
  | Unauthorized => 401
  | Conflict => 409
  end.

Definition ErrKind_eqb (a b : ErrKind) : bool :=
  match a, b with
  | RecordNotFound, RecordNotFound
  | InvalidRequest, InvalidRequest
  | Unauthorized, Unauthorized
  | Conflict, Conflict => true
  | _, _ => false
  end.

End apperr.

(** Go [error] values that flow through the core. *)
Inductive error : Type :=
| CustomErrorResponse (kind : apperr.ErrKind) (Detail : string)
| DeadlineError                          (* what [helper.CheckDeadline] returns *)
| EngineError (code : Z)                 (* an error number of the engine *)
| Wrap (cause : error) (funcName : string). (* [errwrap.Wrap] *)

Definition ErrRecordNotFound : error := CustomErrorResponse apperr.RecordNotFound "".
Definition ErrInvalidRequest : error := CustomErrorResponse apperr.InvalidRequest "".
Definition ErrUnauthorized : error := CustomErrorResponse apperr.Unauthorized "".
Definition ErrConflict : error := CustomErrorResponse apperr.Conflict "".

(** [CustomErrorResponse.SetDetail]; it is a method of that struct only. *)
Definition SetDetail (e : error) (detail : string) : error :=
  match e with
  | CustomErrorResponse k _ => CustomErrorResponse k detail
  | _ => e
  end.

Fixpoint error_eqb (a b : error) : bool :=
  match a, b with
  | CustomErrorResponse k d, CustomErrorResponse k' d' =>
      apperr.ErrKind_eqb k k' && String.eqb d d'
  | DeadlineError, DeadlineError => true
  | EngineError c, EngineError c' => Z.eqb c c'
  | Wrap e f, Wrap e' f' => error_eqb e e' && String.eqb f f'
  | _, _ => false
  end.

(** [errors.Is]: equal to the target, or wrapping something that is. *)
Fixpoint errors_Is (err target : error) : bool :=
  error_eqb err target ||
  match err with
  | Wrap cause _ => errors_Is cause target
  | _ => false
  end.

(** The kind of the innermost application error, if there is one. *)
Fixpoint kind_of (e : error) : option apperr.ErrKind :=
  match e with
  | CustomErrorResponse k _ => Some k
  | Wrap cause _ => kind_of cause
  | _ => None
  end.

(* ================================================================= *)
(** ** Go's [time] package, for the layout ["2006-01-02"] *)

Module gotime.

Record Date : Type := mkDate { year : Z; month : Z; day : Z }.

(** The zero [time.Time] is January 1 of year 1. *)
Definition zero : Date := mkDate 1 1 1.

Definition eqb (a b : Date) : bool :=
  (year a =? year b) && (month a =? month b) && (day a =? day b).

Definition IsZero (d : Date) : bool := eqb d zero.

Definition compare (a b : Date) : comparison :=
  match year a ?= year b with
  | Eq => match month a ?= month b with
          | Eq => day a ?= day b
          | c => c
          end
  | c => c
  end.

Definition leb (a b : Date) : bool :=
  match compare a b with Gt => false | _ => true end.

Definition ltb (a b : Date) : bool :=
  match compare a b with Lt => true | _ => false end.

Definition isLeap (y : Z) : bool :=
  (y mod 4 =? 0) && (negb (y mod 100 =? 0) || (y mod 400 =? 0)).

Definition daysIn (m y : Z) : Z :=
  if (m =? 2) && isLeap y then 29
  else if m =? 2 then 28
  else if (m =? 4) || (m =? 6) || (m =? 9) || (m =? 11) then 30
  else 31.

Definition digit_val (c : ascii) : option Z :=
  let n := Z.of_nat (nat_of_ascii c) in
  if (48 <=? n) && (n <=? 57) then Some (n - 48) else None.

(** [isDigit(s, i)] *)
Definition isDigit (s : string) (i : nat) : bool :=
  match String.get i s with
  | Some c => match digit_val c with Some _ => true | None => false end
  | None => false
  end.

Definition digit_at (s : string) (i : nat) : Z :=
  match String.get i s with
  | Some c => match digit_val c with Some d => d | None => 0 end
  | None => 0
  end.

Definition drop (n : nat) (s : string) : string :=
  String.substring n (String.length s - n) s.

(** [getnum(s, fixed)] with [fixed = true]: exactly two digits. *)
Definition getnum_fixed (s : string) : option (Z * string) :=
  if negb (isDigit s 0) then None
  else if negb (isDigit s 1) then None
  else Some (digit_at s 0 * 10 + digit_at s 1, drop 2 s).

(** The [stdLongYear] case of [parse]: at least four characters, the
    first a digit, and [atoi] of the first four succeeds (so all four
    are digits, the first being no sign). *)
Definition getyear (s : string) : option (Z * string) :=
  if (String.length s <? 4)%nat || negb (isDigit s 0) then None
  else if isDigit s 1 && isDigit s 2 && isDigit s 3 then
    Some (digit_at s 0 * 1000 + digit_at s 1 * 100
          + digit_at s 2 * 10 + digit_at s 3, drop 4 s)
  else None.

(** [skip(value, "-")] *)
Definition skip_dash (s : string) : option string :=
  match s with
  | String c rest => if Ascii.eqb c "-" then Some rest else None
  | EmptyString => None
  end.

(** [time.Parse("2006-01-02", value)]; [None] is a non-nil error. *)
Definition Parse (value : string) : option Date :=
  match getyear value with
  | None => None
  | Some (y, v1) =>
    match skip_dash v1 with
    | None => None
    | Some v2 =>
      match getnum_fixed v2 with
      | None => None
      | Some (m, v3) =>
        if (m <=? 0) || (12 <? m) then None        (* month out of range *)
        else
          match skip_dash v3 with
          | None => None
          | Some v4 =>
            match getnum_fixed v4 with
            | None => None
            | Some (d, v5) =>
              if negb (String.length v5 =? 0)%nat then None  (* extra text *)
              else if (d <? 1) || (daysIn m y <? d) then None (* day out of range *)
              else Some (mkDate y m d)
            end
          end
      end
    end
  end.

Definition digit_char (d : Z) : ascii := ascii_of_nat (Z.to_nat (48 + d mod 10)).

(** The last [width] decimal digits of [u], most significant first. *)
Fixpoint fixed_digits (width : nat) (u : Z) : string :=
  match width with
  | O => EmptyString
  | S w => fixed_digits w (u / 10) ++ String (digit_char u) EmptyString
  end.

Fixpoint ndigits (fuel : nat) (u : Z) : nat :=
  match fuel with
  | O => O
  | S f => if u <=? 0 then O else S (ndigits f (u / 10))
  end.

(** [appendInt(b, x, width)]: a sign for negative [x], then the decimal
    digits of [|x|], padded with zeros on the left up to [width]. *)
Definition appendInt (x : Z) (width : nat) : string :=
  let u := Z.abs x in
  let n := Nat.max 1 (ndigits 20 u) in
  (if x <? 0 then "-" else "") ++ fixed_digits (Nat.max width n) u.

(** [t.Format("2006-01-02")] *)
Definition Format (t : Date) : string :=
  appendInt (year t) 4 ++ "-" ++ appendInt (month t) 2 ++ "-" ++ appendInt (day t) 2.

End gotime.

(** Timestamps: seconds since Go's zero time, which is therefore [0]. *)
Definition Time : Type := Z.
Definition Time_IsZero (t : Time) : bool := t =? 0.

(* ================================================================= *)
(** ** [database/sql] nullable values *)

Module NullInt64.
Record t : Type := mk { Int64 : Z; Valid : bool }.
Definition null : t := mk 0 false.
(** [reflect.Value.IsZero] on the struct: every field is zero. *)
Definition IsZero (v : t) : bool := (Int64 v =? 0) && negb (Valid v).
(** [driver.Valuer]: what is sent to a column. *)
Definition Value (v : t) : option Z := if Valid v then Some (Int64 v) else None.
(** [sql.Scanner]: what is read back from a column. *)
Definition Scan (o : option Z) : t :=
  match o with Some n => mk n true | None => null end.
End NullInt64.

Module NullString.
Record t : Type := mk { String : string; Valid : bool }.
Definition null : t := mk "" false.
Definition IsZero (v : t) : bool := (String.eqb (String v) "") && negb (Valid v).
Definition Value (v : t) : option string := if Valid v then Some (String v) else None.
Definition Scan (o : option string) : t :=
  match o with Some s => mk s true | None => null end.
End NullString.

(* ================================================================= *)
(** ** Entities ([internal/repository/mysql/entity]) *)

Module Category.
Record t : Type := mk {
  ID : Z;
  CreatedBy : Z;
  Name : string;
  CreatedAt : Time;
  UpdatedAt : Time
}.
End Category.

Module Transaction.
Record t : Type := mk {
  ID : Z;
  UserID : Z;
  CategoryID : NullInt64.t;
  Amount : Z;
  Type_ : string;                (* [Type], a [TransactionType]: a Go string *)
  Description : NullString.t;
  TransactionDate : gotime.Date;
  CreatedAt : Time;
  UpdatedAt : Time
}.
End Transaction.

Definition TransactionTypeIncome : string := "income".
Definition TransactionTypeExpense : string := "expense".

(* ================================================================= *)
(** ** The relational engine: tables, statements, the world *)

(** The collation of [categories.name]; the migration declares
    [utf8mb4_general_ci].  The engine compares and orders names with it,
    Go compares them byte by byte.  All that is asked of a collation here
    is that a name equals itself. *)
Class Collation : Type := {
  collate : string -> string -> comparison;
  collate_refl : forall s, collate s s = Eq
}.

Definition collate_eqb `{Collation} (a b : string) : bool :=
  match collate a b with Eq => true | _ => false end.

Definition collate_leb `{Collation} (a b : string) : bool :=
  match collate a b with Gt => false | _ => true end.

(** The two tables of the migrations with their [AUTO_INCREMENT] counters.
    Rows are kept as the entity the engine hands back on a scan. *)
Record DB : Type := mkDB {
  categories : list Category.t;
  transactions : list Transaction.t;
  categories_auto_increment : Z;
  transactions_auto_increment : Z
}.

(** The statements the repositories send. *)
Inductive Stmt : Type :=
| SelectCategoriesByOwner (userID : Z)
| SelectCategoryByID (id : Z)
| SelectCategoryByOwnerAndName (userID : Z) (name : string)
| InsertCategory (params : Category.t)
| UpdateCategory (id : Z) (changes : Category.t)
| DeleteCategory (id : Z)
| SelectTransactionsByOwner (userID : Z)
| SelectTransactionByIDAndOwner (id userID : Z)
| SelectDailySummary (userID : Z) (startDate endDate : string)
| SelectSummaryByCategoryAndType (userID : Z) (startDate endDate : string)
| InsertTransaction (params : Transaction.t)
| UpdateTransaction (id userID : Z) (changes : Transaction.t)
| DeleteTransaction (id userID : Z).

Definition is_write (s : Stmt) : bool :=
  match s with
  | InsertCategory _ | UpdateCategory _ _ | DeleteCategory _
  | InsertTransaction _ | UpdateTransaction _ _ _ | DeleteTransaction _ _ => true
  | _ => false
  end.

Record World : Type := mkWorld {
  db : DB;
  clock : Time;              (* what [helper.DatetimeNowJakarta] reads *)
  trace : list Stmt          (* statements issued so far, oldest first *)
}.

(** [context.Context], as far as the core looks at it. *)
Record Context : Type := mkContext { deadline_exceeded : bool }.

Definition background : Context := mkContext false.

(* ================================================================= *)
(** ** The monad of the core *)

Inductive result (A : Type) : Type :=
| Ok (a : A)          (* returned, [err == nil] *)
| Fail (e : error)    (* returned a non-nil error *)
| Panic.              (* runtime panic: nil pointer dereference *)

Arguments Ok {A} a.
Arguments Fail {A} e.
Arguments Panic {A}.

Definition M (A : Type) : Type := World -> result A * World.

Definition ret {A} (a : A) : M A := fun w => (Ok a, w).

Definition bind {A B} (m : M A) (k : A -> M B) : M B :=
  fun w =>
    match m w with
    | (Ok a, w') => k a w'
    | (Fail e, w') => (Fail e, w')
    | (Panic, w') => (Panic, w')
    end.

Definition fail {A} (e : error) : M A := fun w => (Fail e, w).
Definition panic {A} : M A := fun w => (Panic, w).

Notation "x <- m ;; k" := (bind m (fun x => k))
  (at level 61, m at next level, right associativity).
Notation "m ;;; k" := (bind m (fun _ => k))
  (at level 61, right associativity).

(** [v, err := f(...)] when the caller goes on to look at [v] and [err]:
    the callee hands back [(v, nil)] or [(nil, err)]. *)
Definition call {A} (m : M A) : M (option A * option error) :=
  fun w =>
    match m w with
    | (Ok a, w') => (Ok (Some a, None), w')
    | (Fail e, w') => (Ok (None, Some e), w')
    | (Panic, w') => (Panic, w')
    end.

(** [*p] for a pointer [p] that may be nil. *)
Definition deref {A} (p : option A) : M A :=
  match p with
  | Some a => ret a
  | None => panic
  end.

Definition get_db : M DB := fun w => (Ok (db w), w).
Definition put_db (d : DB) : M unit :=
  fun w => (Ok tt, mkWorld d (clock w) (trace w)).
Definition issue (s : Stmt) : M unit :=
  fun w => (Ok tt, mkWorld (db w) (clock w) (trace w ++ [s])%list).

(** Modelled from the spec: [helper.DatetimeNowJakarta] is not among the
    sources; the spec has records persisted "with current timestamps". *)
Definition DatetimeNowJakarta : M Time := fun w => (Ok (clock w), w).

(** The engine's [CURRENT_TIMESTAMP], and the time GORM stamps
    [updated_at] with: the same clock. *)
Definition CURRENT_TIMESTAMP : M Time := fun w => (Ok (clock w), w).

(** Modelled from the spec: [helper.CheckDeadline] is not among the
    sources; "all operations first check that the request's
    deadline/cancellation has not already elapsed, failing fast with a
    wrapped deadline error if so". *)
Definition CheckDeadline (ctx : Context) : option error :=
  if deadline_exceeded ctx then Some DeadlineError else None.

Definition check_deadline (ctx : Context) (funcName : string) : M unit :=
  match CheckDeadline ctx with
  | Some err => fail (Wrap err funcName)
  | None => ret tt
  end.

(* ================================================================= *)
(** ** Query building blocks *)

(** [ORDER BY id LIMIT 1] over the rows a [WHERE] kept: GORM's [First]. *)
Fixpoint First {A} (id : A -> Z) (rows : list A) : option A :=
  match rows with
  | [] => None
  | r :: rest =>
      match First id rest with
      | Some r' => if id r' <? id r then Some r' else Some r
      | None => Some r
      end
  end.

Fixpoint insert_by {A} (leb : A -> A -> bool) (x : A) (l : list A) : list A :=
  match l with
  | [] => [x]
  | y :: l' => if leb x y then x :: y :: l' else y :: insert_by leb x l'
  end.

(** [ORDER BY]: the rows in the order [leb] asks for. *)
Fixpoint order_by {A} (leb : A -> A -> bool) (l : list A) : list A :=
  match l with
  | [] => []
  | x :: l' => insert_by leb x (order_by leb l')
  end.

(** [GROUP BY key] with [SUM(amount)]: one row per key, in the order the
    keys are first met. *)
Fixpoint add_to_group {K} (same : K -> K -> bool) (k : K) (amount : Z)
    (groups : list (K * Z)) : list (K * Z) :=
  match groups with
  | [] => [(k, amount)]
  | (k', total) :: rest =>
      if same k' k then (k', total + amount) :: rest
      else (k', total) :: add_to_group same k amount rest
  end.

Definition group_sum {K} (same : K -> K -> bool) (rows : list (K * Z)) : list (K * Z) :=
  fold_left (fun groups r => add_to_group same (fst r) (snd r) groups) rows [].

(** The position of a value in [enum('income','expense')]; the engine
    orders an enum column by it. *)
Definition enum_index (type : string) : Z :=
  if String.eqb type "income" then 1
  else if String.eqb type "expense" then 2
  else 0.

(** Modelled from the spec: [helper.NonZeroCols] is not among the sources;
    the store's create "inserts only the non-default supplied fields".  A
    column left out takes the default of the schema, and a column that is
    [NOT NULL] without a default cannot be left out: the engine answers
    with error 1364. *)
Definition ER_NO_DEFAULT_FOR_FIELD : Z := 1364.
Definition ER_DUP_ENTRY : Z := 1062.
Definition ER_NO_REFERENCED_ROW : Z := 1452.

Definition or_default (t now : Time) : Time := if Time_IsZero t then now else t.

(* ================================================================= *)
(** ** [CategoryRepository] ([internal/repository/mysql/category.go]) *)

Module CategoryRepository.
Section Repo.
Context `{Collation}.

Definition with_categories (d : DB) (cs : list Category.t) (next : Z) : DB :=
  mkDB cs (transactions d) next (transactions_auto_increment d).

(** [WHERE created_by = ?] with [Find]: the rows in table order. *)
Definition GetAll (ctx : Context) (userID : Z) : M (list Category.t) :=
  check_deadline ctx "CategoryRepository.GetAll" ;;;
  issue (SelectCategoriesByOwner userID) ;;;
  d <- get_db ;;
  ret (filter (fun c => Category.CreatedBy c =? userID) (categories d)).

(** [First(&result, ID)]: by primary key only, the owner is not asked. *)
Definition GetByID (ctx : Context) (ID : Z) : M Category.t :=
  check_deadline ctx "CategoryRepository.GetByID" ;;;
  issue (SelectCategoryByID ID) ;;;
  d <- get_db ;;
  match First Category.ID
          (filter (fun c => Category.ID c =? ID) (categories d)) with
  | None => fail ErrRecordNotFound
  | Some c => ret c
  end.

(** [WHERE created_by = ? AND name = ?], the name under the collation. *)
Definition GetByUserIDAndName (ctx : Context) (userID : Z) (name : string)
  : M Category.t :=
  check_deadline ctx "CategoryRepository.GetByUserIDAndName" ;;;
  issue (SelectCategoryByOwnerAndName userID name) ;;;
  d <- get_db ;;
  match First Category.ID
          (filter (fun c => (Category.CreatedBy c =? userID)
                            && collate_eqb (Category.Name c) name)
                  (categories d)) with
  | None => fail ErrRecordNotFound
  | Some c => ret c
  end.

(** [Select(cols).Create(&params)].  [name] is the one column of the
    table that is required and has no default; [id] left at zero is
    assigned from the counter; a timestamp left at zero is the engine's
    [CURRENT_TIMESTAMP].  The use cases never pass an [ID]. *)
Definition Create (ctx : Context) (params : Category.t) (nonZeroVal : bool)
  : M unit :=
  check_deadline ctx "CategoryRepository.Create" ;;;
  issue (InsertCategory params) ;;;
  d <- get_db ;;
  now <- CURRENT_TIMESTAMP ;;
  if String.eqb (Category.Name params) "" then
    fail (EngineError ER_NO_DEFAULT_FOR_FIELD)
  else if negb (Category.ID params =? 0)
          && existsb (fun c => Category.ID c =? Category.ID params) (categories d)
  then fail (EngineError ER_DUP_ENTRY)
  else
    let id := if Category.ID params =? 0
              then categories_auto_increment d else Category.ID params in
    let row := Category.mk id (Category.CreatedBy params) (Category.Name params)
                 (or_default (Category.CreatedAt params) now)
                 (or_default (Category.UpdatedAt params) now) in
    put_db (with_categories d (categories d ++ [row])%list
              (Z.max (categories_auto_increment d) (id + 1))).

(** [Updates] with the struct [changes] "hanya akan mengupdate kolom yang
    non-zero di struct changes", as the comment in the source has it: a
    field of [changes] that is zero leaves the column as it is;
    [updated_at] is always written. *)
Definition apply_changes (now : Time) (changes old : Category.t) : Category.t :=
  Category.mk
    (if Category.ID changes =? 0 then Category.ID old else Category.ID changes)
    (if Category.CreatedBy changes =? 0
     then Category.CreatedBy old else Category.CreatedBy changes)
    (if String.eqb (Category.Name changes) ""
     then Category.Name old else Category.Name changes)
    (if Time_IsZero (Category.CreatedAt changes)
     then Category.CreatedAt old else Category.CreatedAt changes)
    (or_default (Category.UpdatedAt changes) now).

(** [Model(params).Updates(...)]: [WHERE id = params.ID].  Without
    [changes] the non-default fields of [params] are written. *)
Definition Update (ctx : Context) (params : Category.t)
    (changes : option Category.t) : M unit :=
  check_deadline ctx "CategoryRepository.Update" ;;;
  if Category.ID params =? 0 then
    fail (Wrap ErrInvalidRequest "CategoryRepository.Update")
  else
    let ch := match changes with Some c => c | None => params end in
    issue (UpdateCategory (Category.ID params) ch) ;;;
    d <- get_db ;;
    now <- CURRENT_TIMESTAMP ;;
    put_db (with_categories d
              (map (fun c => if Category.ID c =? Category.ID params
                             then apply_changes now ch c else c)
                   (categories d))
              (categories_auto_increment d)).

Definition refers_to (id : Z) (t : Transaction.t) : bool :=
  NullInt64.Valid (Transaction.CategoryID t)
  && (NullInt64.Int64 (Transaction.CategoryID t) =? id).

Definition clear_category (t : Transaction.t) : Transaction.t :=
  Transaction.mk (Transaction.ID t) (Transaction.UserID t) NullInt64.null
    (Transaction.Amount t) (Transaction.Type_ t) (Transaction.Description t)
    (Transaction.TransactionDate t) (Transaction.CreatedAt t)
    (Transaction.UpdatedAt t).

(** [DELETE FROM categories WHERE id = ?]; the foreign key of
    [transactions.category_id] is [ON DELETE SET NULL]. *)
Definition DeleteByID (ctx : Context) (id : Z) : M unit :=
  check_deadline ctx "CategoryRepository.DeleteByID" ;;;
  issue (DeleteCategory id) ;;;
  d <- get_db ;;
  put_db (mkDB
            (filter (fun c => negb (Category.ID c =? id)) (categories d))
            (map (fun t => if refers_to id t then clear_category t else t)
                 (transactions d))
            (categories_auto_increment d)
            (transactions_auto_increment d)).

End Repo.
End CategoryRepository.

(* ================================================================= *)
(** ** [TransactionRepository] *)

Module TransactionWithCategory.
Record t : Type := mk {
  Transaction : Transaction.t;      (* the embedded [entity.Transaction] *)
  CategoryName : NullString.t
}.
End TransactionWithCategory.

Module TransactionSummaryByCategory.
Record t : Type := mk {
  CategoryName : NullString.t;
  Type_ : string;
  TotalAmount : Z
}.
End TransactionSummaryByCategory.

(** A row of the daily summary; the Go code scans it into a
    [map[string]interface{}] with exactly these three keys. *)
Module DailySummary.
Record t : Type := mk {
  transaction_day : gotime.Date;
  type : string;
  total_amount : Z
}.
End DailySummary.

Module TransactionRepository.
Section Repo.
Context `{Collation}.

Definition with_transactions (d : DB) (ts : list Transaction.t) (next : Z) : DB :=
  mkDB (categories d) ts (categories_auto_increment d) next.

Definition owned_by (userID : Z) (t : Transaction.t) : bool :=
  Transaction.UserID t =? userID.

(** [LEFT JOIN categories c ON t.category_id = c.id]: one row per
    matching category, and one with a null name when there is none. *)
Definition left_join (cs : list Category.t) (t : Transaction.t)
  : list TransactionWithCategory.t :=
  match filter (fun c => CategoryRepository.refers_to (Category.ID c) t) cs with
  | [] => [TransactionWithCategory.mk t NullString.null]
  | ms => map (fun c => TransactionWithCategory.mk t
                          (NullString.mk (Category.Name c) true)) ms
  end.

(** [ORDER BY t.transaction_date DESC, t.id DESC] *)
Definition newest_first (a b : TransactionWithCategory.t) : bool :=
  let ta := TransactionWithCategory.Transaction a in
  let tb := TransactionWithCategory.Transaction b in
  match gotime.compare (Transaction.TransactionDate ta)
                       (Transaction.TransactionDate tb) with
  | Gt => true
  | Lt => false
  | Eq => Transaction.ID tb <=? Transaction.ID ta
  end.

Definition GetAllByUserID (ctx : Context) (userID : Z)
  : M (list TransactionWithCategory.t) :=
  check_deadline ctx "TransactionRepository.GetAllByUserID" ;;;
  issue (SelectTransactionsByOwner userID) ;;;
  d <- get_db ;;
  ret (order_by newest_first
         (flat_map (left_join (categories d))
                   (filter (owned_by userID) (transactions d)))).

(** [Where("id = ? AND user_id = ?", ID, userID).First(&result)] *)
Definition GetByIDAndUserID (ctx : Context) (ID userID : Z) : M Transaction.t :=
  check_deadline ctx "TransactionRepository.GetByIDAndUserID" ;;;
  issue (SelectTransactionByIDAndOwner ID userID) ;;;
  d <- get_db ;;
  match First Transaction.ID
          (filter (fun t => (Transaction.ID t =? ID) && owned_by userID t)
                  (transactions d)) with
  | None => fail ErrRecordNotFound
  | Some t => ret t
  end.

(** [transaction_date BETWEEN ? AND ?]: the engine reads the two strings
    as dates; a bound it cannot read compares as unknown and keeps no
    row. *)
Definition between (startDate endDate : string) (t : Transaction.t) : bool :=
  match gotime.Parse startDate, gotime.Parse endDate with
  | Some s, Some e =>
      gotime.leb s (Transaction.TransactionDate t)
      && gotime.leb (Transaction.TransactionDate t) e
  | _, _ => false
  end.

Definition in_range (userID : Z) (startDate endDate : string)
    (t : Transaction.t) : bool :=
  owned_by userID t && between startDate endDate t.

Definition same_day_type (a b : gotime.Date * string) : bool :=
  gotime.eqb (fst a) (fst b) && String.eqb (snd a) (snd b).

(** [ORDER BY transaction_day ASC, type ASC] *)
Definition day_type_leb (a b : (gotime.Date * string) * Z) : bool :=
  match gotime.compare (fst (fst a)) (fst (fst b)) with
  | Lt => true
  | Gt => false
  | Eq => enum_index (snd (fst a)) <=? enum_index (snd (fst b))
  end.

Definition GetDailySummaryByUserID (ctx : Context) (userID : Z)
    (startDate endDate : string) : M (list DailySummary.t) :=
  check_deadline ctx "TransactionRepository.GetDailySummaryByUserID" ;;;
  issue (SelectDailySummary userID startDate endDate) ;;;
  d <- get_db ;;
  let rows := filter (in_range userID startDate endDate) (transactions d) in
  let keyed := map (fun t => ((Transaction.TransactionDate t, Transaction.Type_ t),
                              Transaction.Amount t)) rows in
  ret (map (fun g => DailySummary.mk (fst (fst g)) (snd (fst g)) (snd g))
           (order_by day_type_leb (group_sum same_day_type keyed))).

Definition category_exists (d : DB) (v : NullInt64.t) : bool :=
  match NullInt64.Value v with
  | Some id => existsb (fun c => Category.ID c =? id) (categories d)
  | None => true
  end.

(** [Select(cols).Create(&params)].  [user_id], [amount], [type] and
    [transaction_date] are required and have no default; [category_id]
    and [description] default to [NULL]; [category_id] must refer to a
    category.  The use cases never pass an [ID]. *)
Definition Create (ctx : Context) (params : Transaction.t) (nonZeroVal : bool)
  : M unit :=
  check_deadline ctx "TransactionRepository.Create" ;;;
  issue (InsertTransaction params) ;;;
  d <- get_db ;;
  now <- CURRENT_TIMESTAMP ;;
  if (Transaction.UserID params =? 0)
     || (Transaction.Amount params =? 0)
     || String.eqb (Transaction.Type_ params) ""
     || gotime.IsZero (Transaction.TransactionDate params)
  then fail (EngineError ER_NO_DEFAULT_FOR_FIELD)
  else if negb (category_exists d (Transaction.CategoryID params))
  then fail (EngineError ER_NO_REFERENCED_ROW)
  else if negb (Transaction.ID params =? 0)
          && existsb (fun t => Transaction.ID t =? Transaction.ID params)
                     (transactions d)
  then fail (EngineError ER_DUP_ENTRY)
  else
    let id := if Transaction.ID params =? 0
              then transactions_auto_increment d else Transaction.ID params in
    let row := Transaction.mk id (Transaction.UserID params)
                 (NullInt64.Scan (NullInt64.Value (Transaction.CategoryID params)))
                 (Transaction.Amount params) (Transaction.Type_ params)
                 (NullString.Scan (NullString.Value (Transaction.Description params)))
                 (Transaction.TransactionDate params)
                 (or_default (Transaction.CreatedAt params) now)
                 (or_default (Transaction.UpdatedAt params) now) in
    put_db (with_transactions d (transactions d ++ [row])%list
              (Z.max (transactions_auto_increment d) (id + 1))).

(** [Updates] with the struct [changes]: only the fields of [changes] that
    are not the zero value of their type are written ([updated_at]
    always is).  The zero value of [sql.NullInt64] is the null one. *)
Definition apply_changes (now : Time) (changes old : Transaction.t)
  : Transaction.t :=
  Transaction.mk
    (if Transaction.ID changes =? 0
     then Transaction.ID old else Transaction.ID changes)
    (if Transaction.UserID changes =? 0
     then Transaction.UserID old else Transaction.UserID changes)
    (if NullInt64.IsZero (Transaction.CategoryID changes)
     then Transaction.CategoryID old
     else NullInt64.Scan (NullInt64.Value (Transaction.CategoryID changes)))
    (if Transaction.Amount changes =? 0
     then Transaction.Amount old else Transaction.Amount changes)
    (if String.eqb (Transaction.Type_ changes) ""
     then Transaction.Type_ old else Transaction.Type_ changes)
    (if NullString.IsZero (Transaction.Description changes)
     then Transaction.Description old
     else NullString.Scan (NullString.Value (Transaction.Description changes)))
    (if gotime.IsZero (Transaction.TransactionDate changes)
     then Transaction.TransactionDate old
     else Transaction.TransactionDate changes)
    (if Time_IsZero (Transaction.CreatedAt changes)
     then Transaction.CreatedAt old else Transaction.CreatedAt changes)
    (or_default (Transaction.UpdatedAt changes) now).

(** [Model(params).Where("user_id = ?", params.UserID).Updates(...)]:
    [WHERE user_id = ? AND id = ?]. *)
Definition Update (ctx : Context) (params : Transaction.t)
    (changes : option Transaction.t) : M unit :=
  check_deadline ctx "TransactionRepository.Update" ;;;
  if (Transaction.ID params =? 0) || (Transaction.UserID params =? 0) then
    fail (Wrap (SetDetail ErrInvalidRequest "Transaction ID or User ID is missing.")
               "TransactionRepository.Update")
  else
    let ch := match changes with Some c => c | None => params end in
    issue (UpdateTransaction (Transaction.ID params) (Transaction.UserID params) ch) ;;;
    d <- get_db ;;
    now <- CURRENT_TIMESTAMP ;;
    if negb (NullInt64.IsZero (Transaction.CategoryID ch))
       && negb (category_exists d (Transaction.CategoryID ch))
    then fail (Wrap (EngineError ER_NO_REFERENCED_ROW) "TransactionRepository.Update")
    else
      put_db (with_transactions d
                (map (fun t => if (Transaction.ID t =? Transaction.ID params)
                                  && owned_by (Transaction.UserID params) t
                               then apply_changes now ch t else t)
                     (transactions d))
                (transactions_auto_increment d)).

(** [Where("id = ? AND user_id = ?", id, userID).Delete(...)] *)
Definition DeleteByIDAndUserID (ctx : Context) (id userID : Z) : M unit :=
  check_deadline ctx "TransactionRepository.DeleteByIDAndUserID" ;;;
  if userID =? 0 then
    fail (Wrap (SetDetail ErrInvalidRequest "User ID is missing for delete operation.")
               "TransactionRepository.DeleteByIDAndUserID")
  else
    issue (DeleteTransaction id userID) ;;;
    d <- get_db ;;
    put_db (with_transactions d
              (filter (fun t => negb ((Transaction.ID t =? id) && owned_by userID t))
                      (transactions d))
              (transactions_auto_increment d)).

(** [COALESCE(c.name, 'Uncategorized')] over the left join. *)
Definition category_label (r : TransactionWithCategory.t) : string :=
  match NullString.Value (TransactionWithCategory.CategoryName r) with
  | Some n => n
  | None => "Uncategorized"
  end.

Definition same_label_type (a b : string * string) : bool :=
  collate_eqb (fst a) (fst b) && String.eqb (snd a) (snd b).

(** [ORDER BY category_name ASC, t.type ASC] *)
Definition label_type_leb (a b : (string * string) * Z) : bool :=
  match collate (fst (fst a)) (fst (fst b)) with
  | Lt => true
  | Gt => false
  | Eq => enum_index (snd (fst a)) <=? enum_index (snd (fst b))
  end.

Definition GetSummaryByCategoryAndTypeByUserID (ctx : Context) (userID : Z)
    (startDate endDate : string) : M (list TransactionSummaryByCategory.t) :=
  check_deadline ctx "TransactionRepository.GetSummaryByCategoryAndTypeByUserID" ;;;
  issue (SelectSummaryByCategoryAndType userID startDate endDate) ;;;
  d <- get_db ;;
  let rows := flat_map (left_join (categories d))
                (filter (in_range userID startDate endDate) (transactions d)) in
  let keyed := map (fun r => ((category_label r,
                               Transaction.Type_ (TransactionWithCategory.Transaction r)),
                              Transaction.Amount (TransactionWithCategory.Transaction r)))
                   rows in
  ret (map (fun g => TransactionSummaryByCategory.mk
                       (NullString.mk (fst (fst g)) true) (snd (fst g)) (snd g))
           (order_by label_type_leb (group_sum same_label_type keyed))).

End Repo.
End TransactionRepository.

(* ================================================================= *)
(** ** [CrudCategory] ([internal/usecase/category/crud_usecase.go]) *)

Module CategoryReq.
(** The unexported [userID] field is set by [SetUserID] and never read
    by the use case, which takes the owner as a parameter. *)
Record t : Type := mk { Name : string }.
End CategoryReq.

Module CategoryResponse.
Record t : Type := mk {
  ID : Z;
  Name : string;
  CreatedBy : Z;
  CreatedAt : string;
  UpdatedAt : string
}.
End CategoryResponse.

Definition is_some {A} (o : option A) : bool :=
  match o with Some _ => true | None => false end.

Module CrudCategory.
Section Usecase.
Context `{Collation}.

Definition already_exists (name : string) : error :=
  SetDetail ErrConflict
    ("Category with name '" ++ name ++ "' already exists for this user.").

Definition Create (ctx : Context) (userID : Z) (req : CategoryReq.t) : M unit :=
  if userID =? 0 then
    fail (SetDetail ErrInvalidRequest "User ID is required")
  else
    (* 1. duplicate name for the same user *)
    r <- call (CategoryRepository.GetByUserIDAndName ctx userID (CategoryReq.Name req)) ;;
    let (existingCategory, err) := r in
    match err with
    | Some e => if negb (errors_Is e ErrRecordNotFound) then fail e else ret tt
    | None => ret tt
    end ;;;
    (if is_some existingCategory
     then fail (already_exists (CategoryReq.Name req))
     else ret tt) ;;;
    (* 2. the record *)
    createdAt <- DatetimeNowJakarta ;;
    updatedAt <- DatetimeNowJakarta ;;
    let data := Category.mk 0 userID (CategoryReq.Name req) createdAt updatedAt in
    (* 3. the insert *)
    CategoryRepository.Create ctx data false.

(** [helper.ConvertToJakartaTime] prints a timestamp; its code is not
    among the sources and nothing below depends on what it prints. *)
Variable ConvertToJakartaTime : Time -> string.

Definition to_response (row : Category.t) : CategoryResponse.t :=
  CategoryResponse.mk (Category.ID row) (Category.Name row) (Category.CreatedBy row)
    (ConvertToJakartaTime (Category.CreatedAt row))
    (ConvertToJakartaTime (Category.UpdatedAt row)).

Definition GetAll (ctx : Context) (userID : Z) : M (list CategoryResponse.t) :=
  if userID =? 0 then
    fail (SetDetail ErrInvalidRequest "User ID is required")
  else
    data <- CategoryRepository.GetAll ctx userID ;;
    ret (map to_response data).

Definition Update (ctx : Context) (id userID : Z) (req : CategoryReq.t) : M unit :=
  if userID =? 0 then
    fail (SetDetail ErrInvalidRequest "User ID is required")
  else
    (* 1. the stored record *)
    oldData <- CategoryRepository.GetByID ctx id ;;
    (* 2. it must belong to the caller *)
    if negb (Category.CreatedBy oldData =? userID) then
      fail (SetDetail ErrUnauthorized "You are not authorized to update this category.")
    else
      (* 3. duplicate name, when the name changes *)
      (if negb (String.eqb (Category.Name oldData) (CategoryReq.Name req)) then
         r <- call (CategoryRepository.GetByUserIDAndName ctx userID
                      (CategoryReq.Name req)) ;;
         let (existingCategory, err) := r in
         match err with
         | Some e => if negb (errors_Is e ErrRecordNotFound) then fail e else ret tt
         | None => ret tt
         end ;;;
         match existingCategory with
         | Some c => if negb (Category.ID c =? id)
                     then fail (already_exists (CategoryReq.Name req))
                     else ret tt
         | None => ret tt
         end
       else ret tt) ;;;
      (* 4. the changes *)
      updatedAt <- DatetimeNowJakarta ;;
      let changes := Category.mk 0 0 (CategoryReq.Name req) 0 updatedAt in
      (* 5. the update *)
      CategoryRepository.Update ctx oldData (Some changes).

Definition Delete (ctx : Context) (id userID : Z) : M unit :=
  if userID =? 0 then
    fail (SetDetail ErrInvalidRequest "User ID is required")
  else
    oldData <- CategoryRepository.GetByID ctx id ;;
    if negb (Category.CreatedBy oldData =? userID) then
      fail (SetDetail ErrUnauthorized "You are not authorized to delete this category.")
    else
      CategoryRepository.DeleteByID ctx id.

End Usecase.
End CrudCategory.

(* ================================================================= *)
(** ** [CrudTransaction] ([internal/usecase/transactions/crud_usecase.go]) *)

Module TransactionReq.
Record t : Type := mk {
  UserID : Z;
  CategoryID : option Z;           (* [*int64] *)
  Amount : Z;
  Type_ : string;
  Description : option string;     (* [*string] *)
  TransactionDate : string
}.
End TransactionReq.

Module TransactionResponse.
Record t : Type := mk {
  ID : Z;
  UserID : Z;
  CategoryID : option Z;
  CategoryName : option string;
  Amount : Z;
  Type_ : string;
  Description : option string;
  TransactionDate : string;
  CreatedAt : string;
  UpdatedAt : string
}.
End TransactionResponse.

Module TransactionSummaryResponse.
Record t : Type := mk {
  CategoryName : option string;
  Type_ : string;
  TotalAmount : Z
}.
End TransactionSummaryResponse.

Module CrudTransaction.
Section Usecase.
Context `{Collation}.

(** [helper.ConvertToJakartaTime] prints a timestamp; its code is not
    among the sources and nothing below depends on what it prints. *)
Variable ConvertToJakartaTime : Time -> string.

Definition user_required : error :=
  SetDetail ErrInvalidRequest "User ID is required".

Definition bad_date : error :=
  SetDetail ErrInvalidRequest "Invalid transaction_date format. Use YYYY-MM-DD.".

Definition Create (ctx : Context) (userID : Z) (req : TransactionReq.t) : M unit :=
  if userID =? 0 then fail user_required
  else
    (* the category, when one is given *)
    categoryID <-
      match TransactionReq.CategoryID req with
      | Some cid =>
          if cid >? 0 then
            r <- call (CategoryRepository.GetByID ctx cid) ;;
            match r with
            | (Some category, None) =>
                if negb (Category.CreatedBy category =? userID) then
                  fail (SetDetail ErrUnauthorized
                          "You are not authorized to use this category.")
                else ret (NullInt64.mk cid true)
            | _ =>
                fail (SetDetail ErrInvalidRequest "Invalid Category ID provided.")
            end
          else ret NullInt64.null
      | None => ret NullInt64.null
      end ;;
    (* the date *)
    match gotime.Parse (TransactionReq.TransactionDate req) with
    | None => fail bad_date
    | Some parsedDate =>
        description <- deref (TransactionReq.Description req) ;;
        createdAt <- DatetimeNowJakarta ;;
        updatedAt <- DatetimeNowJakarta ;;
        let data := Transaction.mk 0 userID categoryID
                      (TransactionReq.Amount req) (TransactionReq.Type_ req)
                      (NullString.mk description
                         (is_some (TransactionReq.Description req)))
                      parsedDate createdAt updatedAt in
        TransactionRepository.Create ctx data false
    end.

Definition to_response (row : TransactionWithCategory.t) : TransactionResponse.t :=
  let t := TransactionWithCategory.Transaction row in
  TransactionResponse.mk
    (Transaction.ID t) (Transaction.UserID t)
    (NullInt64.Value (Transaction.CategoryID t))
    (NullString.Value (TransactionWithCategory.CategoryName row))
    (Transaction.Amount t) (Transaction.Type_ t)
    (NullString.Value (Transaction.Description t))
    (gotime.Format (Transaction.TransactionDate t))
    (ConvertToJakartaTime (Transaction.CreatedAt t))
    (ConvertToJakartaTime (Transaction.UpdatedAt t)).

Definition GetAll (ctx : Context) (userID : Z) : M (list TransactionResponse.t) :=
  if userID =? 0 then fail user_required
  else
    data <- TransactionRepository.GetAllByUserID ctx userID ;;
    ret (map to_response data).

Definition Update (ctx : Context) (id userID : Z) (req : TransactionReq.t) : M unit :=
  if userID =? 0 then fail user_required
  else
    (* 1. the stored record, by id and owner *)
    oldData <- TransactionRepository.GetByIDAndUserID ctx id userID ;;
    (* 2. the category *)
    newCategoryID <-
      match TransactionReq.CategoryID req with
      | Some cid =>
          if cid >? 0 then
            r <- call (CategoryRepository.GetByID ctx cid) ;;
            match r with
            | (Some category, None) =>
                if negb (Category.CreatedBy category =? userID) then
                  fail (SetDetail ErrUnauthorized
                          "You are not authorized to use this category for update.")
                else ret (NullInt64.mk cid true)
            | _ =>
                fail (SetDetail ErrInvalidRequest
                        "Invalid Category ID provided for update.")
            end
          else ret NullInt64.null
      | None => ret (NullInt64.mk 0 false)   (* "set menjadi NULL di DB" *)
      end ;;
    (* the date, when one is given *)
    parsedDate <-
      (if negb (String.eqb (TransactionReq.TransactionDate req) "") then
         match gotime.Parse (TransactionReq.TransactionDate req) with
         | None => fail bad_date
         | Some d => ret d
         end
       else ret (Transaction.TransactionDate oldData)) ;;
    updatedAt <- DatetimeNowJakarta ;;
    description <- deref (TransactionReq.Description req) ;;
    let changes := Transaction.mk 0 0 newCategoryID
                     (TransactionReq.Amount req) (TransactionReq.Type_ req)
                     (NullString.mk description
                        (is_some (TransactionReq.Description req)))
                     parsedDate 0 updatedAt in
    TransactionRepository.Update ctx oldData (Some changes).

Definition Delete (ctx : Context) (id userID : Z) : M unit :=
  if userID =? 0 then fail user_required
  else
    _ <- TransactionRepository.GetByIDAndUserID ctx id userID ;;
    TransactionRepository.DeleteByIDAndUserID ctx id userID.

Definition bad_start_date : error :=
  SetDetail ErrInvalidRequest "Invalid start_date format. Use YYYY-MM-DD.".
Definition bad_end_date : error :=
  SetDetail ErrInvalidRequest "Invalid end_date format. Use YYYY-MM-DD.".

Definition GetDailySummary (ctx : Context) (userID : Z) (startDate endDate : string)
  : M (list DailySummary.t) :=
  if userID =? 0 then fail user_required
  else
    match gotime.Parse startDate with
    | None => fail bad_start_date
    | Some _ =>
        match gotime.Parse endDate with
        | None => fail bad_end_date
        | Some _ =>
            TransactionRepository.GetDailySummaryByUserID ctx userID startDate endDate
        end
    end.

Definition to_summary (row : TransactionSummaryByCategory.t)
  : TransactionSummaryResponse.t :=
  TransactionSummaryResponse.mk
    (NullString.Value (TransactionSummaryByCategory.CategoryName row))
    (TransactionSummaryByCategory.Type_ row)
    (TransactionSummaryByCategory.TotalAmount row).

Definition GetSummaryByCategoryAndType (ctx : Context) (userID : Z)
    (startDate endDate : string) : M (list TransactionSummaryResponse.t) :=
  if userID =? 0 then fail user_required
  else
    match gotime.Parse startDate with
    | None => fail bad_start_date
    | Some _ =>
        match gotime.Parse endDate with
        | None => fail bad_end_date
        | Some _ =>
            data <- TransactionRepository.GetSummaryByCategoryAndTypeByUserID
                      ctx userID startDate endDate ;;
            ret (map to_summary data)
        end
    end.

End Usecase.
End CrudTransaction.

(* ================================================================= *)
(** ** [TransactionHandler] ([internal/http/handler/auth_transactions_handler.go]) *)

Module TransactionHandler.

(** Modelled from the spec: [parser.ParserBodyRequestWithUserID] is not
    among the sources.  The request decoder "must produce the
    per-operation request shape ... already bound with the
    structurally-correct field types", and the shape declares its rules
    in the [validate] tags of [TransactionReq]:
    [Amount] [required,gt=0]; [Type] [required,oneof=income expense];
    [TransactionDate] [required,datetime=2006-01-02]. *)
Definition validate (req : TransactionReq.t) : bool :=
  negb (TransactionReq.Amount req =? 0) && (0 <? TransactionReq.Amount req)
  && negb (String.eqb (TransactionReq.Type_ req) "")
  && (String.eqb (TransactionReq.Type_ req) "income"
      || String.eqb (TransactionReq.Type_ req) "expense")
  && negb (String.eqb (TransactionReq.TransactionDate req) "")
  && is_some (gotime.Parse (TransactionReq.TransactionDate req)).

Definition ParserBodyRequestWithUserID (body : TransactionReq.t)
  : M TransactionReq.t :=
  if validate body then ret body
  else fail (SetDetail ErrInvalidRequest "invalid payload").

Definition no_user : error :=
  SetDetail ErrUnauthorized "User ID not found in context (from JWT).".

(** [c.Locals("user_id").(int64)]: [None] when the assertion fails. *)
Definition Create (ctx : Context) (user_id : option Z) (body : TransactionReq.t)
  : M unit :=
  req <- ParserBodyRequestWithUserID body ;;
  match user_id with
  | Some userID =>
      if userID =? 0 then fail no_user
      else CrudTransaction.Create ctx userID req
  | None => fail no_user
  end.

Definition Update (ctx : Context) (id : Z) (user_id : option Z)
    (body : TransactionReq.t) : M unit :=
  if id <=? 0 then
    fail (SetDetail ErrInvalidRequest "Invalid transaction ID format.")
  else
    req <- ParserBodyRequestWithUserID body ;;
    match user_id with
    | Some userID =>
        if userID =? 0 then fail no_user
        else CrudTransaction.Update ctx id userID req
    | None => fail no_user
    end.

End TransactionHandler.

(* ================================================================= *)
(** ** Two collations to run the model with *)

Lemma string_compare_refl (s : string) : String.compare s s = Eq.
Proof.
  induction s as [|c s IH]; simpl; [reflexivity|].
  unfold Ascii.compare. now rewrite N.compare_refl.
Qed.

(** A binary collation: names are equal when they are the same bytes. *)
Definition binary_collation : Collation :=
  {| collate := String.compare; collate_refl := string_compare_refl |}.

Definition upper (c : ascii) : ascii :=
  let n := nat_of_ascii c in
  if ((97 <=? n) && (n <=? 122))%nat then ascii_of_nat (n - 32) else c.

Fixpoint upper_string (s : string) : string :=
  match s with
  | EmptyString => EmptyString
  | String c s' => String (upper c) (upper_string s')
  end.

(** A case-insensitive collation on ASCII letters, as [utf8mb4_general_ci]
    is on them. *)
Definition ascii_ci_collation : Collation :=
  {| collate := fun a b => String.compare (upper_string a) (upper_string b);
     collate_refl := fun s => string_compare_refl (upper_string s) |}.

(* ================================================================= *)
(** ** A small world to run the model on *)

Definition empty_db : DB := mkDB [] [] 1 1.

(** User 1 owns category 1 ("Food") and transaction 1; user 2 owns
    category 2 ("Food") and transaction 2. *)
Definition sample_db : DB :=
  mkDB
    [ Category.mk 1 1 "Food" 100 100; Category.mk 2 2 "Food" 100 100 ]
    [ Transaction.mk 1 1 (NullInt64.mk 1 true) 5000 "expense"
        (NullString.mk "lunch" true) (gotime.mkDate 2024 1 15) 100 100;
      Transaction.mk 2 2 NullInt64.null 2500 "expense"
        (NullString.mk "bus" true) (gotime.mkDate 2024 1 15) 100 100 ]
    3 3.

Definition sample_world : World := mkWorld sample_db 200 [].

(* ================================================================= *)
(** ** The vocabulary of the statements *)

(** *** Tables and worlds *)

(** The primary keys of the two tables. *)
Definition primary_keys (d : DB) : Prop :=
  NoDup (map Category.ID (categories d))
  /\ NoDup (map Transaction.ID (transactions d)).

(** No row has an id the counter of its table has yet to hand out. *)
Definition below_counters (d : DB) : Prop :=
  (forall c, In c (categories d) -> Category.ID c < categories_auto_increment d)
  /\ (forall t, In t (transactions d) ->
                Transaction.ID t < transactions_auto_increment d).

Definition well_formed (d : DB) : Prop := primary_keys d /\ below_counters d.

(** The world after one more statement has gone to the engine. *)
Definition logged (w : World) (s : Stmt) : World :=
  mkWorld (db w) (clock w) (trace w ++ [s])%list.

Definition live (ctx : Context) : Prop := deadline_exceeded ctx = false.

(** The world moved on by statements that only read. *)
Definition only_reads (w w' : World) : Prop :=
  db w' = db w /\ clock w' = clock w
  /\ exists reads, trace w' = (trace w ++ reads)%list
                   /\ forallb (fun s => negb (is_write s)) reads = true.

(** *** Categories *)

(** The duplicate check of [Create] and [Update], as a query. *)
Definition named_like `{Collation} (userID : Z) (name : string)
    (c : Category.t) : bool :=
  (Category.CreatedBy c =? userID) && collate_eqb (Category.Name c) name.

Definition find_by_name `{Collation} (d : DB) (userID : Z) (name : string)
  : option Category.t :=
  First Category.ID (filter (named_like userID name) (categories d)).

(** Somebody else's record of the caller already has the name. *)
Definition name_taken `{Collation} (d : DB) (id userID : Z) (name : string)
  : bool :=
  match find_by_name d userID name with
  | Some c => negb (Category.ID c =? id)
  | None => false
  end.

(** What [Update] writes on a row: the name (an empty name is a zero
    value and is not written) and [updated_at]. *)
Definition renamed (name : string) (now : Time) (c : Category.t) : Category.t :=
  Category.mk (Category.ID c) (Category.CreatedBy c)
    (if String.eqb name "" then Category.Name c else name)
    (Category.CreatedAt c) now.

Definition after_update (w : World) (id : Z) (name : string)
    (reads : list Stmt) : World :=
  mkWorld
    (mkDB (map (fun c => if Category.ID c =? id
                         then renamed name (clock w) c else c)
               (categories (db w)))
          (transactions (db w))
          (categories_auto_increment (db w))
          (transactions_auto_increment (db w)))
    (clock w)
    (trace w ++ reads
       ++ [UpdateCategory id (Category.mk 0 0 name 0 (clock w))])%list.

Definition after_delete (w : World) (id : Z) : World :=
  mkWorld
    (mkDB (filter (fun c => negb (Category.ID c =? id)) (categories (db w)))
          (map (fun t => if CategoryRepository.refers_to id t
                         then CategoryRepository.clear_category t else t)
               (transactions (db w)))
          (categories_auto_increment (db w))
          (transactions_auto_increment (db w)))
    (clock w)
    (trace w ++ [SelectCategoryByID id; DeleteCategory id])%list.

(** *** Dates *)


(** *** Rejections *)


Definition rejected_before_storage {A} (r : result A * World) (w : World) : Prop :=
  (exists e, fst r = Fail e) /\ db (snd r) = db w.

(** *** Transactions *)

(** The category step that [Create] and [Update] share: it either fails
    with invalid-request or unauthorized, or hands on a category id; it
    sends at most the fetch of the category. *)
Definition category_step (ctx : Context) (userID : Z) (cid : option Z)
    (denied invalid : string) : M NullInt64.t :=
  match cid with
  | Some cid =>
      if cid >? 0 then
        r <- call (CategoryRepository.GetByID ctx cid) ;;
        match r with
        | (Some category, None) =>
            if negb (Category.CreatedBy category =? userID) then
              fail (SetDetail ErrUnauthorized denied)
            else ret (NullInt64.mk cid true)
        | _ => fail (SetDetail ErrInvalidRequest invalid)
        end
      else ret NullInt64.null
  | None => ret NullInt64.null
  end.

(** How the [category_id] of a request resolves for a user: to no
    category, when it is absent or not positive, or to a category of
    theirs. *)
Definition resolved (d : DB) (userID : Z) (cid : option Z)
    (cat : option Category.t) : Prop :=
  match cat with
  | None => cid = None \/ exists n, cid = Some n /\ n <= 0
  | Some c => In c (categories d) /\ cid = Some (Category.ID c)
              /\ 0 < Category.ID c /\ Category.CreatedBy c = userID
  end.

Definition category_ref (cat : option Category.t) : NullInt64.t :=
  match cat with
  | Some c => NullInt64.mk (Category.ID c) true
  | None => NullInt64.null
  end.

Definition after_category_step (w : World) (cat : option Category.t) : World :=
  match cat with
  | Some c => logged w (SelectCategoryByID (Category.ID c))
  | None => w
  end.


(** The changes the service hands to the store. *)
Definition changes_of (w : World) (cat : option Category.t)
    (req : TransactionReq.t) (text : string) (d : gotime.Date) : Transaction.t :=
  Transaction.mk 0 0 (category_ref cat)
    (TransactionReq.Amount req) (TransactionReq.Type_ req)
    (NullString.mk text true) d 0 (clock w).

(** The date the service puts into the changes: the stored one for a
    blank date, the parsed one otherwise. *)
Definition date_of (req : TransactionReq.t) (old : Transaction.t)
    : option gotime.Date :=
  if String.eqb (TransactionReq.TransactionDate req) ""
  then Some (Transaction.TransactionDate old)
  else gotime.Parse (TransactionReq.TransactionDate req).

(** *** Requests to run the model on *)

(** The request of the spec's scenario: 50.00, an expense, 2024-01-15, no
    category, and no description. *)
Definition undescribed : TransactionReq.t :=
  TransactionReq.mk 0 None 5000 "expense" None "2024-01-15".

Definition refund : TransactionReq.t :=
  TransactionReq.mk 0 None (-500) "expense" (Some "refund") "2024-01-16".

Definition salary : TransactionReq.t :=
  TransactionReq.mk 0 None 7500 "income" (Some "salary") "".



(** *** What the services may do to the tables *)

(** A category reference a user may store: null, or a category of
    theirs. *)
Definition category_ok (d : DB) (userID : Z) (v : NullInt64.t) : Prop :=
  NullInt64.Valid v = true ->
  exists c, In c (categories d)
            /\ Category.ID c = NullInt64.Int64 v
            /\ Category.CreatedBy c = userID.

(** Every transaction with a category has one of its own user. *)
Definition references_ok (d : DB) : Prop :=
  forall t, In t (transactions d) ->
            category_ok d (Transaction.UserID t) (Transaction.CategoryID t).

Definition tables_after_delete (d : DB) (id : Z) : DB :=
  mkDB (filter (fun c => negb (Category.ID c =? id)) (categories d))
       (map (fun t => if CategoryRepository.refers_to id t
                      then CategoryRepository.clear_category t else t)
            (transactions d))
       (categories_auto_increment d)
       (transactions_auto_increment d).

(** The steps a call made for a user takes the tables through: none, or
    one of six. *)
Inductive change (userID : Z) (d : DB) : DB -> Prop :=
| change_nothing : change userID d d
| transaction_added (row : Transaction.t) :
    Transaction.ID row = transactions_auto_increment d ->
    Transaction.UserID row = userID ->
    category_ok d userID (Transaction.CategoryID row) ->
    change userID d
      (mkDB (categories d) (transactions d ++ [row])%list
            (categories_auto_increment d) (transactions_auto_increment d + 1))
| transaction_changed (id : Z) (now : Time) (ch : Transaction.t) :
    Transaction.ID ch = 0 -> Transaction.UserID ch = 0 ->
    Transaction.CreatedAt ch = 0 ->
    category_ok d userID (Transaction.CategoryID ch) ->
    change userID d
      (mkDB (categories d)
            (map (fun t => if (Transaction.ID t =? id)
                              && TransactionRepository.owned_by userID t
                           then TransactionRepository.apply_changes now ch t
                           else t)
                 (transactions d))
            (categories_auto_increment d) (transactions_auto_increment d))
| transaction_removed (id : Z) :
    change userID d
      (mkDB (categories d)
            (filter (fun t => negb ((Transaction.ID t =? id)
                                    && TransactionRepository.owned_by userID t))
                    (transactions d))
            (categories_auto_increment d) (transactions_auto_increment d))
| category_added (row : Category.t) :
    Category.ID row = categories_auto_increment d ->
    Category.CreatedBy row = userID ->
    change userID d
      (mkDB (categories d ++ [row])%list (transactions d)
            (categories_auto_increment d + 1) (transactions_auto_increment d))
| category_renamed (c : Category.t) (name : string) (now : Time) :
    In c (categories d) -> Category.CreatedBy c = userID ->
    change userID d
      (mkDB (map (fun x => if Category.ID x =? Category.ID c
                           then renamed name now x else x)
                 (categories d))
            (transactions d)
            (categories_auto_increment d) (transactions_auto_increment d))
| category_removed (c : Category.t) :
    In c (categories d) -> Category.CreatedBy c = userID ->
    change userID d (tables_after_delete d (Category.ID c)).

(** Tables the services can have produced: keys unique and handed out by
    the counters, references within one user. *)
Definition consistent (d : DB) : Prop := well_formed d /\ references_ok d.

Definition created_by (userID : Z) (c : Category.t) : bool :=
  Category.CreatedBy c =? userID.

(** What a user gets to read: the four reading operations, answered for
    that user. *)
Definition reads `{Collation} (ConvertToJakartaTime : Time -> string)
    (ctx : Context) (userID : Z) (startDate endDate : string) (w : World) :=
  (fst (CrudCategory.GetAll ConvertToJakartaTime ctx userID w),
   fst (CrudTransaction.GetAll ConvertToJakartaTime ctx userID w),
   fst (CrudTransaction.GetDailySummary ctx userID startDate endDate w),
   fst (CrudTransaction.GetSummaryByCategoryAndType ctx userID startDate endDate w)).

(** A call that was stopped: it did not answer with a result, and the
    world is as it was, no statement sent. *)
Definition stopped {A} (r : result A * World) (w : World) : Prop :=
  snd r = w /\ forall a, fst r <> Ok a.

(** Everything of a transaction but its category. *)
Definition uncategorised (t : Transaction.t) : Transaction.t :=
  CategoryRepository.clear_category t.

Definition is_target (id userID : Z) (t : Transaction.t) : bool :=
  (Transaction.ID t =? id) && TransactionRepository.owned_by userID t.

(** No user has two categories under one name, as the collation reads
    names. *)
Definition names_unique `{Collation} (d : DB) : Prop :=
  forall c1 c2, In c1 (categories d) -> In c2 (categories d) ->
                Category.CreatedBy c1 = Category.CreatedBy c2 ->
                collate_eqb (Category.Name c1) (Category.Name c2) = true ->
                Category.ID c1 = Category.ID c2.

(** Equality of names under the collation is symmetric and transitive, as
    it is for the collations of the engine. *)
Definition collation_equivalence `{Collation} : Prop :=
  (forall a b, collate_eqb a b = true -> collate_eqb b a = true)
  /\ (forall a b c, collate_eqb a b = true -> collate_eqb b c = true ->
                    collate_eqb a c = true).

(** *** Sums and groups *)

Definition sum_amounts (ts : list Transaction.t) : Z :=
  fold_right (fun t acc => Transaction.Amount t + acc) 0 ts.

Definition sum_values {K} (rows : list (K * Z)) : Z :=
  fold_right (fun r acc => snd r + acc) 0 rows.

(** The sum of the rows whose key is [k], as [same] reads keys. *)
Definition total_for {K} (same : K -> K -> bool) (k : K) (rows : list (K * Z)) : Z :=
  sum_values (filter (fun r => same (fst r) k) rows).

(** No two keys of the list are the same. *)
Fixpoint distinct_keys {K} (same : K -> K -> bool) (ks : list K) : Prop :=
  match ks with
  | [] => True
  | k :: rest => (forall k', In k' rest -> same k k' = false)
                 /\ distinct_keys same rest
  end.

(** The label the category summary puts a transaction under: the name of
    its category, or [Uncategorized]. *)
Definition label_of (cs : list Category.t) (t : Transaction.t) : string :=
  match filter (fun c => CategoryRepository.refers_to (Category.ID c) t) cs with
  | [] => "Uncategorized"
  | c :: _ => Category.Name c
  end.

(** The row of the list for a transaction: the transaction with the name
    of its category, when it has one. *)
Definition joined (cs : list Category.t) (t : Transaction.t)
  : TransactionWithCategory.t :=
  TransactionWithCategory.mk t
    (match filter (fun c => CategoryRepository.refers_to (Category.ID c) t) cs with
     | [] => NullString.null
     | c :: _ => NullString.mk (Category.Name c) true
     end).

(** The date [a] is before the date [b]. *)
Definition before (a b : gotime.Date) : Prop :=
  gotime.year a < gotime.year b
  \/ (gotime.year a = gotime.year b
      /\ (gotime.month a < gotime.month b
          \/ (gotime.month a = gotime.month b /\ gotime.day a < gotime.day b))).

Definition on_day_of_type (day : gotime.Date) (type : string)
    (t : Transaction.t) : bool :=
  TransactionRepository.same_day_type
    (Transaction.TransactionDate t, Transaction.Type_ t) (day, type).

Definition sum_Z (l : list Z) : Z := fold_right Z.add 0 l.

Definition under_label `{Collation} (cs : list Category.t) (label type : string)
    (t : Transaction.t) : bool :=
  TransactionRepository.same_label_type
    (label_of cs t, Transaction.Type_ t) (label, type).

(** What the list of categories shows of a row after a rename. *)
Definition shown_renamed (id : Z) (name updatedAt : string)
    (r : CategoryResponse.t) : CategoryResponse.t :=
  if CategoryResponse.ID r =? id
  then CategoryResponse.mk (CategoryResponse.ID r)
         (if String.eqb name "" then CategoryResponse.Name r else name)
         (CategoryResponse.CreatedBy r) (CategoryResponse.CreatedAt r) updatedAt
  else r.

(** What the list of transactions shows of a row once category [id] is
    deleted: the row without its category, when that was its category. *)
Definition shown_uncategorised (id : Z) (r : TransactionResponse.t)
  : TransactionResponse.t :=
  match TransactionResponse.CategoryID r with
  | Some c =>
      if c =? id
      then TransactionResponse.mk (TransactionResponse.ID r)
             (TransactionResponse.UserID r) None None
             (TransactionResponse.Amount r) (TransactionResponse.Type_ r)
             (TransactionResponse.Description r)
             (TransactionResponse.TransactionDate r)
             (TransactionResponse.CreatedAt r) (TransactionResponse.UpdatedAt r)
      else r
  | None => r
  end.

(** What the list of transactions shows of a row once category [id] has
    the name [name]: the row under that name, when that is its
    category. *)
Definition shown_under (id : Z) (name : string) (r : TransactionResponse.t)
  : TransactionResponse.t :=
  match TransactionResponse.CategoryID r, TransactionResponse.CategoryName r with
  | Some c, Some _ =>
      if (c =? id) && negb (String.eqb name "")
      then TransactionResponse.mk (TransactionResponse.ID r)
             (TransactionResponse.UserID r) (Some c) (Some name)
             (TransactionResponse.Amount r) (TransactionResponse.Type_ r)
             (TransactionResponse.Description r)
             (TransactionResponse.TransactionDate r)
             (TransactionResponse.CreatedAt r) (TransactionResponse.UpdatedAt r)
      else r
  | _, _ => r
  end.

(* ================================================================= *)
(** * Properties *)

(** ** Lists, [First], primary keys *)

Lemma First_None {A} (id : A -> Z) (rows : list A) :
  First id rows = None <-> rows = [].
Proof.
  destruct rows as [|r rest]; simpl; [tauto|].
  split; [|discriminate].
  destruct (First id rest) as [r'|]; [destruct (id r' <? id r)|]; discriminate.
Qed.

Lemma First_In {A} (id : A -> Z) (rows : list A) (r : A) :
  First id rows = Some r -> In r rows.
Proof.
  revert r. induction rows as [|x rest IH]; simpl; intros r Hr; [discriminate|].
  destruct (First id rest) as [r'|] eqn:E.
  - destruct (id r' <? id x); inversion Hr; subst; auto.
  - inversion Hr; auto.
Qed.

Lemma First_singleton {A} (id : A -> Z) (r : A) : First id [r] = Some r.
Proof. reflexivity. Qed.

(** What [First] finds satisfies the [WHERE] it was run over. *)
Lemma First_filter {A} (id : A -> Z) (p : A -> bool) (rows : list A) (r : A) :
  First id (filter p rows) = Some r -> In r rows /\ p r = true.
Proof. intros Hr. apply First_In in Hr. now apply filter_In in Hr. Qed.

Lemma filter_nil {A} (p : A -> bool) (l : list A) :
  (forall x, In x l -> p x = false) -> filter p l = [].
Proof.
  induction l as [|x l IH]; simpl; intros Hl; [reflexivity|].
  rewrite (Hl x) by auto. apply IH. auto.
Qed.

(** Under a primary key, a [WHERE id = ?] keeps exactly the row with that
    key. *)
Lemma filter_key {A} (id : A -> Z) (l : list A) (r : A) :
  NoDup (map id l) -> In r l ->
  filter (fun x => id x =? id r) l = [r].
Proof.
  induction l as [|x l IH]; simpl; intros Hnd Hin; [contradiction|].
  inversion Hnd as [|? ? Hx Hl]; subst.
  destruct Hin as [->|Hin].
  - rewrite Z.eqb_refl. f_equal. apply filter_nil.
    intros y Hy. apply Z.eqb_neq. intros Heq. apply Hx.
    rewrite <- Heq. now apply in_map.
  - destruct (id x =? id r) eqn:E.
    + apply Z.eqb_eq in E. exfalso. apply Hx. rewrite E. now apply in_map.
    + now apply IH.
Qed.

Lemma or_default_same (t : Time) : or_default t t = t.
Proof. unfold or_default. now destruct (Time_IsZero t). Qed.

Ltac run_m :=
  unfold bind, ret, fail, panic, call, deref, issue, get_db, put_db,
    DatetimeNowJakarta, CURRENT_TIMESTAMP, check_deadline, CheckDeadline, logged in *;
  simpl in *.

(** ** The repositories under a live context *)

Lemma CategoryRepository_GetByID_run (ctx : Context) (id : Z) (w : World) :
  live ctx ->
  CategoryRepository.GetByID ctx id w =
  (match First Category.ID
           (filter (fun c => Category.ID c =? id) (categories (db w))) with
   | None => Fail ErrRecordNotFound
   | Some c => Ok c
   end, logged w (SelectCategoryByID id)).
Proof.
  intros Hctx. unfold CategoryRepository.GetByID. run_m. rewrite Hctx. simpl.
  now destruct (First _ _).
Qed.

Lemma CategoryRepository_GetByUserIDAndName_run `{Collation}
    (ctx : Context) (userID : Z) (name : string) (w : World) :
  live ctx ->
  CategoryRepository.GetByUserIDAndName ctx userID name w =
  (match First Category.ID
           (filter (fun c => (Category.CreatedBy c =? userID)
                             && collate_eqb (Category.Name c) name)
                   (categories (db w))) with
   | None => Fail ErrRecordNotFound
   | Some c => Ok c
   end, logged w (SelectCategoryByOwnerAndName userID name)).
Proof.
  intros Hctx. unfold CategoryRepository.GetByUserIDAndName. run_m.
  rewrite Hctx. simpl. now destruct (First _ _).
Qed.

Lemma TransactionRepository_GetByIDAndUserID_run
    (ctx : Context) (id userID : Z) (w : World) :
  live ctx ->
  TransactionRepository.GetByIDAndUserID ctx id userID w =
  (match First Transaction.ID
           (filter (fun t => (Transaction.ID t =? id)
                             && TransactionRepository.owned_by userID t)
                   (transactions (db w))) with
   | None => Fail ErrRecordNotFound
   | Some t => Ok t
   end, logged w (SelectTransactionByIDAndOwner id userID)).
Proof.
  intros Hctx. unfold TransactionRepository.GetByIDAndUserID. run_m.
  rewrite Hctx. simpl. now destruct (First _ _).
Qed.

(** The owner-scoped fetch finds nothing under an id that belongs to
    somebody else. *)
Lemma foreign_transaction_hidden (d : DB) (t : Transaction.t) (a : Z) :
  primary_keys d ->
  In t (transactions d) ->
  Transaction.UserID t <> a ->
  filter (fun x => (Transaction.ID x =? Transaction.ID t)
                   && TransactionRepository.owned_by a x) (transactions d) = [].
Proof.
  intros [_ Hpk] Hin Hne. apply filter_nil. intros x Hx.
  destruct (Transaction.ID x =? Transaction.ID t) eqn:E; [|reflexivity].
  simpl. unfold TransactionRepository.owned_by. apply Z.eqb_neq.
  assert (Hf : In x (filter (fun y => Transaction.ID y =? Transaction.ID t)
                            (transactions d))).
  { apply filter_In. now split. }
  rewrite (filter_key Transaction.ID _ t Hpk Hin) in Hf.
  destruct Hf as [->|[]]. exact Hne.
Qed.

(* ----------------------------------------------------------------- *)
(** ** C1: somebody else's transaction is not found *)

(** C1. For every transaction id and every two distinct user ids [a] and
    [b]: when the transaction with that id is owned by [b], an update and
    a delete attempted by [a] both fail with the record-not-found error
    (not with unauthorized), because the fetch asks for id and owner
    together; the tables are left exactly as they were, and the only
    statement that went to the engine is that fetch. *)
Theorem C1_foreign_transaction_not_found
    (ctx : Context) (a b : Z) (t : Transaction.t)
    (req : TransactionReq.t) (w : World) :
  live ctx ->
  primary_keys (db w) ->
  In t (transactions (db w)) ->
  Transaction.UserID t = b ->
  a <> 0 -> a <> b ->
  let fetched := logged w (SelectTransactionByIDAndOwner (Transaction.ID t) a) in
  CrudTransaction.Update ctx (Transaction.ID t) a req w
    = (Fail ErrRecordNotFound, fetched)
  /\ CrudTransaction.Delete ctx (Transaction.ID t) a w
    = (Fail ErrRecordNotFound, fetched)
  /\ kind_of ErrRecordNotFound = Some apperr.RecordNotFound
  /\ db fetched = db w
  /\ In t (transactions (db fetched)).
Proof.
  intros Hctx Hpk Hin Hb Ha Hab fetched.
  assert (Hne : Transaction.UserID t <> a) by congruence.
  pose proof (foreign_transaction_hidden _ _ _ Hpk Hin Hne) as Hnone.
  apply Z.eqb_neq in Ha.
  repeat split; try assumption.
  - unfold CrudTransaction.Update. rewrite Ha. unfold bind at 1.
    rewrite TransactionRepository_GetByIDAndUserID_run by assumption.
    now rewrite Hnone.
  - unfold CrudTransaction.Delete. rewrite Ha. unfold bind at 1.
    rewrite TransactionRepository_GetByIDAndUserID_run by assumption.
    now rewrite Hnone.
Qed.

Lemma sample_primary_keys : primary_keys sample_db.
Proof.
  split; simpl; repeat constructor; simpl; intuition discriminate.
Qed.

Lemma C1_witness :
  CrudTransaction.Update background 2 1
    (TransactionReq.mk 0 None 100 "income" (Some "mine now") "2024-02-01")
    sample_world
    = (Fail ErrRecordNotFound,
       logged sample_world (SelectTransactionByIDAndOwner 2 1)).
Proof.
  apply (C1_foreign_transaction_not_found background 1 2
           (Transaction.mk 2 2 NullInt64.null 2500 "expense"
              (NullString.mk "bus" true) (gotime.mkDate 2024 1 15) 100 100)
           (TransactionReq.mk 0 None 100 "income" (Some "mine now") "2024-02-01")
           sample_world).
  - reflexivity.
  - exact sample_primary_keys.
  - simpl. auto.
  - reflexivity.
  - lia.
  - lia.
Defined.

(* ----------------------------------------------------------------- *)
(** ** C2: one name per owner *)

Lemma First_of_inhabited {A} (id : A -> Z) (p : A -> bool) (l : list A) (x : A) :
  In x l -> p x = true -> exists r, First id (filter p l) = Some r.
Proof.
  intros Hin Hp.
  destruct (First id (filter p l)) as [r|] eqn:E; [now exists r|].
  apply First_None in E.
  assert (Hx : In x (filter p l)) by (apply filter_In; now split).
  rewrite E in Hx. contradiction.
Qed.

Section CategoryNames.
Context `{Collation}.

Lemma collate_eqb_refl (s : string) : collate_eqb s s = true.
Proof. unfold collate_eqb. now rewrite collate_refl. Qed.

Lemma Create_conflict (ctx : Context) (owner : Z) (name : string)
    (c : Category.t) (w : World) :
  live ctx -> owner <> 0 ->
  find_by_name (db w) owner name = Some c ->
  CrudCategory.Create ctx owner (CategoryReq.mk name) w
  = (Fail (CrudCategory.already_exists name),
     logged w (SelectCategoryByOwnerAndName owner name)).
Proof.
  intros Hctx Ho Hc. apply Z.eqb_neq in Ho.
  unfold CrudCategory.Create. rewrite Ho. simpl CategoryReq.Name.
  unfold bind at 1, call.
  rewrite CategoryRepository_GetByUserIDAndName_run by assumption.
  unfold find_by_name, named_like in Hc. rewrite Hc. reflexivity.
Qed.

Lemma Create_fresh (ctx : Context) (owner : Z) (name : string) (w : World) :
  live ctx -> owner <> 0 -> name <> "" ->
  find_by_name (db w) owner name = None ->
  CrudCategory.Create ctx owner (CategoryReq.mk name) w
  = (Ok tt,
     let row := Category.mk (categories_auto_increment (db w)) owner name
                  (clock w) (clock w) in
     mkWorld
       (mkDB (categories (db w) ++ [row])%list (transactions (db w))
             (Z.max (categories_auto_increment (db w))
                    (categories_auto_increment (db w) + 1))
             (transactions_auto_increment (db w)))
       (clock w)
       (trace w ++ [SelectCategoryByOwnerAndName owner name;
                    InsertCategory (Category.mk 0 owner name (clock w) (clock w))])%list).
Proof.
  intros Hctx Ho Hn Hc. apply Z.eqb_neq in Ho. apply String.eqb_neq in Hn.
  unfold CrudCategory.Create. rewrite Ho. simpl CategoryReq.Name.
  unfold bind at 1, call.
  rewrite CategoryRepository_GetByUserIDAndName_run by assumption.
  unfold find_by_name, named_like in Hc. rewrite Hc.
  unfold CategoryRepository.Create. run_m. rewrite Hctx. simpl.
  rewrite Hn. simpl. rewrite !or_default_same, <- app_assoc. reflexivity.
Qed.

(** C2. For every owner and every category name: when the owner already
    has a category with that name, creating another one fails with the
    conflict error and leaves the tables as they were; creating a
    category with that same name for a different owner, who has none of
    that name yet, succeeds and appends the new category, owned by that
    other owner. *)
Theorem C2_duplicate_name_conflict
    (ctx : Context) (owner other : Z) (name : string)
    (c : Category.t) (w : World) :
  live ctx ->
  In c (categories (db w)) ->
  Category.CreatedBy c = owner ->
  Category.Name c = name ->
  owner <> 0 ->
  (let r := CrudCategory.Create ctx owner (CategoryReq.mk name) w in
   fst r = Fail (CrudCategory.already_exists name)
   /\ kind_of (CrudCategory.already_exists name) = Some apperr.Conflict
   /\ db (snd r) = db w)
  /\ (other <> 0 -> other <> owner -> name <> "" ->
      find_by_name (db w) other name = None ->
      let r := CrudCategory.Create ctx other (CategoryReq.mk name) w in
      fst r = Ok tt
      /\ categories (db (snd r))
         = (categories (db w)
            ++ [Category.mk (categories_auto_increment (db w)) other name
                  (clock w) (clock w)])%list
      /\ transactions (db (snd r)) = transactions (db w)).
Proof.
  intros Hctx Hin Hby Hname Ho. split.
  - destruct (First_of_inhabited Category.ID (named_like owner name)
                (categories (db w)) c Hin) as [c0 Hc0].
    { unfold named_like. rewrite Hby, Hname, Z.eqb_refl, collate_eqb_refl.
      reflexivity. }
    rewrite (Create_conflict ctx owner name c0 w Hctx Ho Hc0).
    repeat split.
  - intros Hother _ Hn Hnone.
    rewrite (Create_fresh ctx other name w Hctx Hother Hn Hnone).
    repeat split.
Qed.

End CategoryNames.

(** User 1 has "Food" and may not have it twice; user 3 has no category
    and may have a "Food" of their own. *)
Lemma C2_witness :
  fst (@CrudCategory.Create binary_collation background 1
         (CategoryReq.mk "Food") sample_world)
  = Fail (CrudCategory.already_exists "Food")
  /\ fst (@CrudCategory.Create binary_collation background 3
            (CategoryReq.mk "Food") sample_world)
     = Ok tt.
Proof.
  pose proof (@C2_duplicate_name_conflict binary_collation background 1 3 "Food"
                (Category.mk 1 1 "Food" 100 100) sample_world) as P.
  destruct P as [[P1 _] P2].
  - reflexivity.
  - simpl. auto.
  - reflexivity.
  - reflexivity.
  - lia.
  - split; [exact P1|].
    apply P2; [lia | lia | discriminate | reflexivity].
Defined.

(** The scenario of the spec, run: A creates "Food", B creates "Food",
    A creates "Food" again. *)
Example food_scenario :
  let c := binary_collation in
  let w0 := mkWorld empty_db 200 [] in
  let r1 := @CrudCategory.Create c background 1 (CategoryReq.mk "Food") w0 in
  let r2 := @CrudCategory.Create c background 2 (CategoryReq.mk "Food") (snd r1) in
  let r3 := @CrudCategory.Create c background 1 (CategoryReq.mk "Food") (snd r2) in
  fst r1 = Ok tt /\ fst r2 = Ok tt
  /\ fst r3 = Fail (CrudCategory.already_exists "Food")
  /\ db (snd r3) = db (snd r2).
Proof. vm_compute. repeat split. Qed.

(* ----------------------------------------------------------------- *)
(** ** C7: updating and deleting a category *)

Lemma category_by_key (d : DB) (c : Category.t) :
  primary_keys d -> In c (categories d) ->
  First Category.ID
    (filter (fun x => Category.ID x =? Category.ID c) (categories d)) = Some c.
Proof.
  intros [Hpk _] Hin. now rewrite (filter_key Category.ID _ c Hpk Hin).
Qed.

Lemma category_missing (d : DB) (id : Z) :
  (forall c, In c (categories d) -> Category.ID c <> id) ->
  First Category.ID (filter (fun x => Category.ID x =? id) (categories d)) = None.
Proof.
  intros Hno. rewrite filter_nil; [reflexivity|].
  intros x Hx. apply Z.eqb_neq. now apply Hno.
Qed.

Section CategoryChanges.
Context `{Collation}.

Lemma apply_changes_renamed (name : string) (now : Time) (c : Category.t) :
  CategoryRepository.apply_changes now (Category.mk 0 0 name 0 now) c
  = renamed name now c.
Proof.
  unfold CategoryRepository.apply_changes, renamed. simpl.
  now rewrite or_default_same.
Qed.

Lemma written_rows (id : Z) (name : string) (now : Time) (l : list Category.t) :
  map (fun c => if Category.ID c =? id
                then CategoryRepository.apply_changes now
                       (Category.mk 0 0 name 0 now) c
                else c) l
  = map (fun c => if Category.ID c =? id then renamed name now c else c) l.
Proof. apply map_ext. intros c. now rewrite apply_changes_renamed. Qed.

Ltac written :=
  unfold CategoryRepository.with_categories; rewrite written_rows; reflexivity.

Lemma Update_by_owner (ctx : Context) (userID : Z) (req : CategoryReq.t)
    (c : Category.t) (w : World) :
  live ctx -> primary_keys (db w) ->
  In c (categories (db w)) ->
  Category.CreatedBy c = userID ->
  userID <> 0 -> Category.ID c <> 0 ->
  let id := Category.ID c in
  let name := CategoryReq.Name req in
  CrudCategory.Update ctx id userID req w =
  if String.eqb (Category.Name c) name then
    (Ok tt, after_update w id name [SelectCategoryByID id])
  else if name_taken (db w) id userID name then
    (Fail (CrudCategory.already_exists name),
     logged (logged w (SelectCategoryByID id))
            (SelectCategoryByOwnerAndName userID name))
  else
    (Ok tt, after_update w id name
              [SelectCategoryByID id; SelectCategoryByOwnerAndName userID name]).
Proof.
  intros Hctx Hpk Hin Hby Hu Hid id name.
  apply Z.eqb_neq in Hu. apply Z.eqb_neq in Hid.
  unfold CrudCategory.Update. rewrite Hu.
  unfold bind at 1.
  rewrite CategoryRepository_GetByID_run by assumption.
  subst id. rewrite (category_by_key _ _ Hpk Hin).
  rewrite Hby, Z.eqb_refl. simpl negb. cbv iota.
  fold name. destruct (String.eqb (Category.Name c) name) eqn:En; simpl negb; cbv iota.
  - unfold CategoryRepository.Update. run_m. rewrite Hctx. simpl.
    rewrite Hid. simpl. unfold after_update. simpl.
    rewrite <- app_assoc. simpl. written.
  - unfold bind at 1. unfold bind at 1. unfold call.
    cbn [negb]. cbv beta iota.
    rewrite CategoryRepository_GetByUserIDAndName_run by assumption.
    unfold name_taken, find_by_name, named_like.
    destruct (First Category.ID _) as [c'|]; simpl.
    + destruct (Category.ID c' =? Category.ID c); simpl.
      * unfold CategoryRepository.Update. run_m. rewrite Hctx. simpl.
        rewrite Hid. simpl. unfold after_update. simpl.
        rewrite <- !app_assoc. simpl. written.
      * reflexivity.
    + unfold CategoryRepository.Update. run_m. rewrite Hctx. simpl.
      rewrite Hid. simpl. unfold after_update. simpl.
      rewrite <- !app_assoc. simpl. written.
Qed.

End CategoryChanges.

Section CategoryOwnership.
Context `{Collation}.

(** C7. For every category update or delete request of a user:
    - when no category has the id, both fail with record-not-found;
    - when the category is somebody else's, both fail with unauthorized
      and only the fetch by id went to the engine, so the category is
      as it was;
    - an update by the owner that keeps the name sends no duplicate
      query: the fetch is followed by the update at once;
    - an update by the owner that changes the name asks for a category
      of the caller with the new name; it fails with conflict when that
      finds a record with another id, and goes through when it finds
      nothing or the record itself;
    - an update that goes through rewrites, on the row with that id,
      the name and [updated_at] and nothing else (see [renamed]);
    - a delete by the owner removes the row. *)
Theorem C7_category_update_delete
    (ctx : Context) (id userID : Z) (req : CategoryReq.t) (w : World) :
  live ctx -> primary_keys (db w) -> userID <> 0 ->
  let name := CategoryReq.Name req in
  let fetched := logged w (SelectCategoryByID id) in
  ((forall c, In c (categories (db w)) -> Category.ID c <> id) ->
     CrudCategory.Update ctx id userID req w = (Fail ErrRecordNotFound, fetched)
     /\ CrudCategory.Delete ctx id userID w = (Fail ErrRecordNotFound, fetched))
  /\
  (forall c, In c (categories (db w)) -> Category.ID c = id ->
     (Category.CreatedBy c <> userID ->
        (exists detail,
            CrudCategory.Update ctx id userID req w
            = (Fail (CustomErrorResponse apperr.Unauthorized detail), fetched))
        /\ (exists detail,
               CrudCategory.Delete ctx id userID w
               = (Fail (CustomErrorResponse apperr.Unauthorized detail), fetched))
        /\ db fetched = db w)
     /\
     (Category.CreatedBy c = userID -> id <> 0 ->
        (Category.Name c = name ->
           CrudCategory.Update ctx id userID req w
           = (Ok tt, after_update w id name [SelectCategoryByID id]))
        /\ (Category.Name c <> name ->
            forall c', find_by_name (db w) userID name = Some c' ->
                       Category.ID c' <> id ->
            CrudCategory.Update ctx id userID req w
            = (Fail (CrudCategory.already_exists name),
               logged fetched (SelectCategoryByOwnerAndName userID name)))
        /\ (Category.Name c <> name ->
            (find_by_name (db w) userID name = None
             \/ exists c', find_by_name (db w) userID name = Some c'
                           /\ Category.ID c' = id) ->
            CrudCategory.Update ctx id userID req w
            = (Ok tt, after_update w id name
                        [SelectCategoryByID id;
                         SelectCategoryByOwnerAndName userID name]))
        /\ CrudCategory.Delete ctx id userID w = (Ok tt, after_delete w id))).
Proof.
  intros Hctx Hpk Hu name fetched.
  pose proof Hu as Hu'. apply Z.eqb_neq in Hu'.
  split.
  - intros Hno. split.
    + unfold CrudCategory.Update. rewrite Hu'. unfold bind at 1.
      rewrite CategoryRepository_GetByID_run by assumption.
      now rewrite (category_missing _ _ Hno).
    + unfold CrudCategory.Delete. rewrite Hu'. unfold bind at 1.
      rewrite CategoryRepository_GetByID_run by assumption.
      now rewrite (category_missing _ _ Hno).
  - intros c Hin Hid. subst id. split.
    + intros Hother. apply Z.eqb_neq in Hother. repeat split.
      * eexists. unfold CrudCategory.Update. rewrite Hu'. unfold bind at 1.
        rewrite CategoryRepository_GetByID_run by assumption.
        rewrite (category_by_key _ _ Hpk Hin), Hother. reflexivity.
      * eexists. unfold CrudCategory.Delete. rewrite Hu'. unfold bind at 1.
        rewrite CategoryRepository_GetByID_run by assumption.
        rewrite (category_by_key _ _ Hpk Hin), Hother. reflexivity.
    + intros Hby Hid.
      pose proof (Update_by_owner ctx userID req c w Hctx Hpk Hin Hby Hu Hid)
        as HU. cbv zeta in HU. fold name in HU.
      repeat split.
      * intros Hsame. apply String.eqb_eq in Hsame. now rewrite HU, Hsame.
      * intros Hdiff c' Hc' Hne. apply String.eqb_neq in Hdiff.
        apply Z.eqb_neq in Hne.
        rewrite HU, Hdiff. unfold name_taken. now rewrite Hc', Hne.
      * intros Hdiff Hfind. apply String.eqb_neq in Hdiff.
        rewrite HU, Hdiff. unfold name_taken.
        destruct Hfind as [-> | [c' [-> Hsame]]]; [reflexivity|].
        apply Z.eqb_eq in Hsame. now rewrite Hsame.
      * unfold CrudCategory.Delete. rewrite Hu'. unfold bind at 1.
        rewrite CategoryRepository_GetByID_run by assumption.
        rewrite (category_by_key _ _ Hpk Hin), Hby, Z.eqb_refl.
        unfold CategoryRepository.DeleteByID. run_m. rewrite Hctx. simpl.
        unfold after_delete. now rewrite <- app_assoc.
Qed.

(** The row an update leaves behind differs from the one it found in
    the name and in [updated_at] only. *)
Lemma renamed_fields (name : string) (now : Time) (c : Category.t) :
  Category.ID (renamed name now c) = Category.ID c
  /\ Category.CreatedBy (renamed name now c) = Category.CreatedBy c
  /\ Category.CreatedAt (renamed name now c) = Category.CreatedAt c
  /\ Category.UpdatedAt (renamed name now c) = now
  /\ (name <> "" -> Category.Name (renamed name now c) = name).
Proof.
  repeat split. intros Hn. apply String.eqb_neq in Hn.
  unfold renamed. simpl. now rewrite Hn.
Qed.

End CategoryOwnership.

(** User 2 may neither rename nor delete category 1 of user 1; user 1 may
    rename it, also to a name that only differs in case under a
    case-insensitive collation, where the duplicate query finds the record
    itself. *)
Lemma C7_witness :
  (exists detail,
      @CrudCategory.Update ascii_ci_collation background 1 2
         (CategoryReq.mk "Mine") sample_world
      = (Fail (CustomErrorResponse apperr.Unauthorized detail),
         logged sample_world (SelectCategoryByID 1)))
  /\ @CrudCategory.Update ascii_ci_collation background 1 1
        (CategoryReq.mk "FOOD") sample_world
     = (Ok tt, after_update sample_world 1 "FOOD"
                 [SelectCategoryByID 1; SelectCategoryByOwnerAndName 1 "FOOD"]).
Proof.
  split.
  - pose proof (@C7_category_update_delete ascii_ci_collation background 1 2
                  (CategoryReq.mk "Mine") sample_world) as P.
    destruct P as [_ P].
    + reflexivity.
    + exact sample_primary_keys.
    + lia.
    + destruct (P (Category.mk 1 1 "Food" 100 100)) as [[P1 _] _].
      * simpl. auto.
      * reflexivity.
      * simpl. lia.
      * exact P1.
  - pose proof (@C7_category_update_delete ascii_ci_collation background 1 1
                  (CategoryReq.mk "FOOD") sample_world) as P.
    destruct P as [_ P].
    + reflexivity.
    + exact sample_primary_keys.
    + lia.
    + destruct (P (Category.mk 1 1 "Food" 100 100)) as [_ P2].
      * simpl. auto.
      * reflexivity.
      * destruct P2 as [_ [_ [P3 _]]].
        -- reflexivity.
        -- lia.
        -- apply P3.
           ++ simpl. discriminate.
           ++ right. exists (Category.mk 1 1 "Food" 100 100). split; reflexivity.
Defined.

(* ----------------------------------------------------------------- *)
(** ** C10: a range that ends before it starts *)

Lemma nothing_between (s e d : gotime.Date) :
  gotime.ltb e s = true ->
  gotime.leb s d && gotime.leb d e = false.
Proof.
  unfold gotime.ltb, gotime.leb, gotime.compare. intros Hlt.
  apply andb_false_iff.
  destruct (Z.compare_spec (gotime.year e) (gotime.year s));
    destruct (Z.compare_spec (gotime.month e) (gotime.month s));
    destruct (Z.compare_spec (gotime.day e) (gotime.day s));
    try discriminate;
    destruct (Z.compare_spec (gotime.year s) (gotime.year d));
    destruct (Z.compare_spec (gotime.month s) (gotime.month d));
    destruct (Z.compare_spec (gotime.day s) (gotime.day d));
    auto;
    destruct (Z.compare_spec (gotime.year d) (gotime.year e));
    destruct (Z.compare_spec (gotime.month d) (gotime.month e));
    destruct (Z.compare_spec (gotime.day d) (gotime.day e));
    auto; lia.
Qed.

Lemma reversed_range_empty (userID : Z) (startDate endDate : string)
    (s e : gotime.Date) (ts : list Transaction.t) :
  gotime.Parse startDate = Some s ->
  gotime.Parse endDate = Some e ->
  gotime.ltb e s = true ->
  filter (TransactionRepository.in_range userID startDate endDate) ts = [].
Proof.
  intros Hs He Hlt. apply filter_nil. intros t _.
  unfold TransactionRepository.in_range, TransactionRepository.between.
  rewrite Hs, He, (nothing_between s e _ Hlt). apply andb_false_r.
Qed.

(** C10. For every owner and every two dates that both parse as
    YYYY-MM-DD with the start strictly after the end, the daily summary
    and the summary by category and type both succeed with the empty
    collection: the dates are parsed, never compared, and the one query
    that goes to the engine keeps no row. *)
Theorem C10_reversed_range_is_empty `{Collation}
    (ctx : Context) (userID : Z) (startDate endDate : string)
    (s e : gotime.Date) (w : World) :
  live ctx -> userID <> 0 ->
  gotime.Parse startDate = Some s ->
  gotime.Parse endDate = Some e ->
  gotime.ltb e s = true ->
  CrudTransaction.GetDailySummary ctx userID startDate endDate w
  = (Ok [], logged w (SelectDailySummary userID startDate endDate))
  /\ CrudTransaction.GetSummaryByCategoryAndType ctx userID startDate endDate w
     = (Ok [], logged w (SelectSummaryByCategoryAndType userID startDate endDate)).
Proof.
  intros Hctx Hu Hs He Hlt. apply Z.eqb_neq in Hu. split.
  - unfold CrudTransaction.GetDailySummary. rewrite Hu, Hs, He.
    unfold TransactionRepository.GetDailySummaryByUserID. run_m.
    rewrite Hctx. simpl.
    now rewrite (reversed_range_empty userID startDate endDate s e _ Hs He Hlt).
  - unfold CrudTransaction.GetSummaryByCategoryAndType. rewrite Hu, Hs, He.
    unfold TransactionRepository.GetSummaryByCategoryAndTypeByUserID. run_m.
    rewrite Hctx. simpl.
    now rewrite (reversed_range_empty userID startDate endDate s e _ Hs He Hlt).
Qed.

Lemma C10_witness :
  CrudTransaction.GetDailySummary background 1 "2024-01-31" "2024-01-01" sample_world
  = (Ok [], logged sample_world (SelectDailySummary 1 "2024-01-31" "2024-01-01"))
  /\ @CrudTransaction.GetSummaryByCategoryAndType binary_collation background 1
       "2024-01-31" "2024-01-01" sample_world
     = (Ok [], logged sample_world
                 (SelectSummaryByCategoryAndType 1 "2024-01-31" "2024-01-01")).
Proof.
  apply (@C10_reversed_range_is_empty binary_collation background 1
           "2024-01-31" "2024-01-01"
           (gotime.mkDate 2024 1 31) (gotime.mkDate 2024 1 1) sample_world).
  - reflexivity.
  - lia.
  - reflexivity.
  - reflexivity.
  - reflexivity.
Defined.

(** The same two queries over a range the right way round: the scenario of
    the spec, two expenses of one day grouped into one row. *)
Example daily_summary_scenario :
  let w0 := mkWorld empty_db 200 [] in
  let expense amount text :=
    TransactionReq.mk 0 None amount "expense" (Some text) "2024-01-15" in
  let r1 := CrudTransaction.Create background 1 (expense 5000 "lunch") w0 in
  let r2 := CrudTransaction.Create background 1 (expense 2500 "bus") (snd r1) in
  fst (CrudTransaction.GetDailySummary background 1 "2024-01-01" "2024-01-31" (snd r2))
  = Ok [DailySummary.mk (gotime.mkDate 2024 1 15) "expense" 7500].
Proof. vm_compute. reflexivity. Qed.

(* ----------------------------------------------------------------- *)
(** ** The date format: what [time.Parse] accepts and [Format] prints *)

Example Parse_ok : gotime.Parse "2024-01-15" = Some (gotime.mkDate 2024 1 15).
Proof. reflexivity. Qed.
Example Parse_leap : gotime.Parse "2024-02-29" = Some (gotime.mkDate 2024 2 29).
Proof. reflexivity. Qed.
Example Parse_noleap : gotime.Parse "2023-02-29" = None.
Proof. reflexivity. Qed.
Example Parse_short : gotime.Parse "2024-1-15" = None.
Proof. reflexivity. Qed.
Example Parse_extra : gotime.Parse "2024-01-15 " = None.
Proof. reflexivity. Qed.
Example Format_ok : gotime.Format (gotime.mkDate 2024 1 15) = "2024-01-15".
Proof. reflexivity. Qed.
Example Format_small : gotime.Format (gotime.mkDate 1 1 1) = "0001-01-01".
Proof. reflexivity. Qed.

















(* ----------------------------------------------------------------- *)
(** ** C6: dates that are not YYYY-MM-DD *)

Lemma only_reads_refl (w : World) : only_reads w w.
Proof. repeat split. exists []. now rewrite app_nil_r. Qed.

Lemma only_reads_logged (w : World) (s : Stmt) :
  is_write s = false -> only_reads w (logged w s).
Proof.
  intros Hs. repeat split. exists [s]. simpl. now rewrite Hs.
Qed.

Lemma only_reads_logged2 (w : World) (s1 s2 : Stmt) :
  is_write s1 = false -> is_write s2 = false ->
  only_reads w (logged (logged w s1) s2).
Proof.
  intros H1 H2. repeat split. exists [s1; s2]. simpl.
  now rewrite <- app_assoc, H1, H2.
Qed.

Lemma category_step_cases (ctx : Context) (userID : Z) (cid : option Z)
    (denied invalid : string) (w : World) :
  let r := category_step ctx userID cid denied invalid w in
  only_reads w (snd r)
  /\ ((exists v, fst r = Ok v)
      \/ fst r = Fail (SetDetail ErrUnauthorized denied)
      \/ fst r = Fail (SetDetail ErrInvalidRequest invalid))
  /\ ((cid = None \/ exists n, cid = Some n /\ n <= 0) ->
      r = (Ok NullInt64.null, w)).
Proof.
  unfold category_step. destruct cid as [n|].
  - destruct (Z.gtb_spec n 0) as [Hpos|Hneg].
    + unfold CategoryRepository.GetByID. run_m.
      destruct (deadline_exceeded ctx); simpl.
      * repeat split; [apply only_reads_refl | auto |].
        intros [Hc|[m [Hm Hle]]]; [discriminate | inversion Hm; lia].
      * destruct (First Category.ID _) as [c|]; simpl.
        -- destruct (Category.CreatedBy c =? userID); simpl;
             (repeat split; [now apply only_reads_logged | eauto |]);
             intros [Hc|[m [Hm Hle]]]; try discriminate; inversion Hm; lia.
        -- repeat split; [now apply only_reads_logged | auto |].
           intros [Hc|[m [Hm Hle]]]; [discriminate | inversion Hm; lia].
    + simpl. repeat split; [apply only_reads_refl | eauto].
  - simpl. repeat split; [apply only_reads_refl | eauto].
Qed.

Lemma Create_unfold (ctx : Context) (userID : Z) (req : TransactionReq.t) :
  CrudTransaction.Create ctx userID req =
  if userID =? 0 then fail CrudTransaction.user_required
  else
    categoryID <- category_step ctx userID (TransactionReq.CategoryID req)
                    "You are not authorized to use this category."
                    "Invalid Category ID provided." ;;
    match gotime.Parse (TransactionReq.TransactionDate req) with
    | None => fail CrudTransaction.bad_date
    | Some parsedDate =>
        description <- deref (TransactionReq.Description req) ;;
        createdAt <- DatetimeNowJakarta ;;
        updatedAt <- DatetimeNowJakarta ;;
        TransactionRepository.Create ctx
          (Transaction.mk 0 userID categoryID
             (TransactionReq.Amount req) (TransactionReq.Type_ req)
             (NullString.mk description (is_some (TransactionReq.Description req)))
             parsedDate createdAt updatedAt) false
    end.
Proof. reflexivity. Qed.

Lemma Update_unfold (ctx : Context) (id userID : Z) (req : TransactionReq.t) :
  CrudTransaction.Update ctx id userID req =
  if userID =? 0 then fail CrudTransaction.user_required
  else
    oldData <- TransactionRepository.GetByIDAndUserID ctx id userID ;;
    newCategoryID <- category_step ctx userID (TransactionReq.CategoryID req)
                       "You are not authorized to use this category for update."
                       "Invalid Category ID provided for update." ;;
    parsedDate <-
      (if negb (String.eqb (TransactionReq.TransactionDate req) "") then
         match gotime.Parse (TransactionReq.TransactionDate req) with
         | None => fail CrudTransaction.bad_date
         | Some d => ret d
         end
       else ret (Transaction.TransactionDate oldData)) ;;
    updatedAt <- DatetimeNowJakarta ;;
    description <- deref (TransactionReq.Description req) ;;
    TransactionRepository.Update ctx oldData
      (Some (Transaction.mk 0 0 newCategoryID
               (TransactionReq.Amount req) (TransactionReq.Type_ req)
               (NullString.mk description (is_some (TransactionReq.Description req)))
               parsedDate 0 updatedAt)).
Proof. reflexivity. Qed.





Lemma filter_and {A} (p q : A -> bool) (l : list A) :
  filter (fun x => p x && q x) l = filter q (filter p l).
Proof.
  induction l as [|x l IH]; simpl; [reflexivity|].
  destruct (p x); simpl; [destruct (q x)|]; now rewrite IH.
Qed.

Lemma transaction_by_key (d : DB) (t : Transaction.t) (userID : Z) :
  primary_keys d -> In t (transactions d) ->
  Transaction.UserID t = userID ->
  First Transaction.ID
    (filter (fun x => (Transaction.ID x =? Transaction.ID t)
                      && TransactionRepository.owned_by userID x)
            (transactions d)) = Some t.
Proof.
  intros [_ Hpk] Hin Hu.
  rewrite (filter_and (fun x => Transaction.ID x =? Transaction.ID t)).
  rewrite (filter_key Transaction.ID _ t Hpk Hin). simpl.
  unfold TransactionRepository.owned_by. rewrite Hu, Z.eqb_refl. reflexivity.
Qed.





(* ----------------------------------------------------------------- *)
(** ** C5: amounts that are not positive *)

(** C5 as it was stated fails: the service and the store take a negative
    amount as it comes.  User 1 creates a transaction of -5.00 and it is
    stored; user 1 updates transaction 1 to -5.00 and it is stored. *)
Lemma C5_counterexample :
  TransactionReq.Amount refund <= 0
  /\ (let r := CrudTransaction.Create background 1 refund sample_world in
      ~ rejected_before_storage r sample_world
      /\ fst r = Ok tt
      /\ In (Transaction.mk 3 1 NullInt64.null (-500) "expense"
               (NullString.mk "refund" true) (gotime.mkDate 2024 1 16) 200 200)
            (transactions (db (snd r))))
  /\ (let r := CrudTransaction.Update background 1 1 refund sample_world in
      ~ rejected_before_storage r sample_world
      /\ fst r = Ok tt
      /\ In (Transaction.mk 1 1 (NullInt64.mk 1 true) (-500) "expense"
               (NullString.mk "refund" true) (gotime.mkDate 2024 1 16) 100 200)
            (transactions (db (snd r)))).
Proof.
  split; [vm_compute; discriminate|]. split.
  - cbv zeta. split; [|split].
    + intros [[e He] _]. vm_compute in He. discriminate.
    + vm_compute. reflexivity.
    + vm_compute. auto.
  - cbv zeta. split; [|split].
    + intros [[e He] _]. vm_compute in He. discriminate.
    + vm_compute. reflexivity.
    + vm_compute. auto.
Qed.

Lemma validate_positive (req : TransactionReq.t) :
  TransactionHandler.validate req = true -> 0 < TransactionReq.Amount req.
Proof.
  unfold TransactionHandler.validate. intros Hv.
  repeat (apply andb_true_iff in Hv; destruct Hv as [Hv ?]).
  now apply Z.ltb_lt.
Qed.

(** C5 (as amended). The rule that an amount is positive is declared on
    the request ([gt=0] on [TransactionReq.Amount]) and applied where the
    request is decoded, in the handler, before the service is called: for
    every create and every update request whose amount is zero or less,
    the handler fails and the world is as it was, no statement sent and no
    record stored.  The service and the store do not check the amount. *)
Theorem C5_nonpositive_amount_rejected
    (ctx : Context) (id : Z) (user_id : option Z) (body : TransactionReq.t)
    (w : World) :
  TransactionReq.Amount body <= 0 ->
  (exists e, TransactionHandler.Create ctx user_id body w = (Fail e, w))
  /\ (exists e, TransactionHandler.Update ctx id user_id body w = (Fail e, w)).
Proof.
  intros Hamount.
  assert (Hv : TransactionHandler.validate body = false).
  { destruct (TransactionHandler.validate body) eqn:E; [|reflexivity].
    apply validate_positive in E. lia. }
  unfold TransactionHandler.Create, TransactionHandler.Update,
    TransactionHandler.ParserBodyRequestWithUserID.
  rewrite Hv. split.
  - eexists. reflexivity.
  - destruct (id <=? 0); eexists; reflexivity.
Qed.

Lemma C5_witness :
  exists e, TransactionHandler.Create background (Some 1) refund sample_world
            = (Fail e, sample_world).
Proof.
  apply (C5_nonpositive_amount_rejected background 1 (Some 1) refund sample_world).
  unfold refund. simpl. lia.
Defined.

(** A request the handler lets through reaches the service with a positive
    amount. *)
Lemma handler_passes_positive_amounts (ctx : Context) (userID : Z)
    (body : TransactionReq.t) (w : World) :
  userID <> 0 ->
  TransactionHandler.validate body = true ->
  TransactionHandler.Create ctx (Some userID) body w
  = CrudTransaction.Create ctx userID body w
  /\ 0 < TransactionReq.Amount body.
Proof.
  intros Hu Hv. split; [|now apply validate_positive].
  unfold TransactionHandler.Create, TransactionHandler.ParserBodyRequestWithUserID.
  rewrite Hv. apply Z.eqb_neq in Hu. unfold bind, ret. now rewrite Hu.
Qed.

(* ----------------------------------------------------------------- *)
(** ** C8: a request without a description *)

(** Whatever else a request holds: once the owner, the category and the
    date have passed, a create without a description dereferences the nil
    pointer. *)
Lemma Create_without_description_panics (ctx : Context) (userID : Z)
    (req : TransactionReq.t) (w : World) (d : gotime.Date) :
  userID <> 0 ->
  TransactionReq.CategoryID req = None ->
  gotime.Parse (TransactionReq.TransactionDate req) = Some d ->
  TransactionReq.Description req = None ->
  CrudTransaction.Create ctx userID req w = (Panic, w).
Proof.
  intros Hu Hc Hd Hdesc. apply Z.eqb_neq in Hu.
  unfold CrudTransaction.Create. rewrite Hu, Hc, Hd, Hdesc. reflexivity.
Qed.

Lemma Update_without_description_panics (ctx : Context) (userID : Z)
    (req : TransactionReq.t) (w : World) (t : Transaction.t) :
  live ctx -> primary_keys (db w) ->
  In t (transactions (db w)) -> Transaction.UserID t = userID ->
  userID <> 0 ->
  TransactionReq.CategoryID req = None ->
  TransactionReq.TransactionDate req = "" ->
  TransactionReq.Description req = None ->
  CrudTransaction.Update ctx (Transaction.ID t) userID req w
  = (Panic, logged w (SelectTransactionByIDAndOwner (Transaction.ID t) userID)).
Proof.
  intros Hctx Hpk Hin Hown Hu Hc Hd Hdesc. apply Z.eqb_neq in Hu.
  unfold CrudTransaction.Update. rewrite Hu. unfold bind at 1.
  rewrite TransactionRepository_GetByIDAndUserID_run by assumption.
  rewrite (transaction_by_key _ _ _ Hpk Hin Hown), Hc, Hd, Hdesc. reflexivity.
Qed.

(** C8. The code at the failing input: a create and an update whose
    description is absent do not complete, they panic on [*req.Description];
    nothing is stored, and the update has by then fetched the record. *)
Theorem C8_absent_description_panics :
  TransactionReq.Description undescribed = None
  /\ CrudTransaction.Create background 1 undescribed sample_world
     = (Panic, sample_world)
  /\ CrudTransaction.Update background 1 1 undescribed sample_world
     = (Panic, logged sample_world (SelectTransactionByIDAndOwner 1 1)).
Proof. repeat split. Qed.

(* ----------------------------------------------------------------- *)
(** ** C3: the category of a new transaction *)

Lemma category_step_resolved (ctx : Context) (userID : Z) (cid : option Z)
    (cat : option Category.t) (denied invalid : string) (w : World) :
  live ctx -> primary_keys (db w) ->
  resolved (db w) userID cid cat ->
  category_step ctx userID cid denied invalid w
  = (Ok (category_ref cat), after_category_step w cat).
Proof.
  intros Hctx Hpk Hres. destruct cat as [c|]; simpl in Hres.
  - destruct Hres as (Hin & -> & Hpos & Hown).
    unfold category_step.
    replace (Category.ID c >? 0) with true by (symmetry; apply Z.gtb_lt; lia).
    unfold bind, call.
    rewrite CategoryRepository_GetByID_run by assumption.
    rewrite (category_by_key _ _ Hpk Hin), Hown, Z.eqb_refl. reflexivity.
  - apply (category_step_cases ctx userID cid denied invalid w). exact Hres.
Qed.

(** A category id that names no category: invalid-request. *)
Lemma Create_unknown_category (ctx : Context) (userID cid : Z)
    (req : TransactionReq.t) (w : World) :
  TransactionReq.CategoryID req = Some cid -> 0 < cid ->
  (forall c, In c (categories (db w)) -> Category.ID c <> cid) ->
  exists e, fst (CrudTransaction.Create ctx userID req w) = Fail e
            /\ kind_of e = Some apperr.InvalidRequest
            /\ db (snd (CrudTransaction.Create ctx userID req w)) = db w.
Proof.
  intros Hc Hpos Hno. unfold CrudTransaction.Create.
  destruct (userID =? 0); [eexists; repeat split|].
  rewrite Hc. replace (cid >? 0) with true by (symmetry; apply Z.gtb_lt; lia).
  unfold CategoryRepository.GetByID. run_m.
  destruct (deadline_exceeded ctx); simpl; [eexists; repeat split|].
  rewrite (category_missing _ _ Hno). simpl. eexists; repeat split.
Qed.

(** A category of somebody else: unauthorized. *)
Lemma Create_foreign_category (ctx : Context) (userID : Z) (c : Category.t)
    (req : TransactionReq.t) (w : World) :
  live ctx -> primary_keys (db w) -> userID <> 0 ->
  In c (categories (db w)) ->
  TransactionReq.CategoryID req = Some (Category.ID c) -> 0 < Category.ID c ->
  Category.CreatedBy c <> userID ->
  CrudTransaction.Create ctx userID req w
  = (Fail (SetDetail ErrUnauthorized "You are not authorized to use this category."),
     logged w (SelectCategoryByID (Category.ID c))).
Proof.
  intros Hctx Hpk Hu Hin Hc Hpos Hown.
  apply Z.eqb_neq in Hu. apply Z.eqb_neq in Hown.
  unfold CrudTransaction.Create. rewrite Hu, Hc.
  replace (Category.ID c >? 0) with true by (symmetry; apply Z.gtb_lt; lia).
  unfold bind, call.
  rewrite CategoryRepository_GetByID_run by assumption.
  rewrite (category_by_key _ _ Hpk Hin), Hown. reflexivity.
Qed.



(** C3. The code at the failing input: without a category, or with a
    category id that is not positive, a create whose other fields are
    valid and whose optional description is absent does not succeed; it
    panics and stores nothing.  The same requests with a description do
    succeed and store a null category reference. *)
Theorem C3_create_without_category_and_description :
  let without_category := undescribed in
  let zero_category := TransactionReq.mk 0 (Some 0) 5000 "expense" None "2024-01-15" in
  let described := TransactionReq.mk 0 (Some 0) 5000 "expense" (Some "lunch") "2024-01-15" in
  TransactionHandler.validate without_category = true
  /\ CrudTransaction.Create background 1 without_category sample_world
     = (Panic, sample_world)
  /\ TransactionHandler.validate zero_category = true
  /\ CrudTransaction.Create background 1 zero_category sample_world
     = (Panic, sample_world)
  /\ fst (CrudTransaction.Create background 1 described sample_world) = Ok tt
  /\ In (Transaction.mk 3 1 NullInt64.null 5000 "expense"
           (NullString.mk "lunch" true) (gotime.mkDate 2024 1 15) 200 200)
        (transactions (db (snd (CrudTransaction.Create background 1 described
                                  sample_world)))).
Proof. vm_compute. repeat split; auto. Qed.

(* ----------------------------------------------------------------- *)
(** ** C4: what an update writes *)

Lemma Update_rewrites (ctx : Context) (userID : Z) (req : TransactionReq.t)
    (t : Transaction.t) (cat : option Category.t) (text : string)
    (d : gotime.Date) (w : World) :
  live ctx -> primary_keys (db w) ->
  In t (transactions (db w)) -> Transaction.UserID t = userID ->
  userID <> 0 -> Transaction.ID t <> 0 ->
  resolved (db w) userID (TransactionReq.CategoryID req) cat ->
  TransactionReq.Description req = Some text ->
  date_of req t = Some d ->
  let r := CrudTransaction.Update ctx (Transaction.ID t) userID req w in
  fst r = Ok tt
  /\ transactions (db (snd r))
     = map (fun x => if (Transaction.ID x =? Transaction.ID t)
                        && TransactionRepository.owned_by userID x
                     then TransactionRepository.apply_changes (clock w)
                            (changes_of w cat req text d) x
                     else x)
           (transactions (db w))
  /\ categories (db (snd r)) = categories (db w).
Proof.
  intros Hctx Hpk Hin Hown Hu Hid Hres Htext Hdate. cbv zeta.
  remember (CrudTransaction.Update ctx (Transaction.ID t) userID req w) as r eqn:Hr.
  rewrite Update_unfold in Hr.
  pose proof Hu as Hu'. apply Z.eqb_neq in Hu'. apply Z.eqb_neq in Hid.
  rewrite Hu' in Hr. unfold bind at 1 in Hr.
  rewrite TransactionRepository_GetByIDAndUserID_run in Hr by assumption.
  rewrite (transaction_by_key _ _ _ Hpk Hin Hown) in Hr.
  unfold bind at 1 in Hr.
  rewrite (category_step_resolved ctx userID _ cat _ _
             (logged w (SelectTransactionByIDAndOwner (Transaction.ID t) userID))
             Hctx Hpk Hres) in Hr.
  unfold date_of in Hdate.
  assert (Hfk : TransactionRepository.category_exists (db w) (category_ref cat) = true).
  { destruct cat as [c|]; [|reflexivity]. simpl in *.
    destruct Hres as (Hc & _). apply existsb_exists. exists c.
    split; [exact Hc | apply Z.eqb_refl]. }
  destruct (String.eqb (TransactionReq.TransactionDate req) "") eqn:Eb.
  - inversion Hdate; subst d; clear Hdate.
    unfold bind at 1 in Hr. simpl negb in Hr. cbv iota in Hr.
    rewrite Htext in Hr.
    unfold TransactionRepository.Update in Hr. run_m.
    rewrite Hctx in Hr. simpl in Hr. rewrite Hid, Hown, Hu' in Hr. simpl in Hr.
    destruct cat as [c|]; simpl in Hr, Hfk |- *.
    + unfold NullInt64.IsZero in Hr. simpl in Hr.
      rewrite andb_false_r, Hfk in Hr. simpl in Hr. subst r. simpl. repeat split.
    + subst r. simpl. repeat split.
  - unfold bind at 1 in Hr. simpl negb in Hr. cbv iota in Hr.
    rewrite Hdate, Htext in Hr.
    unfold TransactionRepository.Update in Hr. run_m.
    rewrite Hctx in Hr. simpl in Hr. rewrite Hid, Hown, Hu' in Hr. simpl in Hr.
    destruct cat as [c|]; simpl in Hr, Hfk |- *.
    + unfold NullInt64.IsZero in Hr. simpl in Hr.
      rewrite andb_false_r, Hfk in Hr. simpl in Hr. subst r. simpl. repeat split.
    + subst r. simpl. repeat split.
Qed.

(** What the store makes of such changes on the row it finds: without a
    category in the request the null category of the changes is a zero
    value and the column keeps what it had. *)
Lemma apply_changes_keeps_category (w : World) (req : TransactionReq.t)
    (text : string) (d : gotime.Date) (old : Transaction.t) :
  Transaction.CategoryID
    (TransactionRepository.apply_changes (clock w) (changes_of w None req text d) old)
  = Transaction.CategoryID old.
Proof. reflexivity. Qed.

(** A blank date keeps the stored date. *)
Lemma apply_changes_keeps_date (w : World) (cat : option Category.t)
    (req : TransactionReq.t) (text : string) (old : Transaction.t) :
  Transaction.TransactionDate
    (TransactionRepository.apply_changes (clock w)
       (changes_of w cat req text (Transaction.TransactionDate old)) old)
  = Transaction.TransactionDate old.
Proof.
  unfold TransactionRepository.apply_changes, changes_of. simpl.
  now destruct (gotime.IsZero (Transaction.TransactionDate old)).
Qed.

(** C4. The code at the failing input: user 1 updates transaction 1,
    which is in category 1, with a request that has no [category_id] and a
    blank date.  The update succeeds, amount, type and description are
    written and the date is kept, and the category reference is still
    category 1: the null [sql.NullInt64] of the changes is a zero value,
    and [Updates] with a struct leaves zero values out. *)
Theorem C4_absent_category_is_not_cleared :
  let r := CrudTransaction.Update background 1 1 salary sample_world in
  TransactionReq.CategoryID salary = None
  /\ fst r = Ok tt
  /\ transactions (db (snd r))
     = [ Transaction.mk 1 1 (NullInt64.mk 1 true) 7500 "income"
           (NullString.mk "salary" true) (gotime.mkDate 2024 1 15) 100 200;
         Transaction.mk 2 2 NullInt64.null 2500 "expense"
           (NullString.mk "bus" true) (gotime.mkDate 2024 1 15) 100 100 ]
  /\ trace (snd r)
     = [ SelectTransactionByIDAndOwner 1 1;
         UpdateTransaction 1 1
           (Transaction.mk 0 0 NullInt64.null 7500 "income"
              (NullString.mk "salary" true) (gotime.mkDate 2024 1 15) 0 200) ].
Proof. vm_compute. repeat split. Qed.

(* ----------------------------------------------------------------- *)
(** ** C9: create, then list *)

Lemma insert_by_In {A} (leb : A -> A -> bool) (x y : A) (l : list A) :
  In x (insert_by leb y l) <-> x = y \/ In x l.
Proof.
  induction l as [|z l IH]; simpl.
  - intuition.
  - destruct (leb y z); simpl; [intuition | rewrite IH; intuition].
Qed.

(** [ORDER BY] neither drops nor invents rows. *)
Lemma order_by_In {A} (leb : A -> A -> bool) (x : A) (l : list A) :
  In x (order_by leb l) <-> In x l.
Proof.
  induction l as [|y l IH]; simpl; [tauto|].
  rewrite insert_by_In, IH. intuition.
Qed.


Section RoundTrip.
Variable ConvertToJakartaTime : Time -> string.



(** C9. The code at the failing input, the scenario of the spec itself:
    a create of 50.00, expense, 2024-01-15, no category, and no
    description, panics, and the list of the owner that follows has no
    row to show.  With a description the same request makes the round
    trip. *)
Theorem C9_round_trip_breaks_without_description :
  let w0 := mkWorld empty_db 200 [] in
  let r1 := CrudTransaction.Create background 1 undescribed w0 in
  let r2 := CrudTransaction.GetAll ConvertToJakartaTime background 1 (snd r1) in
  TransactionHandler.validate undescribed = true
  /\ fst r1 = Panic
  /\ fst r2 = Ok []
  /\ (let described :=
        TransactionReq.mk 0 None 5000 "expense" (Some "lunch") "2024-01-15" in
      let r1 := CrudTransaction.Create background 1 described w0 in
      fst r1 = Ok tt
      /\ fst (CrudTransaction.GetAll ConvertToJakartaTime background 1 (snd r1))
         = Ok [TransactionResponse.mk 1 1 None None 5000 "expense" (Some "lunch")
                 "2024-01-15" (ConvertToJakartaTime 200) (ConvertToJakartaTime 200)]).
Proof. cbv zeta. repeat split. Qed.

End RoundTrip.

(* ================================================================= *)
(* ================================================================= *)
(** * Further properties of the services *)

(** ** What one call does to the tables *)

Lemma category_step_db (ctx : Context) (userID : Z) (cid : option Z)
    (denied invalid : string) (w : World) :
  db (snd (category_step ctx userID cid denied invalid w)) = db w
  /\ clock (snd (category_step ctx userID cid denied invalid w)) = clock w.
Proof.
  destruct (category_step_cases ctx userID cid denied invalid w)
    as ((Hd & Hc & _) & _). now split.
Qed.

Lemma category_step_ok (ctx : Context) (userID : Z) (cid : option Z)
    (denied invalid : string) (w w' : World) (v : NullInt64.t) :
  category_step ctx userID cid denied invalid w = (Ok v, w') ->
  category_ok (db w) userID v
  /\ (v = NullInt64.null \/ NullInt64.Valid v = true).
Proof.
  unfold category_step. destruct cid as [n|].
  - destruct (n >? 0).
    + unfold CategoryRepository.GetByID. run_m.
      destruct (deadline_exceeded ctx); simpl; [discriminate|].
      destruct (First Category.ID _) as [c|] eqn:Hc; simpl; [|discriminate].
      destruct (Category.CreatedBy c =? userID) eqn:Hown; simpl; [|discriminate].
      intros Hv. inversion Hv; subst. split; [|now right].
      intros _. apply First_filter in Hc. destruct Hc as [Hin Hid].
      exists c. simpl. apply Z.eqb_eq in Hid. apply Z.eqb_eq in Hown. auto.
    + simpl. intros Hv. inversion Hv; subst. split; [|now left].
      intros Habs. discriminate.
  - simpl. intros Hv. inversion Hv; subst. split; [|now left].
    intros Habs. discriminate.
Qed.

Lemma category_exists_of_ok (d : DB) (userID : Z) (v : NullInt64.t) :
  category_ok d userID v -> TransactionRepository.category_exists d v = true.
Proof.
  unfold category_ok, TransactionRepository.category_exists, NullInt64.Value.
  destruct (NullInt64.Valid v); [|reflexivity].
  intros Hok. destruct (Hok eq_refl) as (c & Hin & Hid & _).
  apply existsb_exists. exists c. split; [exact Hin | now apply Z.eqb_eq].
Qed.

Lemma category_ok_scan (d : DB) (userID : Z) (v : NullInt64.t) :
  category_ok d userID v ->
  category_ok d userID (NullInt64.Scan (NullInt64.Value v)).
Proof.
  unfold category_ok, NullInt64.Value. destruct v as [n [|]]; simpl; auto.
  intros _ Habs. discriminate.
Qed.

Ltac unchanged Hdb :=
  left; split; [simpl; discriminate | simpl; try rewrite Hdb; reflexivity].

(** A create either leaves the tables as they are or, answering [Ok],
    appends one row of the caller under the next id. *)
Lemma Transaction_Create_cases (ctx : Context) (userID : Z)
    (req : TransactionReq.t) (w : World) :
  let r := CrudTransaction.Create ctx userID req w in
  (fst r <> Ok tt /\ db (snd r) = db w)
  \/ (fst r = Ok tt
      /\ exists row,
           Transaction.ID row = transactions_auto_increment (db w)
           /\ Transaction.UserID row = userID
           /\ category_ok (db w) userID (Transaction.CategoryID row)
           /\ Transaction.Amount row = TransactionReq.Amount req
           /\ Transaction.Type_ row = TransactionReq.Type_ req
           /\ NullString.Value (Transaction.Description row)
              = TransactionReq.Description req
           /\ gotime.Parse (TransactionReq.TransactionDate req)
              = Some (Transaction.TransactionDate row)
           /\ db (snd r)
              = mkDB (categories (db w)) (transactions (db w) ++ [row])%list
                     (categories_auto_increment (db w))
                     (transactions_auto_increment (db w) + 1)).
Proof.
  cbv zeta.
  remember (CrudTransaction.Create ctx userID req w) as r eqn:Hr.
  rewrite Create_unfold in Hr.
  destruct (Z.eqb_spec userID 0) as [Hu|Hu]; [subst r; unchanged I|].
  unfold bind at 1 in Hr.
  destruct (category_step_db ctx userID (TransactionReq.CategoryID req)
              "You are not authorized to use this category."
              "Invalid Category ID provided." w) as [Hdb Hclock].
  destruct (category_step _ _ _ _ _ w) as [[v| |] w'] eqn:E; simpl in Hdb, Hclock;
    try (subst r; unchanged Hdb).
  apply category_step_ok in E. destruct E as [Hok _].
  destruct (gotime.Parse _) as [d|] eqn:Hd; [|subst r; unchanged Hdb].
  destruct (TransactionReq.Description req) as [text|] eqn:Htext;
    [|subst r; unchanged Hdb].
  unfold TransactionRepository.Create in Hr. run_m.
  destruct (deadline_exceeded ctx); simpl in Hr; [subst r; unchanged Hdb|].
  destruct ((userID =? 0) || _ || _ || _); simpl in Hr; [subst r; unchanged Hdb|].
  rewrite Hdb in Hr.
  rewrite (category_exists_of_ok _ _ _ Hok) in Hr. simpl in Hr.
  unfold TransactionRepository.with_transactions in Hr. simpl in Hr.
  rewrite Z.max_r in Hr by lia. subst r. right. split; [reflexivity|].
  eexists. repeat split; try reflexivity.
  simpl. now apply category_ok_scan.
Qed.

(** An update either leaves the tables as they are or, answering [Ok],
    writes one set of changes over the row with that id of the caller;
    the changes never carry an id, an owner or a creation time. *)
Lemma Transaction_Update_cases (ctx : Context) (id userID : Z)
    (req : TransactionReq.t) (w : World) :
  let r := CrudTransaction.Update ctx id userID req w in
  (fst r <> Ok tt /\ db (snd r) = db w)
  \/ (fst r = Ok tt
      /\ exists ch,
           Transaction.ID ch = 0 /\ Transaction.UserID ch = 0
           /\ Transaction.CreatedAt ch = 0
           /\ category_ok (db w) userID (Transaction.CategoryID ch)
           /\ Transaction.Amount ch = TransactionReq.Amount req
           /\ Transaction.Type_ ch = TransactionReq.Type_ req
           /\ db (snd r)
              = mkDB (categories (db w))
                     (map (fun t => if (Transaction.ID t =? id)
                                       && TransactionRepository.owned_by userID t
                                    then TransactionRepository.apply_changes
                                           (clock w) ch t
                                    else t)
                          (transactions (db w)))
                     (categories_auto_increment (db w))
                     (transactions_auto_increment (db w))).
Proof.
  cbv zeta.
  remember (CrudTransaction.Update ctx id userID req w) as r eqn:Hr.
  rewrite Update_unfold in Hr.
  destruct (Z.eqb_spec userID 0) as [Hu|Hu]; [subst r; unchanged I|].
  unfold bind at 1 in Hr.
  destruct (deadline_exceeded ctx) eqn:Hctx.
  { unfold TransactionRepository.GetByIDAndUserID in Hr. run_m.
    rewrite Hctx in Hr. simpl in Hr. subst r. unchanged I. }
  rewrite TransactionRepository_GetByIDAndUserID_run in Hr by assumption.
  destruct (First Transaction.ID _) as [t|] eqn:Ht; [|subst r; unchanged I].
  apply First_filter in Ht. destruct Ht as [Hin Ht].
  apply andb_true_iff in Ht. destruct Ht as [Hid Hown].
  apply Z.eqb_eq in Hid. unfold TransactionRepository.owned_by in Hown.
  apply Z.eqb_eq in Hown.
  unfold bind at 1 in Hr.
  set (w1 := logged w (SelectTransactionByIDAndOwner id userID)) in *.
  destruct (category_step_db ctx userID (TransactionReq.CategoryID req)
              "You are not authorized to use this category for update."
              "Invalid Category ID provided for update." w1) as [Hdb Hclock].
  destruct (category_step _ _ _ _ _ w1) as [[v| |] w'] eqn:E; simpl in Hdb, Hclock;
    try (subst r; unchanged Hdb).
  apply category_step_ok in E. destruct E as [Hok _]. simpl in Hok.
  unfold bind at 1 in Hr.
  assert (Hdate : exists d0 : option gotime.Date,
            r = match d0 with
                | Some d0 =>
                    (updatedAt <- DatetimeNowJakarta ;;
                     description <- deref (TransactionReq.Description req) ;;
                     TransactionRepository.Update ctx t
                       (Some (Transaction.mk 0 0 v
                                (TransactionReq.Amount req)
                                (TransactionReq.Type_ req)
                                (NullString.mk description
                                   (is_some (TransactionReq.Description req)))
                                d0 0 updatedAt))) w'
                | None => (Fail CrudTransaction.bad_date, w')
                end).
  { destruct (negb (String.eqb (TransactionReq.TransactionDate req) "")).
    - destruct (gotime.Parse _) as [d0|].
      + now exists (Some d0).
      + now exists None.
    - now exists (Some (Transaction.TransactionDate t)). }
  clear Hr. destruct Hdate as [[d0|] Hr]; [|subst r; unchanged Hdb].
  run_m.
  destruct (TransactionReq.Description req) as [text|];
    [|subst r; unchanged Hdb].
  unfold TransactionRepository.Update in Hr. run_m. rewrite Hctx in Hr.
  simpl in Hr.
  destruct ((Transaction.ID t =? 0) || (Transaction.UserID t =? 0));
    simpl in Hr; [subst r; unchanged Hdb|].
  destruct (negb _ && negb _); simpl in Hr; [subst r; unchanged Hdb|].
  rewrite Hdb, Hclock, Hid, Hown in Hr. subst r. right.
  split; [reflexivity|]. eexists. repeat split; try reflexivity. exact Hok.
Qed.

(** A delete either leaves the tables as they are or, answering [Ok],
    removes the row with that id of the caller. *)
Lemma Transaction_Delete_cases (ctx : Context) (id userID : Z) (w : World) :
  let r := CrudTransaction.Delete ctx id userID w in
  (fst r <> Ok tt /\ db (snd r) = db w)
  \/ (fst r = Ok tt
      /\ db (snd r)
         = mkDB (categories (db w))
                (filter (fun t => negb ((Transaction.ID t =? id)
                                        && TransactionRepository.owned_by userID t))
                        (transactions (db w)))
                (categories_auto_increment (db w))
                (transactions_auto_increment (db w))).
Proof.
  cbv zeta. unfold CrudTransaction.Delete.
  destruct (Z.eqb_spec userID 0) as [Hu|Hu]; [unchanged I|].
  apply Z.eqb_neq in Hu.
  unfold TransactionRepository.GetByIDAndUserID,
    TransactionRepository.DeleteByIDAndUserID. run_m.
  destruct (deadline_exceeded ctx); simpl; [unchanged I|].
  destruct (First Transaction.ID _); simpl; [|unchanged I].
  rewrite Hu. simpl. right. split; reflexivity.
Qed.

Section CategoryCases.
Context `{Collation}.

(** A create of a category either leaves the tables as they are or,
    answering [Ok], appends one category of the caller under the next
    id. *)
Lemma Category_Create_cases (ctx : Context) (userID : Z)
    (req : CategoryReq.t) (w : World) :
  let r := CrudCategory.Create ctx userID req w in
  (fst r <> Ok tt /\ db (snd r) = db w)
  \/ (fst r = Ok tt
      /\ find_by_name (db w) userID (CategoryReq.Name req) = None
      /\ db (snd r)
         = mkDB (categories (db w)
                 ++ [Category.mk (categories_auto_increment (db w)) userID
                       (CategoryReq.Name req) (clock w) (clock w)])%list
                (transactions (db w))
                (categories_auto_increment (db w) + 1)
                (transactions_auto_increment (db w))).
Proof.
  cbv zeta. unfold CrudCategory.Create.
  destruct (Z.eqb_spec userID 0) as [Hu|Hu]; [unchanged I|].
  unfold CategoryRepository.GetByUserIDAndName, CategoryRepository.Create. run_m.
  destruct (deadline_exceeded ctx); simpl; [unchanged I|].
  unfold find_by_name, named_like.
  destruct (First Category.ID _); simpl; [unchanged I|].
  destruct (String.eqb (CategoryReq.Name req) ""); simpl; [unchanged I|].
  unfold CategoryRepository.with_categories. simpl.
  rewrite Z.max_r by lia. rewrite !or_default_same.
  right. repeat split.
Qed.

(** An update of a category either leaves the tables as they are or,
    answering [Ok], rewrites name and [updated_at] of a category of the
    caller. *)
Lemma Category_Update_cases (ctx : Context) (id userID : Z)
    (req : CategoryReq.t) (w : World) :
  let r := CrudCategory.Update ctx id userID req w in
  (fst r <> Ok tt /\ db (snd r) = db w)
  \/ (fst r = Ok tt
      /\ exists c, In c (categories (db w)) /\ Category.ID c = id
                   /\ Category.CreatedBy c = userID
                   /\ (Category.Name c = CategoryReq.Name req
                       \/ name_taken (db w) id userID (CategoryReq.Name req)
                          = false)
                   /\ db (snd r)
                      = mkDB (map (fun x => if Category.ID x =? id
                                            then renamed (CategoryReq.Name req)
                                                   (clock w) x
                                            else x)
                                  (categories (db w)))
                             (transactions (db w))
                             (categories_auto_increment (db w))
                             (transactions_auto_increment (db w))).
Proof.
  cbv zeta.
  remember (CrudCategory.Update ctx id userID req w) as r eqn:Hr.
  unfold CrudCategory.Update in Hr.
  destruct (Z.eqb_spec userID 0) as [Hu|Hu]; [subst r; unchanged I|].
  unfold bind at 1 in Hr.
  destruct (deadline_exceeded ctx) eqn:Hctx.
  { unfold CategoryRepository.GetByID in Hr. run_m. rewrite Hctx in Hr.
    simpl in Hr. subst r. unchanged I. }
  rewrite CategoryRepository_GetByID_run in Hr by assumption.
  destruct (First Category.ID _) as [c|] eqn:Hc; [|subst r; unchanged I].
  apply First_filter in Hc. destruct Hc as [Hin Hid]. apply Z.eqb_eq in Hid.
  destruct (Z.eqb_spec (Category.CreatedBy c) userID) as [Hown|Hown];
    [|subst r; unchanged I].
  cbn [negb] in Hr. cbv beta iota in Hr.
  assert (Hcheck : exists (w1 : World) (go : bool),
             db w1 = db w /\ clock w1 = clock w
             /\ (go = true ->
                 Category.Name c = CategoryReq.Name req
                 \/ name_taken (db w) id userID (CategoryReq.Name req) = false)
             /\ r = if go
                    then (updatedAt <- DatetimeNowJakarta ;;
                          CategoryRepository.Update ctx c
                            (Some (Category.mk 0 0 (CategoryReq.Name req) 0
                                     updatedAt))) w1
                    else (Fail (CrudCategory.already_exists (CategoryReq.Name req)),
                          w1)).
  { unfold bind at 1 in Hr. cbv beta in Hr.
    destruct (String.eqb_spec (Category.Name c) (CategoryReq.Name req))
      as [Hname|Hname]; cbn [negb] in Hr; cbv iota in Hr.
    - eexists; exists true; refine (conj _ (conj _ (conj _ Hr)));
        [reflexivity | reflexivity | now left].
    - unfold bind at 1 in Hr. unfold call in Hr. cbv beta iota in Hr.
      rewrite CategoryRepository_GetByUserIDAndName_run in Hr by assumption.
      unfold name_taken, find_by_name, named_like.
      destruct (First Category.ID _) as [c'|]; simpl in Hr.
      + destruct (negb (Category.ID c' =? id)); simpl in Hr.
        * eexists; exists false; refine (conj _ (conj _ (conj _ Hr)));
            [reflexivity | reflexivity | discriminate].
        * eexists; exists true; refine (conj _ (conj _ (conj _ Hr)));
            [reflexivity | reflexivity | now right].
      + eexists; exists true; refine (conj _ (conj _ (conj _ Hr)));
          [reflexivity | reflexivity | now right]. }
  clear Hr. destruct Hcheck as (w1 & [|] & Hdb & Hclock & Hfree & Hr);
    [|subst r; unchanged Hdb].
  unfold CategoryRepository.Update in Hr. run_m. rewrite Hctx in Hr. simpl in Hr.
  destruct (Category.ID c =? 0); simpl in Hr; [subst r; unchanged Hdb|].
  rewrite Hdb, Hclock in Hr. unfold CategoryRepository.with_categories in Hr.
  rewrite written_rows, Hid in Hr. subst r. right. split; [reflexivity|].
  exists c. repeat split; auto.
Qed.

(** A delete of a category either leaves the tables as they are or,
    answering [Ok], removes a category of the caller and clears the
    references to it. *)
Lemma Category_Delete_cases (ctx : Context) (id userID : Z) (w : World) :
  let r := CrudCategory.Delete ctx id userID w in
  (fst r <> Ok tt /\ db (snd r) = db w)
  \/ (fst r = Ok tt
      /\ exists c, In c (categories (db w)) /\ Category.ID c = id
                   /\ Category.CreatedBy c = userID
                   /\ db (snd r) = tables_after_delete (db w) id).
Proof.
  cbv zeta.
  remember (CrudCategory.Delete ctx id userID w) as r eqn:Hr.
  unfold CrudCategory.Delete in Hr.
  destruct (Z.eqb_spec userID 0) as [Hu|Hu]; [subst r; unchanged I|].
  unfold bind at 1 in Hr.
  destruct (deadline_exceeded ctx) eqn:Hctx.
  { unfold CategoryRepository.GetByID in Hr. run_m. rewrite Hctx in Hr.
    simpl in Hr. subst r. unchanged I. }
  rewrite CategoryRepository_GetByID_run in Hr by assumption.
  destruct (First Category.ID _) as [c|] eqn:Hc; [|subst r; unchanged I].
  apply First_filter in Hc. destruct Hc as [Hin Hid]. apply Z.eqb_eq in Hid.
  destruct (Z.eqb_spec (Category.CreatedBy c) userID) as [Hown|Hown];
    [|subst r; unchanged I].
  cbn [negb] in Hr. cbv beta iota in Hr.
  unfold CategoryRepository.DeleteByID in Hr. run_m. rewrite Hctx in Hr.
  simpl in Hr. subst r. right. split; [reflexivity|].
  exists c. repeat split; auto.
Qed.

End CategoryCases.

(** ** Every call is one step *)

Lemma Transaction_Create_change (ctx : Context) (userID : Z)
    (req : TransactionReq.t) (w : World) :
  change userID (db w) (db (snd (CrudTransaction.Create ctx userID req w))).
Proof.
  destruct (Transaction_Create_cases ctx userID req w)
    as [[_ ->] | (_ & row & Hid & Hu & Hok & _ & _ & _ & _ & ->)];
    [constructor | now apply transaction_added].
Qed.

Lemma Transaction_Update_change (ctx : Context) (id userID : Z)
    (req : TransactionReq.t) (w : World) :
  change userID (db w) (db (snd (CrudTransaction.Update ctx id userID req w))).
Proof.
  destruct (Transaction_Update_cases ctx id userID req w)
    as [[_ ->] | (_ & ch & Hid & Hu & Hc & Hok & _ & _ & ->)];
    [constructor | now apply transaction_changed].
Qed.

Lemma Transaction_Delete_change (ctx : Context) (id userID : Z) (w : World) :
  change userID (db w) (db (snd (CrudTransaction.Delete ctx id userID w))).
Proof.
  destruct (Transaction_Delete_cases ctx id userID w) as [[_ ->] | (_ & ->)];
    [constructor | apply transaction_removed].
Qed.

Lemma Category_Create_change `{Collation} (ctx : Context) (userID : Z)
    (req : CategoryReq.t) (w : World) :
  change userID (db w) (db (snd (CrudCategory.Create ctx userID req w))).
Proof.
  destruct (Category_Create_cases ctx userID req w) as [[_ ->] | (_ & _ & ->)];
    [constructor | now apply category_added].
Qed.

Lemma Category_Update_change `{Collation} (ctx : Context) (id userID : Z)
    (req : CategoryReq.t) (w : World) :
  change userID (db w) (db (snd (CrudCategory.Update ctx id userID req w))).
Proof.
  destruct (Category_Update_cases ctx id userID req w)
    as [[_ ->] | (_ & c & Hin & <- & Hown & _ & ->)];
    [constructor | now apply category_renamed].
Qed.

Lemma Category_Delete_change `{Collation} (ctx : Context) (id userID : Z)
    (w : World) :
  change userID (db w) (db (snd (CrudCategory.Delete ctx id userID w))).
Proof.
  destruct (Category_Delete_cases ctx id userID w)
    as [[_ ->] | (_ & c & Hin & <- & Hown & ->)];
    [constructor | now apply category_removed].
Qed.

(** ** What a step keeps *)

Lemma apply_changes_keys (now : Time) (ch t : Transaction.t) :
  Transaction.ID ch = 0 -> Transaction.UserID ch = 0 ->
  Transaction.CreatedAt ch = 0 ->
  Transaction.ID (TransactionRepository.apply_changes now ch t) = Transaction.ID t
  /\ Transaction.UserID (TransactionRepository.apply_changes now ch t)
     = Transaction.UserID t
  /\ Transaction.CreatedAt (TransactionRepository.apply_changes now ch t)
     = Transaction.CreatedAt t.
Proof.
  intros Hid Hu Hc. unfold TransactionRepository.apply_changes. simpl.
  now rewrite Hid, Hu, Hc.
Qed.

Lemma map_same {A B C} (f : B -> C) (g : A -> B) (h : A -> C) (l : list A) :
  (forall x, In x l -> f (g x) = h x) -> map f (map g l) = map h l.
Proof.
  intros Hfg. rewrite map_map. apply map_ext_in. exact Hfg.
Qed.

(** A [WHERE] keeps a primary key a primary key. *)
Lemma where_keeps_key {A} (id : A -> Z) (keep : A -> bool) (rows : list A) :
  NoDup (map id rows) -> NoDup (map id (filter keep rows)).
Proof.
  induction rows as [|r rows IH]; simpl; intros Hkey; [constructor|].
  inversion Hkey as [|? ? Hr Hrows]; subst.
  destruct (keep r); simpl; [|now apply IH].
  constructor; [|now apply IH].
  intros Hin. apply Hr. apply in_map_iff in Hin.
  destruct Hin as (y & Hy & Hiny). apply filter_In in Hiny.
  rewrite <- Hy. apply in_map. tauto.
Qed.

Lemma filter_map_fixed {A} (p : A -> bool) (g : A -> A) (l : list A) :
  (forall x, In x l -> p (g x) = p x) ->
  (forall x, In x l -> p x = true -> g x = x) ->
  filter p (map g l) = filter p l.
Proof.
  induction l as [|x l IH]; simpl; intros Hp Hg; [reflexivity|].
  rewrite (Hp x) by auto. destruct (p x) eqn:E.
  - rewrite (Hg x) by auto. f_equal. apply IH; auto.
  - apply IH; auto.
Qed.

Lemma filter_filter_kept {A} (p q : A -> bool) (l : list A) :
  (forall x, In x l -> p x = true -> q x = true) ->
  filter p (filter q l) = filter p l.
Proof.
  induction l as [|x l IH]; simpl; intros Hpq; [reflexivity|].
  destruct (q x) eqn:Eq; simpl.
  - destruct (p x); [f_equal|]; apply IH; auto.
  - destruct (p x) eqn:Ep.
    + rewrite (Hpq x) in Eq by auto. discriminate.
    + apply IH; auto.
Qed.

Lemma renamed_keys (name : string) (now : Time) (c : Category.t) :
  Category.ID (renamed name now c) = Category.ID c
  /\ Category.CreatedBy (renamed name now c) = Category.CreatedBy c.
Proof. split; reflexivity. Qed.

Lemma by_primary_key {A} (id : A -> Z) (l : list A) (x y : A) :
  NoDup (map id l) -> In x l -> In y l -> id x = id y -> x = y.
Proof.
  intros Hnd Hx Hy Heq.
  assert (Hf : In x (filter (fun z => id z =? id y) l)).
  { apply filter_In. split; [exact Hx | now apply Z.eqb_eq]. }
  rewrite (filter_key id l y Hnd Hy) in Hf. destruct Hf as [<-|[]]. reflexivity.
Qed.

(** Primary keys stay unique and below the counters. *)
Lemma change_well_formed (userID : Z) (d d' : DB) :
  change userID d d' -> well_formed d -> well_formed d'.
Proof.
  intros Hch [[Hc Ht] [Hbc Hbt]].
  destruct Hch as [ | row Hid Hu Hok | id now ch Hid Hu Hca Hok | id
                  | row Hid Hu | c name now Hin Hown | c Hin Hown ];
    unfold well_formed, primary_keys, below_counters; simpl.
  - repeat split; assumption.
  - repeat split; auto.
    + rewrite map_app. simpl.
      apply NoDup_app; [exact Ht | repeat constructor; auto |].
      intros i Hi [<-|[]]. apply in_map_iff in Hi.
      destruct Hi as (x & Hx & Hinx). specialize (Hbt x Hinx). lia.
    + intros t Hin. apply in_app_or in Hin. destruct Hin as [Hin|[<-|[]]].
      * specialize (Hbt t Hin). lia.
      * lia.
  - repeat split; auto.
    + rewrite (map_same _ _ Transaction.ID); [exact Ht|].
      intros x _. destruct (_ && _); [|reflexivity].
      now apply apply_changes_keys.
    + intros t Hin. apply in_map_iff in Hin. destruct Hin as (x & <- & Hx).
      destruct (_ && _); [|now apply Hbt].
      destruct (apply_changes_keys now ch x Hid Hu Hca) as (-> & _).
      now apply Hbt.
  - repeat split; auto.
    + now apply where_keeps_key.
    + intros t Hin. apply filter_In in Hin. now apply Hbt.
  - repeat split; auto.
    + rewrite map_app. simpl.
      apply NoDup_app; [exact Hc | repeat constructor; auto |].
      intros i Hi [<-|[]]. apply in_map_iff in Hi.
      destruct Hi as (x & Hx & Hinx). specialize (Hbc x Hinx). lia.
    + intros x Hinx. apply in_app_or in Hinx. destruct Hinx as [Hinx|[<-|[]]].
      * specialize (Hbc x Hinx). lia.
      * lia.
  - repeat split; auto.
    + rewrite (map_same _ _ Category.ID); [exact Hc|].
      intros x _. now destruct (_ =? _).
    + intros x Hinx. apply in_map_iff in Hinx. destruct Hinx as (y & <- & Hy).
      destruct (_ =? _); simpl; now apply Hbc.
  - repeat split.
    + now apply where_keeps_key.
    + rewrite (map_same _ _ Transaction.ID); [exact Ht|].
      intros x _. now destruct (CategoryRepository.refers_to _ x).
    + intros x Hinx. apply filter_In in Hinx. now apply Hbc.
    + intros t Hint. apply in_map_iff in Hint. destruct Hint as (x & <- & Hx).
      destruct (CategoryRepository.refers_to _ x); simpl; now apply Hbt.
Qed.

Lemma category_ok_more (d d' : DB) (userID : Z) (v : NullInt64.t) :
  (forall c, In c (categories d) ->
             exists c', In c' (categories d')
                        /\ Category.ID c' = Category.ID c
                        /\ Category.CreatedBy c' = Category.CreatedBy c) ->
  category_ok d userID v -> category_ok d' userID v.
Proof.
  intros Hcs Hok Hv. destruct (Hok Hv) as (c & Hin & Hid & Hown).
  destruct (Hcs c Hin) as (c' & Hin' & Hid' & Hown').
  exists c'. repeat split; congruence.
Qed.

(** No transaction comes to point at a category that is missing or
    somebody else's. *)
Lemma change_references_ok (userID : Z) (d d' : DB) :
  change userID d d' -> references_ok d -> references_ok d'.
Proof.
  intros Hch Hrefs.
  destruct Hch as [ | row Hid Hu Hok | id now ch Hid Hu Hca Hok | id
                  | row Hid Hu | c name now Hin Hown | c Hin Hown ];
    unfold references_ok; simpl.
  - exact Hrefs.
  - intros t Hin. apply in_app_or in Hin. destruct Hin as [Hin|[<-|[]]].
    + exact (Hrefs t Hin).
    + now rewrite Hu.
  - intros t Hin. apply in_map_iff in Hin. destruct Hin as (x & <- & Hx).
    destruct (Transaction.ID x =? id); simpl; [|exact (Hrefs x Hx)].
    destruct (TransactionRepository.owned_by userID x) eqn:Hox;
      [|exact (Hrefs x Hx)].
    apply Z.eqb_eq in Hox.
    destruct (apply_changes_keys now ch x Hid Hu Hca) as (_ & -> & _).
    rewrite Hox. unfold TransactionRepository.apply_changes. simpl.
    destruct (NullInt64.IsZero (Transaction.CategoryID ch)).
    + rewrite <- Hox. exact (Hrefs x Hx).
    + now apply category_ok_scan.
  - intros t Hin. apply filter_In in Hin. exact (Hrefs t (proj1 Hin)).
  - intros t Hin. apply (category_ok_more d); [|exact (Hrefs t Hin)].
    simpl. intros c Hc. exists c. repeat split. apply in_or_app. now left.
  - intros t Hint. apply (category_ok_more d); [|exact (Hrefs t Hint)].
    simpl. intros x Hx.
    exists (if Category.ID x =? Category.ID c then renamed name now x else x).
    split; [now apply (in_map (fun x => if Category.ID x =? Category.ID c
                                        then renamed name now x else x))|].
    now destruct (_ =? _).
  - intros t Hint. apply in_map_iff in Hint. destruct Hint as (x & <- & Hx).
    destruct (CategoryRepository.refers_to (Category.ID c) x) eqn:Href.
    + intros Habs. discriminate.
    + intros Hv. destruct (Hrefs x Hx Hv) as (c0 & Hc0 & Hid0 & Hown0).
      exists c0. repeat split; auto.
      apply filter_In. split; [exact Hc0|].
      unfold CategoryRepository.refers_to in Href. rewrite Hv in Href.
      simpl in Href. rewrite Hid0. apply negb_true_iff. exact Href.
Qed.

(** ** Invariants of the six writing operations *)

Section Invariants.
Context `{Collation}.

(** X1. Whatever the request and whatever the answer, a call of one of the six
    writing operations leaves the primary keys unique and every id below
    the counter of its table. *)
Theorem services_keep_well_formed
    (ctx : Context) (id userID : Z) (treq : TransactionReq.t)
    (creq : CategoryReq.t) (w : World) :
  well_formed (db w) ->
  well_formed (db (snd (CrudTransaction.Create ctx userID treq w)))
  /\ well_formed (db (snd (CrudTransaction.Update ctx id userID treq w)))
  /\ well_formed (db (snd (CrudTransaction.Delete ctx id userID w)))
  /\ well_formed (db (snd (CrudCategory.Create ctx userID creq w)))
  /\ well_formed (db (snd (CrudCategory.Update ctx id userID creq w)))
  /\ well_formed (db (snd (CrudCategory.Delete ctx id userID w))).
Proof.
  intros Hwf. repeat match goal with |- _ /\ _ => split end;
    (eapply change_well_formed; [|exact Hwf]).
  - apply Transaction_Create_change.
  - apply Transaction_Update_change.
  - apply Transaction_Delete_change.
  - apply Category_Create_change.
  - apply Category_Update_change.
  - apply Category_Delete_change.
Qed.

(** X2. Whatever the request and whatever the answer, after a call of one of
    the six writing operations every transaction that has a category
    still has an existing category of its own user: a create and an
    update only store a category they found to be the caller's, and the
    delete of a category clears the references to it. *)
Theorem services_keep_references_ok
    (ctx : Context) (id userID : Z) (treq : TransactionReq.t)
    (creq : CategoryReq.t) (w : World) :
  references_ok (db w) ->
  references_ok (db (snd (CrudTransaction.Create ctx userID treq w)))
  /\ references_ok (db (snd (CrudTransaction.Update ctx id userID treq w)))
  /\ references_ok (db (snd (CrudTransaction.Delete ctx id userID w)))
  /\ references_ok (db (snd (CrudCategory.Create ctx userID creq w)))
  /\ references_ok (db (snd (CrudCategory.Update ctx id userID creq w)))
  /\ references_ok (db (snd (CrudCategory.Delete ctx id userID w))).
Proof.
  intros Hrefs. repeat match goal with |- _ /\ _ => split end;
    (eapply change_references_ok; [|exact Hrefs]).
  - apply Transaction_Create_change.
  - apply Transaction_Update_change.
  - apply Transaction_Delete_change.
  - apply Category_Create_change.
  - apply Category_Update_change.
  - apply Category_Delete_change.
Qed.

(** X3. All or nothing: a call of one of the six writing operations that does
    not answer [Ok], be it with an error or with a panic, has left the
    tables exactly as they were. *)
Theorem services_all_or_nothing
    (ctx : Context) (id userID : Z) (treq : TransactionReq.t)
    (creq : CategoryReq.t) (w : World) :
  (fst (CrudTransaction.Create ctx userID treq w) <> Ok tt ->
   db (snd (CrudTransaction.Create ctx userID treq w)) = db w)
  /\ (fst (CrudTransaction.Update ctx id userID treq w) <> Ok tt ->
      db (snd (CrudTransaction.Update ctx id userID treq w)) = db w)
  /\ (fst (CrudTransaction.Delete ctx id userID w) <> Ok tt ->
      db (snd (CrudTransaction.Delete ctx id userID w)) = db w)
  /\ (fst (CrudCategory.Create ctx userID creq w) <> Ok tt ->
      db (snd (CrudCategory.Create ctx userID creq w)) = db w)
  /\ (fst (CrudCategory.Update ctx id userID creq w) <> Ok tt ->
      db (snd (CrudCategory.Update ctx id userID creq w)) = db w)
  /\ (fst (CrudCategory.Delete ctx id userID w) <> Ok tt ->
      db (snd (CrudCategory.Delete ctx id userID w)) = db w).
Proof.
  repeat split; intros Hfail.
  - destruct (Transaction_Create_cases ctx userID treq w) as [[_ E]|[E _]];
      [exact E | contradiction].
  - destruct (Transaction_Update_cases ctx id userID treq w) as [[_ E]|[E _]];
      [exact E | contradiction].
  - destruct (Transaction_Delete_cases ctx id userID w) as [[_ E]|[E _]];
      [exact E | contradiction].
  - destruct (Category_Create_cases ctx userID creq w) as [[_ E]|[E _]];
      [exact E | contradiction].
  - destruct (Category_Update_cases ctx id userID creq w) as [[_ E]|[E _]];
      [exact E | contradiction].
  - destruct (Category_Delete_cases ctx id userID w) as [[_ E]|[E _]];
      [exact E | contradiction].
Qed.

End Invariants.

Lemma sample_well_formed : well_formed sample_db.
Proof.
  split; [exact sample_primary_keys|].
  split; simpl; intros x Hx; repeat (destruct Hx as [<-|Hx]; [simpl; lia|]);
    contradiction.
Qed.

Lemma sample_references_ok : references_ok sample_db.
Proof.
  intros t Ht. simpl in Ht. destruct Ht as [<-|[<-|[]]]; intros Hv.
  - exists (Category.mk 1 1 "Food" 100 100). simpl. auto.
  - discriminate.
Qed.

Lemma services_keep_well_formed_witness :
  well_formed (db (snd (CrudTransaction.Create background 1 salary sample_world)))
  /\ well_formed (db (snd (@CrudCategory.Delete background 1 1 sample_world))).
Proof.
  destruct (@services_keep_well_formed binary_collation background 1 1 salary
              (CategoryReq.mk "Food") sample_world sample_well_formed)
    as (A & _ & _ & _ & _ & B).
  split; [exact A | exact B].
Defined.

Lemma services_keep_references_ok_witness :
  references_ok (db (snd (@CrudCategory.Delete background 1 1 sample_world)))
  /\ references_ok
       (db (snd (CrudTransaction.Update background 1 1 salary sample_world))).
Proof.
  destruct (@services_keep_references_ok binary_collation background 1 1 salary
              (CategoryReq.mk "Food") sample_world sample_references_ok)
    as (_ & A & _ & _ & _ & B).
  split; [exact B | exact A].
Defined.

(** ** One user's calls and another user's rows *)

Lemma flat_map_ext_in {A B} (f g : A -> list B) (l : list A) :
  (forall x, In x l -> f x = g x) -> flat_map f l = flat_map g l.
Proof.
  induction l as [|x l IH]; simpl; intros Hfg; [reflexivity|].
  rewrite (Hfg x) by auto. f_equal. apply IH; auto.
Qed.

Lemma change_isolated (userID other : Z) (d d' : DB) :
  change userID d d' -> consistent d -> other <> userID ->
  filter (TransactionRepository.owned_by other) (transactions d')
  = filter (TransactionRepository.owned_by other) (transactions d)
  /\ filter (created_by other) (categories d')
     = filter (created_by other) (categories d)
  /\ forall t, In t (transactions d) -> Transaction.UserID t = other ->
               filter (fun c => CategoryRepository.refers_to (Category.ID c) t)
                      (categories d')
               = filter (fun c => CategoryRepository.refers_to (Category.ID c) t)
                        (categories d).
Proof.
  intros Hch [[[Hc Ht] [Hbc Hbt]] Hrefs] Hother.
  assert (Hmine : forall c0 t, In c0 (categories d) -> In t (transactions d) ->
            Transaction.UserID t = other ->
            CategoryRepository.refers_to (Category.ID c0) t = true ->
            Category.CreatedBy c0 = other).
  { intros c0 t Hc0 Hint Hu Href.
    unfold CategoryRepository.refers_to in Href.
    apply andb_true_iff in Href. destruct Href as [Hv Hid].
    apply Z.eqb_eq in Hid.
    destruct (Hrefs t Hint Hv) as (c1 & Hc1 & Hid1 & Hown1).
    assert (c1 = c0) by (apply (by_primary_key Category.ID (categories d));
                         auto; congruence).
    subst c1. congruence. }
  destruct Hch as [ | row Hid Hu Hok | id now ch Hid Hu Hca Hok | id
                  | row Hid Hu | c name now Hin Hown | c Hin Hown ]; simpl.
  - auto.
  - repeat split; auto. rewrite filter_app. simpl.
    unfold TransactionRepository.owned_by at 2. rewrite Hu.
    replace (userID =? other) with false by (symmetry; apply Z.eqb_neq; auto).
    apply app_nil_r.
  - repeat split; auto. apply filter_map_fixed.
    + intros x _. destruct (_ && _); [|reflexivity].
      unfold TransactionRepository.owned_by.
      now destruct (apply_changes_keys now ch x Hid Hu Hca) as (_ & -> & _).
    + intros x _ Hx. unfold TransactionRepository.owned_by in *.
      apply Z.eqb_eq in Hx.
      replace (Transaction.UserID x =? userID) with false
        by (symmetry; apply Z.eqb_neq; congruence).
      now rewrite andb_false_r.
  - repeat split; auto. apply filter_filter_kept.
    intros x _ Hx. unfold TransactionRepository.owned_by in *.
    apply Z.eqb_eq in Hx.
    replace (Transaction.UserID x =? userID) with false
      by (symmetry; apply Z.eqb_neq; congruence).
    now rewrite andb_false_r.
  - repeat split; auto.
    + rewrite filter_app. simpl. unfold created_by at 2. rewrite Hu.
      replace (userID =? other) with false by (symmetry; apply Z.eqb_neq; auto).
      apply app_nil_r.
    + intros t Hint Hut. rewrite filter_app. simpl.
      replace (CategoryRepository.refers_to (Category.ID row) t) with false;
        [apply app_nil_r|].
      symmetry. unfold CategoryRepository.refers_to.
      destruct (NullInt64.Valid (Transaction.CategoryID t)) eqn:Hv;
        [|reflexivity].
      simpl. apply Z.eqb_neq.
      destruct (Hrefs t Hint Hv) as (c1 & Hc1 & Hid1 & _).
      specialize (Hbc c1 Hc1). lia.
  - assert (Hfix : forall x, In x (categories d) ->
              Category.CreatedBy x = other ->
              (if Category.ID x =? Category.ID c then renamed name now x else x) = x).
    { intros x Hx Hxo. destruct (Z.eqb_spec (Category.ID x) (Category.ID c));
        [|reflexivity].
      assert (x = c) by (apply (by_primary_key Category.ID (categories d)); auto).
      subst x. congruence. }
    repeat split; auto.
    + apply filter_map_fixed.
      * intros x _. now destruct (_ =? _).
      * intros x Hx Hxo. apply Hfix; auto. now apply Z.eqb_eq.
    + intros t Hint Hut. apply filter_map_fixed.
      * intros x _. now destruct (_ =? _).
      * intros x Hx Href. apply Hfix; auto. now apply (Hmine x t).
  - assert (Hkept : forall x, In x (categories d) ->
              Category.CreatedBy x = other ->
              negb (Category.ID x =? Category.ID c) = true).
    { intros x Hx Hxo. apply negb_true_iff, Z.eqb_neq. intros Heq.
      assert (x = c) by (apply (by_primary_key Category.ID (categories d)); auto).
      subst x. congruence. }
    repeat split.
    + apply filter_map_fixed.
      * intros x _. now destruct (CategoryRepository.refers_to _ x).
      * intros x Hx Hxo.
        destruct (CategoryRepository.refers_to (Category.ID c) x) eqn:Href;
          [|reflexivity].
        apply Z.eqb_eq in Hxo.
        pose proof (Hmine c x Hin Hx Hxo Href). congruence.
    + apply filter_filter_kept. intros x Hx Hxo. apply Hkept; auto.
      now apply Z.eqb_eq.
    + intros t Hint Hut. apply filter_filter_kept.
      intros x Hx Href. apply Hkept; auto. now apply (Hmine x t).
Qed.

Section Reads.
Context `{Collation}.
Variable ConvertToJakartaTime : Time -> string.

Lemma Category_GetAll_fst (ctx : Context) (userID : Z) (w : World) :
  fst (CrudCategory.GetAll ConvertToJakartaTime ctx userID w)
  = if userID =? 0 then Fail (SetDetail ErrInvalidRequest "User ID is required")
    else if deadline_exceeded ctx
         then Fail (Wrap DeadlineError "CategoryRepository.GetAll")
         else Ok (map (CrudCategory.to_response ConvertToJakartaTime)
                      (filter (created_by userID) (categories (db w)))).
Proof.
  unfold CrudCategory.GetAll, CategoryRepository.GetAll. run_m.
  destruct (userID =? 0); [reflexivity|].
  now destruct (deadline_exceeded ctx).
Qed.

Lemma Transaction_GetAll_fst (ctx : Context) (userID : Z) (w : World) :
  fst (CrudTransaction.GetAll ConvertToJakartaTime ctx userID w)
  = if userID =? 0 then Fail CrudTransaction.user_required
    else if deadline_exceeded ctx
         then Fail (Wrap DeadlineError "TransactionRepository.GetAllByUserID")
         else Ok (map (CrudTransaction.to_response ConvertToJakartaTime)
                    (order_by TransactionRepository.newest_first
                       (flat_map (TransactionRepository.left_join (categories (db w)))
                          (filter (TransactionRepository.owned_by userID)
                                  (transactions (db w)))))).
Proof.
  unfold CrudTransaction.GetAll, TransactionRepository.GetAllByUserID. run_m.
  destruct (userID =? 0); [reflexivity|].
  now destruct (deadline_exceeded ctx).
Qed.

(** The answers of the four reading operations for a user are a function
    of that user's rows. *)
Lemma reads_same (ctx : Context) (userID : Z) (startDate endDate : string)
    (w w' : World) :
  filter (TransactionRepository.owned_by userID) (transactions (db w'))
  = filter (TransactionRepository.owned_by userID) (transactions (db w)) ->
  filter (created_by userID) (categories (db w'))
  = filter (created_by userID) (categories (db w)) ->
  (forall t, In t (transactions (db w)) -> Transaction.UserID t = userID ->
             filter (fun c => CategoryRepository.refers_to (Category.ID c) t)
                    (categories (db w'))
             = filter (fun c => CategoryRepository.refers_to (Category.ID c) t)
                      (categories (db w))) ->
  reads ConvertToJakartaTime ctx userID startDate endDate w'
  = reads ConvertToJakartaTime ctx userID startDate endDate w.
Proof.
  intros Htx Hcat Hjoin.
  assert (Hleft : forall l,
            (forall t, In t l -> In t (filter (TransactionRepository.owned_by userID)
                                              (transactions (db w)))) ->
            flat_map (TransactionRepository.left_join (categories (db w'))) l
            = flat_map (TransactionRepository.left_join (categories (db w))) l).
  { intros l Hl. apply flat_map_ext_in. intros t Hint.
    specialize (Hl t Hint). apply filter_In in Hl. destruct Hl as [Ht Ho].
    unfold TransactionRepository.left_join. rewrite Hjoin; auto.
    now apply Z.eqb_eq. }
  assert (Hrange : filter (TransactionRepository.in_range userID startDate endDate)
                          (transactions (db w'))
                   = filter (TransactionRepository.in_range userID startDate endDate)
                            (transactions (db w))).
  { unfold TransactionRepository.in_range.
    rewrite !(filter_and (TransactionRepository.owned_by userID)). now rewrite Htx. }
  unfold reads. f_equal; [f_equal; [f_equal|]|].
  - rewrite !Category_GetAll_fst. now rewrite Hcat.
  - rewrite !Transaction_GetAll_fst. rewrite Htx, Hleft; auto.
  - unfold CrudTransaction.GetDailySummary,
      TransactionRepository.GetDailySummaryByUserID. run_m.
    destruct (userID =? 0); [reflexivity|].
    destruct (gotime.Parse startDate); [|reflexivity].
    destruct (gotime.Parse endDate); [|reflexivity].
    destruct (deadline_exceeded ctx); simpl; [reflexivity|].
    now rewrite Hrange.
  - unfold CrudTransaction.GetSummaryByCategoryAndType,
      TransactionRepository.GetSummaryByCategoryAndTypeByUserID. run_m.
    destruct (userID =? 0); [reflexivity|].
    destruct (gotime.Parse startDate); [|reflexivity].
    destruct (gotime.Parse endDate); [|reflexivity].
    destruct (deadline_exceeded ctx); simpl; [reflexivity|].
    rewrite Hrange, Hleft; [reflexivity|].
    intros t Hint. unfold TransactionRepository.in_range in Hint.
    rewrite (filter_and (TransactionRepository.owned_by userID)) in Hint.
    apply filter_In in Hint. tauto.
Qed.

Lemma change_reads (ctx : Context) (userID other : Z)
    (startDate endDate : string) (w w' : World) :
  change userID (db w) (db w') -> consistent (db w) -> other <> userID ->
  reads ConvertToJakartaTime ctx other startDate endDate w'
  = reads ConvertToJakartaTime ctx other startDate endDate w.
Proof.
  intros Hch Hcons Hother.
  destruct (change_isolated userID other _ _ Hch Hcons Hother) as (A & B & C).
  now apply reads_same.
Qed.

(** X5. Isolation: on consistent tables, whatever one user asks of the six
    writing operations and whatever the answer, every other user reads
    afterwards what they read before: the same categories, the same
    transactions with the same category names, the same two summaries. *)
Theorem services_isolate_users
    (ctx ctx' : Context) (id userID other : Z) (treq : TransactionReq.t)
    (creq : CategoryReq.t) (startDate endDate : string) (w : World) :
  consistent (db w) -> other <> userID ->
  let same w' := reads ConvertToJakartaTime ctx' other startDate endDate w'
                 = reads ConvertToJakartaTime ctx' other startDate endDate w in
  same (snd (CrudTransaction.Create ctx userID treq w))
  /\ same (snd (CrudTransaction.Update ctx id userID treq w))
  /\ same (snd (CrudTransaction.Delete ctx id userID w))
  /\ same (snd (CrudCategory.Create ctx userID creq w))
  /\ same (snd (CrudCategory.Update ctx id userID creq w))
  /\ same (snd (CrudCategory.Delete ctx id userID w)).
Proof.
  intros Hcons Hother same.
  repeat match goal with |- _ /\ _ => split end;
    (apply (change_reads ctx' userID other); [|exact Hcons|exact Hother]).
  - apply Transaction_Create_change.
  - apply Transaction_Update_change.
  - apply Transaction_Delete_change.
  - apply Category_Create_change.
  - apply Category_Update_change.
  - apply Category_Delete_change.
Qed.

End Reads.

Lemma sample_consistent : consistent sample_db.
Proof. split; [exact sample_well_formed | exact sample_references_ok]. Qed.

(** User 1 deletes the category their transaction is in and rewrites that
    transaction; user 2 reads what they read before. *)
Lemma services_isolate_users_witness :
  let conv (_ : Time) := "" in
  let c := binary_collation in
  @reads c conv background 2 "2024-01-01" "2024-12-31"
    (snd (@CrudCategory.Delete background 1 1 sample_world))
  = @reads c conv background 2 "2024-01-01" "2024-12-31" sample_world
  /\ @reads c conv background 2 "2024-01-01" "2024-12-31"
       (snd (CrudTransaction.Update background 1 1 salary sample_world))
     = @reads c conv background 2 "2024-01-01" "2024-12-31" sample_world.
Proof.
  cbv zeta.
  destruct (@services_isolate_users binary_collation (fun _ => "")
              background background 1 1 2 salary (CategoryReq.mk "Food")
              "2024-01-01" "2024-12-31" sample_world sample_consistent)
    as (_ & A & _ & _ & _ & B).
  - lia.
  - split; [exact B | exact A].
Defined.

(** ** An expired deadline *)

Ltac expired Hx :=
  run_m; rewrite ?Hx; simpl;
  repeat (match goal with
          | |- context [if ?b then _ else _] => destruct b
          | |- context [match ?o with Some _ => _ | None => _ end] => destruct o
          end; simpl);
  (split; [reflexivity | intros a; discriminate]).

(** X6. With a deadline that has passed, none of the ten operations of the
    two services answers with a result, and none sends a statement: the
    world is as it was. *)
Theorem expired_deadline_stops_every_call `{Collation}
    (ConvertToJakartaTime : Time -> string)
    (ctx : Context) (id userID : Z) (treq : TransactionReq.t)
    (creq : CategoryReq.t) (startDate endDate : string) (w : World) :
  deadline_exceeded ctx = true ->
  stopped (CrudTransaction.Create ctx userID treq w) w
  /\ stopped (CrudTransaction.GetAll ConvertToJakartaTime ctx userID w) w
  /\ stopped (CrudTransaction.Update ctx id userID treq w) w
  /\ stopped (CrudTransaction.Delete ctx id userID w) w
  /\ stopped (CrudTransaction.GetDailySummary ctx userID startDate endDate w) w
  /\ stopped (CrudTransaction.GetSummaryByCategoryAndType ctx userID
                startDate endDate w) w
  /\ stopped (CrudCategory.Create ctx userID creq w) w
  /\ stopped (CrudCategory.GetAll ConvertToJakartaTime ctx userID w) w
  /\ stopped (CrudCategory.Update ctx id userID creq w) w
  /\ stopped (CrudCategory.Delete ctx id userID w) w.
Proof.
  intros Hx.
  repeat match goal with |- stopped _ _ /\ _ => split end; unfold stopped.
  - unfold CrudTransaction.Create, CategoryRepository.GetByID,
      TransactionRepository.Create. expired Hx.
  - unfold CrudTransaction.GetAll, TransactionRepository.GetAllByUserID.
    expired Hx.
  - unfold CrudTransaction.Update, TransactionRepository.GetByIDAndUserID.
    expired Hx.
  - unfold CrudTransaction.Delete, TransactionRepository.GetByIDAndUserID.
    expired Hx.
  - unfold CrudTransaction.GetDailySummary,
      TransactionRepository.GetDailySummaryByUserID. expired Hx.
  - unfold CrudTransaction.GetSummaryByCategoryAndType,
      TransactionRepository.GetSummaryByCategoryAndTypeByUserID. expired Hx.
  - unfold CrudCategory.Create, CategoryRepository.GetByUserIDAndName,
      CategoryRepository.Create. expired Hx.
  - unfold CrudCategory.GetAll, CategoryRepository.GetAll. expired Hx.
  - unfold CrudCategory.Update, CategoryRepository.GetByID. expired Hx.
  - unfold CrudCategory.Delete, CategoryRepository.GetByID. expired Hx.
Qed.

Lemma expired_deadline_stops_every_call_witness :
  stopped (CrudTransaction.Delete (mkContext true) 1 1 sample_world) sample_world
  /\ stopped (@CrudCategory.Create binary_collation (mkContext true) 1
                (CategoryReq.mk "Rent") sample_world) sample_world.
Proof.
  destruct (@expired_deadline_stops_every_call binary_collation (fun _ => "")
              (mkContext true) 1 1 salary (CategoryReq.mk "Rent")
              "2024-01-01" "2024-12-31" sample_world)
    as (_ & _ & _ & A & _ & _ & B & _).
  - reflexivity.
  - split; [exact A | exact B].
Defined.

(** ** What an update and a delete leave alone *)

Lemma map_map_fixed {A B} (f : A -> B) (g : A -> A) (l : list A) :
  (forall x, In x l -> f (g x) = f x) -> map f (map g l) = map f l.
Proof. intros Hfg. now apply map_same. Qed.

(** X8. An update of a transaction, whatever it answers, leaves the
    categories, the ids, the owners and the creation times of all
    transactions as they were, and every row other than the one with the
    id and the owner of the call untouched. *)
Theorem Transaction_Update_keeps_identity
    (ctx : Context) (id userID : Z) (req : TransactionReq.t) (w : World) :
  let d' := db (snd (CrudTransaction.Update ctx id userID req w)) in
  categories d' = categories (db w)
  /\ map Transaction.ID (transactions d') = map Transaction.ID (transactions (db w))
  /\ map Transaction.UserID (transactions d')
     = map Transaction.UserID (transactions (db w))
  /\ map Transaction.CreatedAt (transactions d')
     = map Transaction.CreatedAt (transactions (db w))
  /\ filter (fun t => negb (is_target id userID t)) (transactions d')
     = filter (fun t => negb (is_target id userID t)) (transactions (db w)).
Proof.
  cbv zeta.
  destruct (Transaction_Update_cases ctx id userID req w)
    as [[_ ->] | [_ (ch & Hid & Hu & Hca & _ & _ & _ & ->)]];
    [repeat split|]; simpl.
  assert (Hk := fun t => apply_changes_keys (clock w) ch t Hid Hu Hca).
  repeat match goal with |- _ /\ _ => split end; try reflexivity.
  - apply map_map_fixed. intros t _. destruct (_ && _); [apply Hk | reflexivity].
  - apply map_map_fixed. intros t _. destruct (_ && _); [apply Hk | reflexivity].
  - apply map_map_fixed. intros t _. destruct (_ && _); [apply Hk | reflexivity].
  - apply filter_map_fixed.
    + intros t _.
      destruct (is_target id userID t) eqn:E;
        unfold is_target in E; rewrite E; [|unfold is_target; now rewrite E].
      unfold is_target, TransactionRepository.owned_by in *.
      destruct (Hk t) as (-> & -> & _). now rewrite E.
    + intros t _ Ht. unfold is_target in Ht. apply negb_true_iff in Ht.
      now rewrite Ht.
Qed.

(** X9. An update that succeeds has written the amount and the type of the
    request on the row of the call, when the request carries them (a zero
    amount and an empty type are left out by the store). *)
Theorem Transaction_Update_writes_request
    (ctx : Context) (id userID : Z) (req : TransactionReq.t) (w : World)
    (t : Transaction.t) :
  fst (CrudTransaction.Update ctx id userID req w) = Ok tt ->
  In t (transactions (db (snd (CrudTransaction.Update ctx id userID req w)))) ->
  Transaction.ID t = id -> Transaction.UserID t = userID ->
  (TransactionReq.Amount req <> 0 ->
   Transaction.Amount t = TransactionReq.Amount req)
  /\ (TransactionReq.Type_ req <> "" ->
      Transaction.Type_ t = TransactionReq.Type_ req).
Proof.
  intros Hok Hin Htid Htu.
  destruct (Transaction_Update_cases ctx id userID req w)
    as [[Hno _] | [_ (ch & Hid & Hu & Hca & _ & Ham & Hty & Hdb)]];
    [contradiction|].
  rewrite Hdb in Hin. simpl in Hin. apply in_map_iff in Hin.
  destruct Hin as (old & Ht & _).
  destruct ((Transaction.ID old =? id)
            && TransactionRepository.owned_by userID old) eqn:E.
  - subst t. simpl. rewrite Ham, Hty. split.
    + intros Hne. apply Z.eqb_neq in Hne. now rewrite Hne.
    + intros Hne. apply String.eqb_neq in Hne. now rewrite Hne.
  - subst old. unfold TransactionRepository.owned_by in E.
    rewrite Htid, Htu, !Z.eqb_refl in E. discriminate.
Qed.

Lemma Transaction_Update_writes_request_witness :
  let r := CrudTransaction.Update background 1 1 salary sample_world in
  let t := Transaction.mk 1 1 (NullInt64.mk 1 true) 7500 "income"
             (NullString.mk "salary" true) (gotime.mkDate 2024 1 15) 100 200 in
  fst r = Ok tt /\ In t (transactions (db (snd r)))
  /\ Transaction.Amount t = TransactionReq.Amount salary
  /\ Transaction.Type_ t = TransactionReq.Type_ salary.
Proof.
  cbv zeta.
  destruct (Transaction_Update_writes_request background 1 1 salary sample_world
              (Transaction.mk 1 1 (NullInt64.mk 1 true) 7500 "income"
                 (NullString.mk "salary" true) (gotime.mkDate 2024 1 15) 100 200))
    as [A B].
  - reflexivity.
  - simpl. auto.
  - reflexivity.
  - reflexivity.
  - split; [reflexivity|]. split; [simpl; auto|]. split.
    + apply A. simpl. discriminate.
    + apply B. simpl. discriminate.
Defined.

(** ** A category that is deleted *)

Lemma clear_category_idem (id : Z) (t : Transaction.t) :
  uncategorised (if CategoryRepository.refers_to id t
                 then CategoryRepository.clear_category t else t)
  = uncategorised t.
Proof. now destruct (CategoryRepository.refers_to id t). Qed.

(** X11. A delete of a category that succeeds removes the category and no
    other; no transaction is removed, and none is changed in anything
    but its category; the transactions that were in the category are in
    none now, and the others are untouched. *)
Theorem Category_Delete_clears_references `{Collation}
    (ctx : Context) (id userID : Z) (w : World) :
  fst (CrudCategory.Delete ctx id userID w) = Ok tt ->
  let d' := db (snd (CrudCategory.Delete ctx id userID w)) in
  categories d'
  = filter (fun c => negb (Category.ID c =? id)) (categories (db w))
  /\ map uncategorised (transactions d')
     = map uncategorised (transactions (db w))
  /\ (forall t, In t (transactions d') ->
                CategoryRepository.refers_to id t = false)
  /\ (forall t, In t (transactions (db w)) ->
                CategoryRepository.refers_to id t = false ->
                In t (transactions d'))
  /\ (forall t, In t (transactions (db w)) ->
                CategoryRepository.refers_to id t = true ->
                In (uncategorised t) (transactions d')).
Proof.
  intros Hok.
  destruct (Category_Delete_cases ctx id userID w)
    as [[Hno _] | [_ (c & _ & _ & _ & Hdb)]]; [contradiction|].
  cbv zeta. rewrite Hdb. unfold tables_after_delete. simpl.
  repeat match goal with |- _ /\ _ => split end.
  - reflexivity.
  - apply map_map_fixed. intros t _. apply clear_category_idem.
  - intros t Hin. apply in_map_iff in Hin. destruct Hin as (old & <- & _).
    destruct (CategoryRepository.refers_to id old) eqn:E; [reflexivity | exact E].
  - intros t Hin Hno. apply in_map_iff. exists t. now rewrite Hno.
  - intros t Hin Hyes. apply in_map_iff. exists t. now rewrite Hyes.
Qed.

Lemma Category_Delete_clears_references_witness :
  let d' := db (snd (@CrudCategory.Delete background 1 1 sample_world)) in
  map Category.ID (categories d') = [2]
  /\ map Transaction.CategoryID (transactions d')
     = [NullInt64.null; NullInt64.null]
  /\ map Transaction.ID (transactions d') = [1; 2].
Proof.
  destruct (@Category_Delete_clears_references binary_collation
              background 1 1 sample_world) as (A & _).
  - reflexivity.
  - cbv zeta. rewrite A. repeat split.
Defined.

(** ** A transaction that is deleted *)

Lemma filter_target_length (d : DB) (t : Transaction.t) :
  primary_keys d -> In t (transactions d) ->
  (List.length (filter (fun x => negb (is_target (Transaction.ID t)
                                   (Transaction.UserID t) x))
                 (transactions d)) + 1
     = List.length (transactions d))%nat.
Proof.
  intros Hpk Hin.
  rewrite <- (filter_length (is_target (Transaction.ID t) (Transaction.UserID t))
                            (transactions d)).
  unfold is_target at 2.
  rewrite (filter_and (fun x => Transaction.ID x =? Transaction.ID t)).
  rewrite (filter_key Transaction.ID _ t (proj2 Hpk) Hin). simpl.
  unfold TransactionRepository.owned_by. rewrite Z.eqb_refl. simpl. lia.
Qed.

(** X10. A delete of a transaction that succeeds found a row of the caller
    with the id; it leaves the categories and every other row as they
    were, the row is gone, and under a primary key there is exactly one
    row less.  A delete or an update of the same id by the same user
    afterwards fails with record-not-found. *)
Theorem Transaction_Delete_removes_the_row
    (ctx ctx' : Context) (id userID : Z) (req : TransactionReq.t) (w : World) :
  fst (CrudTransaction.Delete ctx id userID w) = Ok tt ->
  let w' := snd (CrudTransaction.Delete ctx id userID w) in
  (exists t, In t (transactions (db w))
             /\ Transaction.ID t = id /\ Transaction.UserID t = userID)
  /\ categories (db w') = categories (db w)
  /\ (forall t, In t (transactions (db w'))
                <-> In t (transactions (db w))
                    /\ ~ (Transaction.ID t = id /\ Transaction.UserID t = userID))
  /\ (primary_keys (db w) ->
      (List.length (transactions (db w')) + 1
       = List.length (transactions (db w)))%nat)
  /\ (live ctx' ->
      fst (CrudTransaction.Delete ctx' id userID w') = Fail ErrRecordNotFound
      /\ fst (CrudTransaction.Update ctx' id userID req w')
         = Fail ErrRecordNotFound).
Proof.
  intros Hok. cbv zeta.
  assert (Hrow : exists t, In t (transactions (db w))
                           /\ Transaction.ID t = id
                           /\ Transaction.UserID t = userID).
  { revert Hok. unfold CrudTransaction.Delete,
      TransactionRepository.GetByIDAndUserID. run_m.
    destruct (userID =? 0); [discriminate|].
    destruct (deadline_exceeded ctx); [discriminate|]. simpl.
    destruct (First _ _) as [t|] eqn:E; [|discriminate].
    intros _. apply First_filter in E. destruct E as [Hin Hp].
    apply andb_true_iff in Hp. destruct Hp as [Hi Ho].
    exists t. split; [exact Hin|]. split; now apply Z.eqb_eq. }
  assert (Hu : (userID =? 0) = false).
  { revert Hok. unfold CrudTransaction.Delete.
    destruct (userID =? 0); [discriminate | reflexivity]. }
  destruct (Transaction_Delete_cases ctx id userID w)
    as [[Hno _] | [_ Hdb]]; [contradiction|].
  assert (Hgone : filter (fun t => (Transaction.ID t =? id)
                                   && TransactionRepository.owned_by userID t)
                    (transactions
                       (db (snd (CrudTransaction.Delete ctx id userID w)))) = []).
  { rewrite Hdb. simpl. apply filter_nil. intros x Hx.
    apply filter_In in Hx. now apply negb_true_iff. }
  clear Hok. remember (snd (CrudTransaction.Delete ctx id userID w)) as w' eqn:Hw'.
  clear Hw'.
  repeat match goal with |- _ /\ _ => split end.
  - exact Hrow.
  - now rewrite Hdb.
  - intros t. rewrite Hdb. simpl. rewrite filter_In.
    unfold TransactionRepository.owned_by.
    rewrite negb_true_iff, andb_false_iff, !Z.eqb_neq. intuition.
    destruct (Z.eq_dec (Transaction.ID t) id); [right | left]; intuition.
  - intros Hpk. destruct Hrow as (t & Hin & <- & <-).
    rewrite Hdb. simpl. now apply (filter_target_length (db w)).
  - intros Hlive. split.
    + unfold CrudTransaction.Delete. rewrite Hu. unfold bind at 1.
      rewrite TransactionRepository_GetByIDAndUserID_run by assumption.
      now rewrite Hgone.
    + unfold CrudTransaction.Update. rewrite Hu. unfold bind at 1.
      rewrite TransactionRepository_GetByIDAndUserID_run by assumption.
      now rewrite Hgone.
Qed.

Lemma Transaction_Delete_removes_the_row_witness :
  let w' := snd (CrudTransaction.Delete background 1 1 sample_world) in
  map Transaction.ID (transactions (db w')) = [2]
  /\ fst (CrudTransaction.Delete background 1 1 w') = Fail ErrRecordNotFound.
Proof.
  destruct (Transaction_Delete_removes_the_row background background 1 1 salary
              sample_world) as (_ & _ & _ & _ & A).
  - reflexivity.
  - split; [reflexivity | apply A; reflexivity].
Defined.

(** ** One name per user *)

Section Names.
Context `{Collation}.

Lemma names_unique_same (d d' : DB) :
  categories d' = categories d -> names_unique d -> names_unique d'.
Proof. unfold names_unique. intros ->. auto. Qed.

Lemma names_unique_filter (d d' : DB) (p : Category.t -> bool) :
  categories d' = filter p (categories d) -> names_unique d -> names_unique d'.
Proof.
  unfold names_unique. intros -> Hn c1 c2 H1 H2.
  apply filter_In in H1, H2. apply Hn; tauto.
Qed.

Lemma find_by_name_None (d : DB) (userID : Z) (name : string) (c : Category.t) :
  find_by_name d userID name = None -> In c (categories d) ->
  Category.CreatedBy c = userID -> collate_eqb (Category.Name c) name = false.
Proof.
  unfold find_by_name. intros Hnone Hin Hown. apply First_None in Hnone.
  destruct (collate_eqb (Category.Name c) name) eqn:E; [|reflexivity].
  assert (Hc : In c (filter (named_like userID name) (categories d))).
  { apply filter_In. split; [exact Hin|]. unfold named_like.
    rewrite E, Hown, Z.eqb_refl. reflexivity. }
  rewrite Hnone in Hc. contradiction.
Qed.

Lemma names_unique_added (d : DB) (row : Category.t) (next : Z) :
  collation_equivalence ->
  find_by_name d (Category.CreatedBy row) (Category.Name row) = None ->
  names_unique d ->
  names_unique (mkDB (categories d ++ [row])%list (transactions d) next
                     (transactions_auto_increment d)).
Proof.
  intros [Hsym _] Hnone Hn c1 c2 H1 H2 Hown Hname. simpl in H1, H2.
  apply in_app_or in H1, H2.
  destruct H1 as [H1|[<-|[]]], H2 as [H2|[<-|[]]].
  - now apply Hn.
  - rewrite (find_by_name_None d _ _ c1 Hnone H1 Hown) in Hname. discriminate.
  - apply Hsym in Hname.
    rewrite (find_by_name_None d _ _ c2 Hnone H2 (eq_sym Hown)) in Hname.
    discriminate.
  - reflexivity.
Qed.

(** The row a name lookup finds when the name is not taken by another
    row: the row of the call itself. *)
Lemma name_free (d : DB) (c x : Category.t) (name : string) :
  primary_keys d -> In c (categories d) -> In x (categories d) ->
  name_taken d (Category.ID c) (Category.CreatedBy c) name = false ->
  Category.CreatedBy x = Category.CreatedBy c ->
  collate_eqb (Category.Name x) name = true ->
  collate_eqb (Category.Name c) name = true.
Proof.
  intros [Hpk _] Hc Hx Hfree Hown Hname. unfold name_taken in Hfree.
  destruct (find_by_name d (Category.CreatedBy c) name) as [c'|] eqn:E.
  - apply negb_false_iff, Z.eqb_eq in Hfree.
    unfold find_by_name in E. apply First_filter in E. destruct E as [Hc' Hp].
    assert (c' = c) by now apply (by_primary_key Category.ID (categories d)).
    subst c'. unfold named_like in Hp. apply andb_true_iff in Hp. tauto.
  - rewrite (find_by_name_None d _ _ x E Hx Hown) in Hname. discriminate.
Qed.

Lemma names_unique_renamed (d : DB) (c : Category.t) (name : string) (now : Time) :
  collation_equivalence -> primary_keys d -> In c (categories d) ->
  Category.Name c = name
  \/ name_taken d (Category.ID c) (Category.CreatedBy c) name = false ->
  names_unique d ->
  names_unique
    (mkDB (map (fun x => if Category.ID x =? Category.ID c
                         then renamed name now x else x) (categories d))
          (transactions d) (categories_auto_increment d)
          (transactions_auto_increment d)).
Proof.
  intros [Hsym Htrans] Hpk Hc Hfree Hn.
  assert (Hclash : forall x, In x (categories d) ->
            Category.CreatedBy x = Category.CreatedBy c ->
            collate_eqb (Category.Name (renamed name now c)) (Category.Name x)
            = true ->
            Category.ID c = Category.ID x).
  { intros x Hx Hown Hname. apply Hn; auto. simpl in Hname.
    destruct (String.eqb name ""); [exact Hname|].
    destruct Hfree as [->|Hfree]; [exact Hname|].
    apply (Htrans _ name); [|exact Hname].
    apply (name_free d c x); auto. }
  intros c1 c2 H1 H2 Hown Hname. simpl in H1, H2.
  apply in_map_iff in H1, H2.
  destruct H1 as (x1 & <- & H1), H2 as (x2 & <- & H2).
  destruct (Z.eqb_spec (Category.ID x1) (Category.ID c)) as [E1|E1],
           (Z.eqb_spec (Category.ID x2) (Category.ID c)) as [E2|E2].
  - simpl. congruence.
  - assert (x1 = c) by now apply (by_primary_key Category.ID (categories d));
      try apply Hpk.
    subst x1. simpl. apply Hclash; auto.
  - assert (x2 = c) by now apply (by_primary_key Category.ID (categories d));
      try apply Hpk.
    subst x2. simpl. symmetry. apply Hclash; auto.
  - now apply Hn.
Qed.

(** X4. The services keep names unique: on tables with a primary key where
    no user has two categories under one name, none of the six writing
    operations, whatever it answers, leaves a user with two categories
    under one name. *)
Theorem services_keep_names_unique
    (ctx : Context) (id userID : Z) (treq : TransactionReq.t)
    (creq : CategoryReq.t) (w : World) :
  collation_equivalence -> primary_keys (db w) -> names_unique (db w) ->
  names_unique (db (snd (CrudTransaction.Create ctx userID treq w)))
  /\ names_unique (db (snd (CrudTransaction.Update ctx id userID treq w)))
  /\ names_unique (db (snd (CrudTransaction.Delete ctx id userID w)))
  /\ names_unique (db (snd (CrudCategory.Create ctx userID creq w)))
  /\ names_unique (db (snd (CrudCategory.Update ctx id userID creq w)))
  /\ names_unique (db (snd (CrudCategory.Delete ctx id userID w))).
Proof.
  intros Heq Hpk Hn.
  repeat match goal with |- names_unique _ /\ _ => split end.
  - destruct (Transaction_Create_cases ctx userID treq w)
      as [[_ ->] | (_ & row & _ & _ & _ & _ & _ & _ & _ & ->)]; [exact Hn|].
    now apply (names_unique_same (db w)).
  - destruct (Transaction_Update_cases ctx id userID treq w)
      as [[_ ->] | (_ & ch & _ & _ & _ & _ & _ & _ & ->)]; [exact Hn|].
    now apply (names_unique_same (db w)).
  - destruct (Transaction_Delete_cases ctx id userID w)
      as [[_ ->] | (_ & ->)]; [exact Hn|].
    now apply (names_unique_same (db w)).
  - destruct (Category_Create_cases ctx userID creq w)
      as [[_ ->] | (_ & Hnone & ->)]; [exact Hn|].
    now apply (names_unique_added (db w)
                 (Category.mk _ userID (CategoryReq.Name creq) _ _)).
  - destruct (Category_Update_cases ctx id userID creq w)
      as [[_ ->] | (_ & c & Hin & <- & <- & Hfree & ->)]; [exact Hn|].
    now apply names_unique_renamed.
  - destruct (Category_Delete_cases ctx id userID w)
      as [[_ ->] | (_ & c & _ & _ & _ & ->)]; [exact Hn|].
    now apply (names_unique_filter (db w) _
                 (fun c => negb (Category.ID c =? id))).
Qed.

End Names.

Lemma binary_collation_equivalence : @collation_equivalence binary_collation.
Proof.
  assert (Heq : forall a b, @collate_eqb binary_collation a b = true <-> a = b).
  { intros a b. unfold collate_eqb. simpl. split.
    - destruct (String.compare a b) eqn:E; try discriminate.
      intros _. now apply String.compare_eq_iff.
    - intros ->. now rewrite string_compare_refl. }
  split.
  - intros a b Hab. apply Heq. symmetry. now apply Heq.
  - intros a b c Hab Hbc. apply Heq. apply Heq in Hab, Hbc. congruence.
Qed.

Lemma sample_names_unique : @names_unique binary_collation sample_db.
Proof.
  intros c1 c2 H1 H2. simpl in H1, H2.
  destruct H1 as [<-|[<-|[]]], H2 as [<-|[<-|[]]]; simpl;
    intros; (reflexivity || discriminate).
Qed.

(** User 2 renames their category to the name user 1 has, and user 1
    tries the name of their own category once more. *)
Lemma services_keep_names_unique_witness :
  @names_unique binary_collation
    (db (snd (@CrudCategory.Update binary_collation background 2 2
                (CategoryReq.mk "Food") sample_world)))
  /\ @names_unique binary_collation
       (db (snd (@CrudCategory.Create binary_collation background 1
                   (CategoryReq.mk "Food") sample_world))).
Proof.
  destruct (@services_keep_names_unique binary_collation background 2 2 salary
              (CategoryReq.mk "Food") sample_world
              binary_collation_equivalence sample_primary_keys
              sample_names_unique) as (_ & _ & _ & _ & A & _).
  destruct (@services_keep_names_unique binary_collation background 1 1 salary
              (CategoryReq.mk "Food") sample_world
              binary_collation_equivalence sample_primary_keys
              sample_names_unique) as (_ & _ & _ & B & _).
  split; [exact A | exact B].
Defined.

(** ** [GROUP BY], [SUM] and [ORDER BY] *)

Section Groups.
Context {K : Type} (same : K -> K -> bool).

Lemma sum_values_app (a b : list (K * Z)) :
  sum_values (a ++ b) = sum_values a + sum_values b.
Proof. induction a as [|x a IH]; simpl; [reflexivity | rewrite IH; lia]. Qed.

Lemma add_to_group_sum (k : K) (amount : Z) (groups : list (K * Z)) :
  sum_values (add_to_group same k amount groups) = sum_values groups + amount.
Proof.
  induction groups as [|[k' total] rest IH]; simpl; [lia|].
  destruct (same k' k); simpl; [lia | rewrite IH; lia].
Qed.

Lemma fold_group_sum (rows acc : list (K * Z)) :
  sum_values (fold_left (fun groups r => add_to_group same (fst r) (snd r) groups)
                        rows acc)
  = sum_values acc + sum_values rows.
Proof.
  revert acc. induction rows as [|r rows IH]; intros acc; simpl; [lia|].
  rewrite IH, add_to_group_sum. lia.
Qed.

(** [GROUP BY] with [SUM] loses no amount and counts none twice. *)
Lemma group_sum_sum (rows : list (K * Z)) :
  sum_values (group_sum same rows) = sum_values rows.
Proof. unfold group_sum. now rewrite fold_group_sum. Qed.

Lemma add_to_group_keys (k : K) (amount : Z) (groups : list (K * Z)) (x : K) :
  In x (map fst (add_to_group same k amount groups)) ->
  In x (map fst groups) \/ x = k.
Proof.
  induction groups as [|[k' total] rest IH]; simpl.
  - intuition.
  - destruct (same k' k); simpl; [intuition|].
    intros [Hx|Hx]; [auto|]. destruct (IH Hx); auto.
Qed.

Lemma add_to_group_has (k : K) (amount : Z) (groups : list (K * Z)) :
  same k k = true ->
  exists g, In g (add_to_group same k amount groups) /\ same (fst g) k = true.
Proof.
  intros Hrefl. induction groups as [|[k' total] rest IH]; simpl.
  - exists (k, amount). auto.
  - destruct (same k' k) eqn:E.
    + exists (k', total + amount). simpl. auto.
    + destruct IH as (g & Hg & Hs). exists g. simpl. auto.
Qed.

Lemma add_to_group_keeps (k x : K) (amount : Z) (groups : list (K * Z)) :
  In x (map fst groups) -> In x (map fst (add_to_group same k amount groups)).
Proof.
  induction groups as [|[k' total] rest IH]; simpl; [tauto|].
  destruct (same k' k); simpl; intuition.
Qed.

Hypothesis same_refl : forall a, same a a = true.
Hypothesis same_sym : forall a b, same a b = true -> same b a = true.
Hypothesis same_trans :
  forall a b c, same a b = true -> same b c = true -> same a c = true.

Lemma same_left (a b c : K) : same a b = true -> same a c = same b c.
Proof.
  intros Hab. destruct (same b c) eqn:E.
  - now apply (same_trans a b c).
  - destruct (same a c) eqn:E'; [|reflexivity].
    rewrite <- E. symmetry. apply (same_trans b a c); auto.
Qed.

Lemma add_to_group_total (k k' : K) (amount : Z) (groups : list (K * Z)) :
  total_for same k (add_to_group same k' amount groups)
  = total_for same k groups + (if same k' k then amount else 0).
Proof.
  unfold total_for.
  induction groups as [|[kg total] rest IH]; simpl.
  - destruct (same k' k); simpl; lia.
  - destruct (same kg k') eqn:E; simpl.
    + rewrite <- (same_left kg k' k E). destruct (same kg k); simpl; lia.
    + destruct (same kg k); simpl; rewrite IH; lia.
Qed.

Lemma fold_group_total (k : K) (rows acc : list (K * Z)) :
  total_for same k
    (fold_left (fun groups r => add_to_group same (fst r) (snd r) groups) rows acc)
  = total_for same k acc + total_for same k rows.
Proof.
  revert acc. induction rows as [|r rows IH]; intros acc; simpl.
  - unfold total_for. simpl. lia.
  - rewrite IH, add_to_group_total. unfold total_for. simpl.
    destruct (same (fst r) k); simpl; lia.
Qed.

Lemma add_to_group_distinct (k : K) (amount : Z) (groups : list (K * Z)) :
  distinct_keys same (map fst groups) ->
  distinct_keys same (map fst (add_to_group same k amount groups)).
Proof.
  induction groups as [|[kg total] rest IH]; simpl.
  - intros _. split; [intros ? []|exact I].
  - intros [Hkg Hrest]. destruct (same kg k) eqn:E; simpl.
    + now split.
    + split; [|now apply IH].
      intros x Hx. apply add_to_group_keys in Hx. destruct Hx as [Hx| ->]; auto.
Qed.

Lemma fold_group_distinct (rows acc : list (K * Z)) :
  distinct_keys same (map fst acc) ->
  distinct_keys same
    (map fst (fold_left (fun groups r => add_to_group same (fst r) (snd r) groups)
                        rows acc)).
Proof.
  revert acc. induction rows as [|r rows IH]; intros acc Hacc; simpl; [exact Hacc|].
  apply IH. now apply add_to_group_distinct.
Qed.

Lemma fold_group_keys (rows acc : list (K * Z)) (x : K) :
  In x (map fst (fold_left (fun groups r => add_to_group same (fst r) (snd r) groups)
                           rows acc)) ->
  In x (map fst acc) \/ In x (map fst rows).
Proof.
  revert acc. induction rows as [|r rows IH]; intros acc; simpl; [auto|].
  intros Hx. destruct (IH _ Hx) as [Hx'|Hx']; [|auto].
  apply add_to_group_keys in Hx'. destruct Hx' as [Hx'| ->]; auto.
Qed.

Lemma fold_group_keeps (rows acc : list (K * Z)) (x : K) :
  In x (map fst acc) ->
  In x (map fst (fold_left (fun groups r => add_to_group same (fst r) (snd r) groups)
                           rows acc)).
Proof.
  revert acc. induction rows as [|r rows IH]; intros acc Hx; simpl; [exact Hx|].
  apply IH. now apply add_to_group_keeps.
Qed.

Lemma fold_group_covers (rows acc : list (K * Z)) (r : K * Z) :
  In r rows ->
  exists k, In k (map fst (fold_left
                             (fun groups r => add_to_group same (fst r) (snd r) groups)
                             rows acc))
            /\ same k (fst r) = true.
Proof.
  revert acc. induction rows as [|r' rows IH]; intros acc; simpl; [intros []|].
  intros [->|Hin]; [|now apply IH].
  destruct (add_to_group_has (fst r) (snd r) acc (same_refl _)) as (g & Hg & Hs).
  exists (fst g). split; [|exact Hs].
  apply fold_group_keeps. now apply in_map.
Qed.

Lemma distinct_total (groups : list (K * Z)) (k : K) (v : Z) :
  distinct_keys same (map fst groups) -> In (k, v) groups ->
  total_for same k groups = v.
Proof.
  unfold total_for.
  induction groups as [|[k0 v0] rest IH]; simpl; [intros _ []|].
  intros [Hhead Hrest] [Heq|Hin].
  - inversion Heq; subst. rewrite same_refl. simpl.
    rewrite filter_nil; [simpl; lia|].
    intros [x y] Hx. simpl.
    destruct (same x k) eqn:E; [|reflexivity].
    apply same_sym in E. rewrite Hhead in E; [discriminate|].
    now apply (in_map fst) in Hx.
  - rewrite Hhead by now apply (in_map fst) in Hin.
    now apply IH.
Qed.

Lemma distinct_In (groups : list (K * Z)) (g1 g2 : K * Z) :
  distinct_keys same (map fst groups) -> In g1 groups -> In g2 groups ->
  same (fst g1) (fst g2) = true -> g1 = g2.
Proof.
  induction groups as [|g0 rest IH]; simpl; [intros _ []|].
  intros [Hhead Hrest] [->|H1] [->|H2] Hs; auto.
  - rewrite Hhead in Hs; [discriminate | now apply in_map].
  - apply same_sym in Hs. rewrite Hhead in Hs; [discriminate | now apply in_map].
Qed.

Lemma distinct_NoDup (ks : list K) : distinct_keys same ks -> NoDup ks.
Proof.
  induction ks as [|k ks IH]; simpl; intros Hd; constructor.
  - intros Hin. destruct Hd as [Hk _]. specialize (Hk k Hin).
    rewrite same_refl in Hk. discriminate.
  - apply IH, Hd.
Qed.

(** What [GROUP BY key] with [SUM(amount)] answers: one row for each key
    that occurs, none for a key that does not, and in each row the sum of
    the amounts under its key. *)
Lemma group_sum_rows (rows : list (K * Z)) :
  NoDup (map fst (group_sum same rows))
  /\ (forall g1 g2, In g1 (group_sum same rows) -> In g2 (group_sum same rows) ->
                    same (fst g1) (fst g2) = true -> g1 = g2)
  /\ (forall k v, In (k, v) (group_sum same rows) ->
                  v = total_for same k rows /\ In k (map fst rows))
  /\ (forall r, In r rows ->
                exists g, In g (group_sum same rows) /\ same (fst g) (fst r) = true).
Proof.
  unfold group_sum.
  assert (Hd : distinct_keys same
                 (map fst (fold_left
                             (fun groups r => add_to_group same (fst r) (snd r) groups)
                             rows []))) by now apply fold_group_distinct.
  repeat match goal with |- _ /\ _ => split end.
  - now apply distinct_NoDup.
  - intros g1 g2. now apply distinct_In.
  - intros k v Hin. split.
    + rewrite <- (distinct_total _ k v Hd Hin), fold_group_total.
      unfold total_for at 1. simpl. lia.
    + apply (in_map fst) in Hin. apply fold_group_keys in Hin.
      destruct Hin as [[]|Hin]; exact Hin.
  - intros r Hr. destruct (fold_group_covers rows [] r Hr) as (k & Hk & Hs).
    apply in_map_iff in Hk. destruct Hk as (g & <- & Hg). now exists g.
Qed.

End Groups.

Section Orders.
Context {A : Type} (leb : A -> A -> bool).

Lemma insert_by_Permutation (x : A) (l : list A) :
  Permutation (insert_by leb x l) (x :: l).
Proof.
  induction l as [|y l IH]; simpl; [reflexivity|].
  destruct (leb x y); [reflexivity|].
  rewrite IH. apply perm_swap.
Qed.

(** [ORDER BY] answers the rows it was given, each as often as it was
    given. *)
Lemma order_by_Permutation (l : list A) : Permutation (order_by leb l) l.
Proof.
  induction l as [|x l IH]; simpl; [reflexivity|].
  rewrite insert_by_Permutation. now constructor.
Qed.

Hypothesis leb_total : forall a b, leb a b = true \/ leb b a = true.
Hypothesis leb_trans :
  forall a b c, leb a b = true -> leb b c = true -> leb a c = true.

Lemma insert_by_sorted (x : A) (l : list A) :
  StronglySorted (fun a b => leb a b = true) l ->
  StronglySorted (fun a b => leb a b = true) (insert_by leb x l).
Proof.
  induction 1 as [|y l Hl IH Hy]; simpl.
  - repeat constructor.
  - destruct (leb x y) eqn:E.
    + constructor; [now constructor|]. constructor; [exact E|].
      eapply Forall_impl; [|exact Hy]. intros z. now apply leb_trans.
    + constructor; [exact IH|].
      eapply Permutation_Forall.
      * symmetry. apply insert_by_Permutation.
      * constructor; [|exact Hy]. destruct (leb_total x y); congruence.
Qed.

(** [ORDER BY] answers the rows in order: each row before all that come
    after it. *)
Lemma order_by_sorted (l : list A) :
  StronglySorted (fun a b => leb a b = true) (order_by leb l).
Proof.
  induction l as [|x l IH]; simpl; [constructor | now apply insert_by_sorted].
Qed.

End Orders.

Lemma sum_values_Permutation {K} (a b : list (K * Z)) :
  Permutation a b -> sum_values a = sum_values b.
Proof. induction 1; simpl; lia. Qed.

(** ** Dates in order *)

Lemma compare_cases (a b : gotime.Date) :
  match gotime.compare a b with
  | Lt => before a b
  | Eq => a = b
  | Gt => before b a
  end.
Proof.
  unfold gotime.compare, before. destruct a as [ya ma da], b as [yb mb db]. simpl.
  destruct (Z.compare_spec ya yb); [|lia|lia].
  destruct (Z.compare_spec ma mb); [|lia|lia].
  destruct (Z.compare_spec da db); [congruence|lia|lia].
Qed.

Lemma before_irrefl (a : gotime.Date) : ~ before a a.
Proof. unfold before. lia. Qed.

Lemma before_trans (a b c : gotime.Date) : before a b -> before b c -> before a c.
Proof. unfold before. lia. Qed.

Lemma before_asym (a b : gotime.Date) : before a b -> before b a -> False.
Proof. unfold before. lia. Qed.

Lemma gotime_eqb_eq (a b : gotime.Date) : gotime.eqb a b = true <-> a = b.
Proof.
  unfold gotime.eqb. destruct a, b. simpl.
  rewrite !andb_true_iff, !Z.eqb_eq. split; [intros [[-> ->] ->] | inversion 1]; auto.
Qed.

Lemma newest_first_total (a b : TransactionWithCategory.t) :
  TransactionRepository.newest_first a b = true
  \/ TransactionRepository.newest_first b a = true.
Proof.
  unfold TransactionRepository.newest_first.
  pose proof (compare_cases
                (Transaction.TransactionDate (TransactionWithCategory.Transaction a))
                (Transaction.TransactionDate (TransactionWithCategory.Transaction b)))
    as Hab.
  pose proof (compare_cases
                (Transaction.TransactionDate (TransactionWithCategory.Transaction b))
                (Transaction.TransactionDate (TransactionWithCategory.Transaction a)))
    as Hba.
  destruct (gotime.compare _ _), (gotime.compare _ _); auto;
    try (rewrite Hab in Hba; now apply before_irrefl in Hba);
    try (rewrite Hba in Hab; now apply before_irrefl in Hab);
    try (exfalso; eapply before_asym; eassumption).
  rewrite !Z.leb_le. lia.
Qed.

Lemma newest_first_trans (a b c : TransactionWithCategory.t) :
  TransactionRepository.newest_first a b = true ->
  TransactionRepository.newest_first b c = true ->
  TransactionRepository.newest_first a c = true.
Proof.
  unfold TransactionRepository.newest_first.
  pose proof (compare_cases
                (Transaction.TransactionDate (TransactionWithCategory.Transaction a))
                (Transaction.TransactionDate (TransactionWithCategory.Transaction b)))
    as Hab.
  pose proof (compare_cases
                (Transaction.TransactionDate (TransactionWithCategory.Transaction b))
                (Transaction.TransactionDate (TransactionWithCategory.Transaction c)))
    as Hbc.
  pose proof (compare_cases
                (Transaction.TransactionDate (TransactionWithCategory.Transaction a))
                (Transaction.TransactionDate (TransactionWithCategory.Transaction c)))
    as Hac.
  destruct (gotime.compare _ _), (gotime.compare _ _), (gotime.compare _ _);
    try discriminate; try reflexivity; intros H1 H2;
    try (rewrite Z.leb_le in *; lia);
    exfalso;
    repeat match goal with
           | E : ?x = ?y :> gotime.Date |- _ => rewrite E in *; clear E
           end;
    unfold before in *; lia.
Qed.

(** ** The list of a user *)

Lemma at_most_one_category (cs : list Category.t) (t : Transaction.t) :
  NoDup (map Category.ID cs) ->
  filter (fun c => CategoryRepository.refers_to (Category.ID c) t) cs = []
  \/ exists c, filter (fun c => CategoryRepository.refers_to (Category.ID c) t) cs
               = [c].
Proof.
  intros Hpk.
  destruct (filter (fun c => CategoryRepository.refers_to (Category.ID c) t) cs)
    as [|c rest] eqn:E; [now left|].
  right. exists c. rewrite <- E.
  assert (Hc : In c (filter (fun c => CategoryRepository.refers_to (Category.ID c) t)
                            cs)) by (rewrite E; now left).
  apply filter_In in Hc. destruct Hc as [Hin Href].
  rewrite <- (filter_key Category.ID cs c Hpk Hin).
  apply filter_ext. intros x. unfold CategoryRepository.refers_to in *.
  apply andb_true_iff in Href. destruct Href as [-> Hid]. apply Z.eqb_eq in Hid.
  rewrite Hid. simpl. apply Z.eqb_sym.
Qed.

(** Under a primary key the left join has one row for each
    transaction. *)
Lemma left_join_one (cs : list Category.t) (t : Transaction.t) :
  NoDup (map Category.ID cs) ->
  TransactionRepository.left_join cs t = [joined cs t].
Proof.
  intros Hpk. unfold TransactionRepository.left_join, joined.
  destruct (at_most_one_category cs t Hpk) as [-> | [c ->]]; reflexivity.
Qed.

Lemma flat_map_one {A B} (f : A -> list B) (g : A -> B) (l : list A) :
  (forall x, f x = [g x]) -> flat_map f l = map g l.
Proof.
  intros Hf. induction l as [|x l IH]; simpl; [reflexivity|].
  now rewrite Hf, IH.
Qed.

Lemma category_label_joined (cs : list Category.t) (t : Transaction.t) :
  TransactionRepository.category_label (joined cs t) = label_of cs t.
Proof.
  unfold TransactionRepository.category_label, joined, label_of. simpl.
  now destruct (filter _ cs).
Qed.

(** X14. The list of a user's transactions, on tables with a primary key: one
    row for each transaction of the user and none for any other, each with
    the name of its category when it has one, the newest date first and,
    within a date, the highest id first. *)
Theorem Transaction_GetAll_own_newest_first
    (ConvertToJakartaTime : Time -> string)
    (ctx : Context) (userID : Z) (w : World)
    (rows : list TransactionResponse.t) :
  primary_keys (db w) ->
  fst (CrudTransaction.GetAll ConvertToJakartaTime ctx userID w) = Ok rows ->
  exists data,
    rows = map (CrudTransaction.to_response ConvertToJakartaTime) data
    /\ Permutation data
         (map (joined (categories (db w)))
              (filter (TransactionRepository.owned_by userID) (transactions (db w))))
    /\ StronglySorted (fun a b => TransactionRepository.newest_first a b = true) data.
Proof.
  intros [Hpk _] Hrows. rewrite Transaction_GetAll_fst in Hrows.
  destruct (userID =? 0); [discriminate|].
  destruct (deadline_exceeded ctx); [discriminate|].
  inversion Hrows as [Heq]. clear Hrows Heq.
  eexists. split; [reflexivity|]. split.
  - rewrite order_by_Permutation.
    rewrite (flat_map_one _ (joined (categories (db w)))); [reflexivity|].
    intros t. now apply left_join_one.
  - apply order_by_sorted.
    + apply newest_first_total.
    + apply newest_first_trans.
Qed.

Lemma Transaction_GetAll_own_newest_first_witness :
  exists data,
    fst (CrudTransaction.GetAll (fun _ => "") background 1 sample_world)
    = Ok (map (CrudTransaction.to_response (fun _ => "")) data)
    /\ Permutation data
         [TransactionWithCategory.mk
            (Transaction.mk 1 1 (NullInt64.mk 1 true) 5000 "expense"
               (NullString.mk "lunch" true) (gotime.mkDate 2024 1 15) 100 100)
            (NullString.mk "Food" true)].
Proof.
  destruct (Transaction_GetAll_own_newest_first (fun _ => "")
              background 1 sample_world _ sample_primary_keys eq_refl)
    as (data & Hrows & Hperm & _).
  exists data. split; [rewrite <- Hrows; reflexivity | exact Hperm].
Defined.

(** ** The two summaries *)

Lemma same_day_type_eq (a b : gotime.Date * string) :
  TransactionRepository.same_day_type a b = true <-> a = b.
Proof.
  unfold TransactionRepository.same_day_type. destruct a, b. simpl.
  rewrite andb_true_iff, gotime_eqb_eq, String.eqb_eq.
  split; [intros [-> ->] | inversion 1]; auto.
Qed.

Lemma total_for_keyed {K} (same : K -> K -> bool) (key : Transaction.t -> K)
    (k : K) (ts : list Transaction.t) :
  total_for same k (map (fun t => (key t, Transaction.Amount t)) ts)
  = sum_amounts (filter (fun t => same (key t) k) ts).
Proof.
  unfold total_for. induction ts as [|t ts IH]; simpl; [reflexivity|].
  destruct (same (key t) k); simpl; now rewrite IH.
Qed.

Lemma sum_values_keyed {K} (key : Transaction.t -> K) (ts : list Transaction.t) :
  sum_values (map (fun t => (key t, Transaction.Amount t)) ts) = sum_amounts ts.
Proof. induction ts as [|t ts IH]; simpl; [reflexivity | now rewrite IH]. Qed.

(** X18. The daily summary: one row for each day and type on which the user
    has a transaction within the range, and none for any other; the total
    of a row is the sum of the amounts of these transactions. *)
Theorem daily_summary_rows
    (ctx : Context) (userID : Z) (startDate endDate : string) (w : World)
    (rows : list DailySummary.t) :
  fst (CrudTransaction.GetDailySummary ctx userID startDate endDate w) = Ok rows ->
  let mine := filter (TransactionRepository.in_range userID startDate endDate)
                     (transactions (db w)) in
  NoDup (map (fun r => (DailySummary.transaction_day r, DailySummary.type r)) rows)
  /\ (forall r, In r rows ->
        DailySummary.total_amount r
        = sum_amounts (filter (on_day_of_type (DailySummary.transaction_day r)
                                              (DailySummary.type r)) mine)
        /\ exists t, In t mine
                     /\ Transaction.TransactionDate t = DailySummary.transaction_day r
                     /\ Transaction.Type_ t = DailySummary.type r)
  /\ (forall t, In t mine ->
        exists r, In r rows
                  /\ DailySummary.transaction_day r = Transaction.TransactionDate t
                  /\ DailySummary.type r = Transaction.Type_ t).
Proof.
  intros Hrows mine.
  unfold CrudTransaction.GetDailySummary,
    TransactionRepository.GetDailySummaryByUserID in Hrows. run_m.
  destruct (userID =? 0); [discriminate|].
  destruct (gotime.Parse startDate); [|discriminate].
  destruct (gotime.Parse endDate); [|discriminate].
  destruct (deadline_exceeded ctx); [discriminate|]. simpl in Hrows.
  inversion Hrows as [Heq]. clear Hrows Heq. fold mine.
  set (keyed := map (fun t => ((Transaction.TransactionDate t, Transaction.Type_ t),
                               Transaction.Amount t)) mine).
  destruct (group_sum_rows TransactionRepository.same_day_type
              (fun a => proj2 (same_day_type_eq a a) eq_refl)
              (fun a b Hab => proj2 (same_day_type_eq b a)
                                (eq_sym (proj1 (same_day_type_eq a b) Hab)))
              (fun a b c Hab Hbc =>
                 proj2 (same_day_type_eq a c)
                   (eq_trans (proj1 (same_day_type_eq a b) Hab)
                             (proj1 (same_day_type_eq b c) Hbc)))
              keyed) as (Hnodup & _ & Htotal & Hcover).
  repeat match goal with |- _ /\ _ => split end.
  - rewrite map_map. simpl.
    rewrite (map_ext _ fst) by (intros [[? ?] ?]; reflexivity).
    eapply Permutation_NoDup; [|exact Hnodup].
    apply Permutation_map. symmetry. apply order_by_Permutation.
  - intros r Hr. apply in_map_iff in Hr. destruct Hr as ([[day type] v] & <- & Hg).
    apply order_by_In in Hg. simpl.
    destruct (Htotal _ _ Hg) as [-> Hkey]. split.
    + unfold keyed. now rewrite total_for_keyed.
    + unfold keyed in Hkey. rewrite map_map in Hkey. simpl in Hkey.
      apply in_map_iff in Hkey. destruct Hkey as (t & Ht & Hin).
      exists t. inversion Ht. auto.
  - intros t Ht.
    destruct (Hcover ((Transaction.TransactionDate t, Transaction.Type_ t),
                      Transaction.Amount t)) as ([k v] & Hg & Hs).
    { unfold keyed. now apply in_map_iff; exists t. }
    simpl in Hs. apply same_day_type_eq in Hs. subst k.
    eexists. split.
    + apply in_map_iff. eexists. split; [reflexivity|].
      apply order_by_In. exact Hg.
    + simpl. auto.
Qed.

Lemma daily_summary_rows_witness :
  let r := DailySummary.mk (gotime.mkDate 2024 1 15) "expense" 5000 in
  fst (CrudTransaction.GetDailySummary background 1 "2024-01-01" "2024-12-31"
         sample_world) = Ok [r]
  /\ DailySummary.total_amount r
     = sum_amounts
         (filter (on_day_of_type (DailySummary.transaction_day r)
                                 (DailySummary.type r))
            (filter (TransactionRepository.in_range 1 "2024-01-01" "2024-12-31")
                    (transactions (db sample_world)))).
Proof.
  cbv zeta. split; [reflexivity|].
  destruct (daily_summary_rows background 1 "2024-01-01" "2024-12-31"
              sample_world
              [DailySummary.mk (gotime.mkDate 2024 1 15) "expense" 5000]
              eq_refl) as (_ & A & _).
  apply A. now left.
Defined.

Section CategorySummary.
Context `{Collation}.

Lemma same_label_type_refl (a : string * string) :
  TransactionRepository.same_label_type a a = true.
Proof.
  unfold TransactionRepository.same_label_type.
  now rewrite collate_eqb_refl, String.eqb_refl.
Qed.

Lemma same_label_type_sym (a b : string * string) :
  collation_equivalence ->
  TransactionRepository.same_label_type a b = true ->
  TransactionRepository.same_label_type b a = true.
Proof.
  intros [Hsym _]. unfold TransactionRepository.same_label_type.
  rewrite !andb_true_iff, !String.eqb_eq. intros [Hl ->]. split; auto.
Qed.

Lemma same_label_type_trans (a b c : string * string) :
  collation_equivalence ->
  TransactionRepository.same_label_type a b = true ->
  TransactionRepository.same_label_type b c = true ->
  TransactionRepository.same_label_type a c = true.
Proof.
  intros [_ Htrans]. unfold TransactionRepository.same_label_type.
  rewrite !andb_true_iff, !String.eqb_eq. intros [Hab ->] [Hbc ->].
  split; [now apply (Htrans _ (fst b)) | reflexivity].
Qed.

(** The rows the category summary groups, under a primary key: one for
    each transaction, under the label of the transaction. *)
Lemma labelled_rows (cs : list Category.t) (ts : list Transaction.t) :
  NoDup (map Category.ID cs) ->
  map (fun r => ((TransactionRepository.category_label r,
                  Transaction.Type_ (TransactionWithCategory.Transaction r)),
                 Transaction.Amount (TransactionWithCategory.Transaction r)))
      (flat_map (TransactionRepository.left_join cs) ts)
  = map (fun t => ((label_of cs t, Transaction.Type_ t), Transaction.Amount t)) ts.
Proof.
  intros Hpk.
  rewrite (flat_map_one _ (joined cs)) by (intros t; now apply left_join_one).
  rewrite map_map. apply map_ext. intros t.
  now rewrite category_label_joined.
Qed.

(** X19. The summary by category and type, on tables with a primary key and
    under a collation that is an equivalence: every row carries a label;
    its total is the sum of the amounts of the user's transactions within
    the range whose label reads the same and whose type is the same, and
    there is such a transaction; every such transaction is under a row;
    and no two rows have the same label and type.  The label of a
    transaction is the name of its category, or [Uncategorized]: a
    category of that name shares its row with the transactions that have
    no category. *)
Theorem category_summary_rows
    (ctx : Context) (userID : Z) (startDate endDate : string) (w : World)
    (rows : list TransactionSummaryResponse.t) :
  collation_equivalence -> primary_keys (db w) ->
  fst (CrudTransaction.GetSummaryByCategoryAndType ctx userID startDate endDate w)
  = Ok rows ->
  let mine := filter (TransactionRepository.in_range userID startDate endDate)
                     (transactions (db w)) in
  let cs := categories (db w) in
  (forall r, In r rows ->
     exists label,
       TransactionSummaryResponse.CategoryName r = Some label
       /\ TransactionSummaryResponse.TotalAmount r
          = sum_amounts
              (filter (under_label cs label (TransactionSummaryResponse.Type_ r))
                      mine)
       /\ exists t, In t mine /\ label_of cs t = label
                    /\ Transaction.Type_ t = TransactionSummaryResponse.Type_ r)
  /\ (forall t, In t mine ->
        exists r label,
          In r rows
          /\ TransactionSummaryResponse.CategoryName r = Some label
          /\ collate_eqb label (label_of cs t) = true
          /\ TransactionSummaryResponse.Type_ r = Transaction.Type_ t)
  /\ (forall r1 r2 l1 l2, In r1 rows -> In r2 rows ->
        TransactionSummaryResponse.CategoryName r1 = Some l1 ->
        TransactionSummaryResponse.CategoryName r2 = Some l2 ->
        collate_eqb l1 l2 = true ->
        TransactionSummaryResponse.Type_ r1 = TransactionSummaryResponse.Type_ r2 ->
        r1 = r2).
Proof.
  intros Heq [Hpk _] Hrows mine cs.
  unfold CrudTransaction.GetSummaryByCategoryAndType,
    TransactionRepository.GetSummaryByCategoryAndTypeByUserID in Hrows. run_m.
  destruct (userID =? 0); [discriminate|].
  destruct (gotime.Parse startDate); [|discriminate].
  destruct (gotime.Parse endDate); [|discriminate].
  destruct (deadline_exceeded ctx); [discriminate|]. simpl in Hrows.
  inversion Hrows as [Heq']. clear Hrows Heq'. fold mine cs.
  rewrite (labelled_rows cs mine Hpk).
  set (keyed := map (fun t => ((label_of cs t, Transaction.Type_ t),
                               Transaction.Amount t)) mine).
  destruct (group_sum_rows TransactionRepository.same_label_type
              same_label_type_refl
              (fun a b => same_label_type_sym a b Heq)
              (fun a b c => same_label_type_trans a b c Heq)
              keyed) as (_ & Hone & Htotal & Hcover).
  rewrite map_map.
  repeat match goal with |- _ /\ _ => split end.
  - intros r Hr. apply in_map_iff in Hr. destruct Hr as ([[label type] v] & <- & Hg).
    apply order_by_In in Hg. simpl. exists label.
    destruct (Htotal _ _ Hg) as [-> Hkey]. split; [reflexivity|]. split.
    + unfold keyed. now rewrite total_for_keyed.
    + unfold keyed in Hkey. rewrite map_map in Hkey. simpl in Hkey.
      apply in_map_iff in Hkey. destruct Hkey as (t & Ht & Hin).
      exists t. inversion Ht. auto.
  - intros t Ht.
    destruct (Hcover ((label_of cs t, Transaction.Type_ t), Transaction.Amount t))
      as ([[label type] v] & Hg & Hs).
    { unfold keyed. now apply in_map_iff; exists t. }
    simpl in Hs. unfold TransactionRepository.same_label_type in Hs. simpl in Hs.
    apply andb_true_iff in Hs. destruct Hs as [Hl Hty]. apply String.eqb_eq in Hty.
    eexists. exists label. split.
    + apply in_map_iff. eexists. split; [reflexivity|].
      apply order_by_In. exact Hg.
    + simpl. auto.
  - intros r1 r2 l1 l2 H1 H2 Hl1 Hl2 Hl Hty.
    apply in_map_iff in H1, H2.
    destruct H1 as ([[a1 b1] v1] & <- & H1), H2 as ([[a2 b2] v2] & <- & H2).
    apply order_by_In in H1, H2. simpl in *.
    inversion Hl1; inversion Hl2; subst.
    assert (Hg : ((l1, b2), v1) = ((l2, b2), v2)).
    { apply (Hone _ _ H1 H2).
      unfold TransactionRepository.same_label_type. simpl.
      now rewrite Hl, String.eqb_refl. }
    now inversion Hg.
Qed.

(** X20. The two summaries of a range add up to the same sum, the sum of the
    amounts of the user's transactions within the range: on tables with a
    primary key no amount is lost and none is counted twice. *)
Theorem summaries_add_up
    (ctx : Context) (userID : Z) (startDate endDate : string) (w : World)
    (daily : list DailySummary.t) (byCategory : list TransactionSummaryResponse.t) :
  primary_keys (db w) ->
  fst (CrudTransaction.GetDailySummary ctx userID startDate endDate w) = Ok daily ->
  fst (CrudTransaction.GetSummaryByCategoryAndType ctx userID startDate endDate w)
  = Ok byCategory ->
  let mine := filter (TransactionRepository.in_range userID startDate endDate)
                     (transactions (db w)) in
  sum_Z (map DailySummary.total_amount daily) = sum_amounts mine
  /\ sum_Z (map TransactionSummaryResponse.TotalAmount byCategory)
     = sum_amounts mine.
Proof.
  intros [Hpk _] Hdaily Hcat mine.
  assert (Hsum : forall K (l : list (K * Z)), sum_Z (map snd l) = sum_values l).
  { intros K l. induction l as [|x l IH]; simpl; [reflexivity | now rewrite IH]. }
  unfold CrudTransaction.GetDailySummary,
    TransactionRepository.GetDailySummaryByUserID,
    CrudTransaction.GetSummaryByCategoryAndType,
    TransactionRepository.GetSummaryByCategoryAndTypeByUserID in *. run_m.
  destruct (userID =? 0); [discriminate|].
  destruct (gotime.Parse startDate); [|discriminate].
  destruct (gotime.Parse endDate); [|discriminate].
  destruct (deadline_exceeded ctx); [discriminate|]. simpl in Hdaily, Hcat.
  inversion Hdaily as [Hd]. inversion Hcat as [Hc]. clear Hdaily Hcat Hd Hc.
  fold mine. split.
  - rewrite map_map. simpl.
    rewrite (map_ext _ snd) by reflexivity.
    rewrite Hsum, (sum_values_Permutation _ _ (order_by_Permutation _ _)).
    now rewrite group_sum_sum, sum_values_keyed.
  - rewrite (labelled_rows _ mine Hpk), !map_map. simpl.
    rewrite (map_ext _ snd) by reflexivity.
    rewrite Hsum, (sum_values_Permutation _ _ (order_by_Permutation _ _)).
    now rewrite group_sum_sum, sum_values_keyed.
Qed.

End CategorySummary.

Lemma category_summary_rows_witness :
  let r := TransactionSummaryResponse.mk (Some "Food") "expense" 5000 in
  fst (@CrudTransaction.GetSummaryByCategoryAndType binary_collation background 1
         "2024-01-01" "2024-12-31" sample_world) = Ok [r]
  /\ exists label,
       TransactionSummaryResponse.CategoryName r = Some label
       /\ TransactionSummaryResponse.TotalAmount r
          = sum_amounts
              (filter (@under_label binary_collation (categories sample_db) label
                         (TransactionSummaryResponse.Type_ r))
                 (filter (TransactionRepository.in_range 1 "2024-01-01" "2024-12-31")
                         (transactions sample_db))).
Proof.
  cbv zeta. split; [reflexivity|].
  destruct (@category_summary_rows binary_collation background 1
              "2024-01-01" "2024-12-31" sample_world
              [TransactionSummaryResponse.mk (Some "Food") "expense" 5000]
              binary_collation_equivalence sample_primary_keys eq_refl)
    as (A & _).
  destruct (A _ (or_introl eq_refl)) as (label & Hl & Ht & _).
  exists label. split; [exact Hl | exact Ht].
Defined.

Lemma summaries_add_up_witness :
  sum_Z (map DailySummary.total_amount
           [DailySummary.mk (gotime.mkDate 2024 1 15) "expense" 5000])
  = sum_amounts (filter (TransactionRepository.in_range 1 "2024-01-01" "2024-12-31")
                        (transactions sample_db))
  /\ sum_Z (map TransactionSummaryResponse.TotalAmount
              [TransactionSummaryResponse.mk (Some "Food") "expense" 5000])
     = sum_amounts (filter (TransactionRepository.in_range 1 "2024-01-01" "2024-12-31")
                           (transactions sample_db)).
Proof.
  exact (@summaries_add_up binary_collation background 1
           "2024-01-01" "2024-12-31" sample_world
           [DailySummary.mk (gotime.mkDate 2024 1 15) "expense" 5000]
           [TransactionSummaryResponse.mk (Some "Food") "expense" 5000]
           sample_primary_keys eq_refl eq_refl).
Defined.

(** ** The list of categories after a write *)

Lemma filter_map_swap {A} (p : A -> bool) (f : A -> A) (l : list A) :
  (forall x, p (f x) = p x) -> filter p (map f l) = map f (filter p l).
Proof.
  intros Hp. induction l as [|x l IH]; simpl; [reflexivity|].
  rewrite Hp. destruct (p x); simpl; now rewrite IH.
Qed.

Lemma filter_swap {A} (p q : A -> bool) (l : list A) :
  filter p (filter q l) = filter q (filter p l).
Proof.
  induction l as [|x l IH]; simpl; [reflexivity|].
  destruct (p x) eqn:Ep, (q x) eqn:Eq; simpl; rewrite ?Ep, ?Eq, IH; reflexivity.
Qed.

Lemma map_filter_swap {A B} (f : A -> B) (p : A -> bool) (q : B -> bool)
    (l : list A) :
  (forall x, q (f x) = p x) -> map f (filter p l) = filter q (map f l).
Proof.
  intros Hq. induction l as [|x l IH]; simpl; [reflexivity|].
  rewrite Hq. destruct (p x); simpl; now rewrite IH.
Qed.

(** X16. The list of a user's categories follows their writes.  After a create
    that succeeds it is the list of before with the new category at its
    end, under the next id and the name of the request; after an update
    that succeeds it is the list of before with the name and [updated_at]
    of the one category rewritten (an empty name leaves the name); after
    a delete that succeeds it is the list of before without the
    category. *)
Theorem Category_list_follows_writes `{Collation}
    (ConvertToJakartaTime : Time -> string)
    (ctx ctx' : Context) (id userID : Z) (req : CategoryReq.t) (w : World)
    (old : list CategoryResponse.t) :
  fst (CrudCategory.GetAll ConvertToJakartaTime ctx' userID w) = Ok old ->
  (fst (CrudCategory.Create ctx userID req w) = Ok tt ->
   fst (CrudCategory.GetAll ConvertToJakartaTime ctx' userID
          (snd (CrudCategory.Create ctx userID req w)))
   = Ok (old ++ [CategoryResponse.mk (categories_auto_increment (db w))
                   (CategoryReq.Name req) userID
                   (ConvertToJakartaTime (clock w))
                   (ConvertToJakartaTime (clock w))])%list)
  /\ (fst (CrudCategory.Update ctx id userID req w) = Ok tt ->
      fst (CrudCategory.GetAll ConvertToJakartaTime ctx' userID
             (snd (CrudCategory.Update ctx id userID req w)))
      = Ok (map (shown_renamed id (CategoryReq.Name req)
                   (ConvertToJakartaTime (clock w))) old))
  /\ (fst (CrudCategory.Delete ctx id userID w) = Ok tt ->
      fst (CrudCategory.GetAll ConvertToJakartaTime ctx' userID
             (snd (CrudCategory.Delete ctx id userID w)))
      = Ok (filter (fun r => negb (CategoryResponse.ID r =? id)) old)).
Proof.
  intros Hold. rewrite Category_GetAll_fst in Hold.
  destruct (userID =? 0) eqn:Hu; [discriminate|].
  destruct (deadline_exceeded ctx') eqn:Hctx; [discriminate|].
  inversion Hold as [Heq]. clear Hold.
  repeat match goal with |- _ /\ _ => split end; intros Hok.
  - destruct (Category_Create_cases ctx userID req w)
      as [[Hno _] | (_ & _ & Hdb)]; [contradiction|].
    rewrite Category_GetAll_fst, Hu, Hctx, Hdb. simpl.
    rewrite filter_app, map_app. simpl. unfold created_by at 2. simpl.
    now rewrite Z.eqb_refl.
  - destruct (Category_Update_cases ctx id userID req w)
      as [[Hno _] | (_ & c & _ & _ & _ & _ & Hdb)]; [contradiction|].
    rewrite Category_GetAll_fst, Hu, Hctx, Hdb. simpl.
    rewrite filter_map_swap by (intros x; now destruct (Category.ID x =? id)).
    rewrite !map_map. f_equal. apply map_ext. intros x.
    unfold shown_renamed, CrudCategory.to_response. simpl.
    now destruct (Category.ID x =? id).
  - destruct (Category_Delete_cases ctx id userID w)
      as [[Hno _] | (_ & c & _ & _ & _ & Hdb)]; [contradiction|].
    rewrite Category_GetAll_fst, Hu, Hctx, Hdb. simpl.
    rewrite filter_swap. f_equal. now apply map_filter_swap.
Qed.

Lemma Category_list_follows_writes_witness :
  let conv (_ : Time) := "" in
  fst (@CrudCategory.GetAll conv background 3
         (snd (@CrudCategory.Create binary_collation background 3
                 (CategoryReq.mk "Food") sample_world)))
  = Ok [CategoryResponse.mk 3 "Food" 3 "" ""]
  /\ fst (@CrudCategory.GetAll conv background 1
            (snd (@CrudCategory.Delete background 1 1 sample_world)))
     = Ok [].
Proof.
  cbv zeta. split.
  - destruct (@Category_list_follows_writes binary_collation (fun _ => "")
                background background 1 3 (CategoryReq.mk "Food") sample_world
                [] eq_refl) as (A & _).
    exact (A eq_refl).
  - destruct (@Category_list_follows_writes binary_collation (fun _ => "")
                background background 1 1 (CategoryReq.mk "Food") sample_world
                [CategoryResponse.mk 1 "Food" 1 "" ""] eq_refl) as (_ & _ & A).
    exact (A eq_refl).
Defined.

(** ** Witnesses on the sample tables *)


Lemma services_all_or_nothing_witness :
  db (snd (@CrudCategory.Create binary_collation background 1
             (CategoryReq.mk "Food") sample_world)) = db sample_world
  /\ db (snd (CrudTransaction.Create background 1 undescribed sample_world))
     = db sample_world.
Proof.
  destruct (@services_all_or_nothing binary_collation background 1 1 undescribed
              (CategoryReq.mk "Food") sample_world) as (A & _ & _ & B & _).
  split; [apply B | apply A]; simpl; discriminate.
Defined.

(** ** The category of a request *)

(** X12. A category of somebody else is refused.  When the request names, by a
    positive id, a category that another user created, a create and an
    update of an own transaction both fail with unauthorized, whatever
    else the request holds; nothing is written, and the statements sent
    are the fetch of the transaction (update only) and the fetch of the
    category. *)
Theorem foreign_category_refused
    (ctx : Context) (userID : Z) (c : Category.t) (req : TransactionReq.t)
    (w : World) :
  live ctx -> primary_keys (db w) -> userID <> 0 ->
  In c (categories (db w)) ->
  TransactionReq.CategoryID req = Some (Category.ID c) -> 0 < Category.ID c ->
  Category.CreatedBy c <> userID ->
  CrudTransaction.Create ctx userID req w
  = (Fail (SetDetail ErrUnauthorized "You are not authorized to use this category."),
     logged w (SelectCategoryByID (Category.ID c)))
  /\ forall t, In t (transactions (db w)) -> Transaction.UserID t = userID ->
       CrudTransaction.Update ctx (Transaction.ID t) userID req w
       = (Fail (SetDetail ErrUnauthorized
                  "You are not authorized to use this category for update."),
          logged (logged w (SelectTransactionByIDAndOwner (Transaction.ID t) userID))
                 (SelectCategoryByID (Category.ID c))).
Proof.
  intros Hctx Hpk Hu Hin Hc Hpos Hown. split.
  - now apply Create_foreign_category.
  - intros t Ht Htu.
    apply Z.eqb_neq in Hu. apply Z.eqb_neq in Hown.
    unfold CrudTransaction.Update. rewrite Hu, Hc.
    replace (Category.ID c >? 0) with true by (symmetry; apply Z.gtb_lt; lia).
    unfold bind at 1.
    rewrite TransactionRepository_GetByIDAndUserID_run by assumption.
    rewrite (transaction_by_key _ _ _ Hpk Ht Htu).
    unfold bind, call.
    rewrite CategoryRepository_GetByID_run by assumption.
    simpl. rewrite (category_by_key _ _ Hpk Hin), Hown. reflexivity.
Qed.

Lemma foreign_category_refused_witness :
  let req := TransactionReq.mk 0 (Some 2) 100 "income" None "not a date" in
  fst (CrudTransaction.Create background 1 req sample_world)
  = Fail (SetDetail ErrUnauthorized "You are not authorized to use this category.")
  /\ fst (CrudTransaction.Update background 1 1 req sample_world)
     = Fail (SetDetail ErrUnauthorized
               "You are not authorized to use this category for update.").
Proof.
  cbv zeta.
  destruct (foreign_category_refused background 1
              (Category.mk 2 2 "Food" 100 100)
              (TransactionReq.mk 0 (Some 2) 100 "income" None "not a date")
              sample_world) as [A B].
  - reflexivity.
  - exact sample_primary_keys.
  - lia.
  - simpl. auto.
  - reflexivity.
  - simpl. lia.
  - simpl. lia.
  - split.
    + now rewrite A.
    + pose proof (B (Transaction.mk 1 1 (NullInt64.mk 1 true) 5000 "expense"
                       (NullString.mk "lunch" true) (gotime.mkDate 2024 1 15)
                       100 100)) as U.
      simpl in U. rewrite U; [reflexivity | auto | reflexivity].
Defined.

(** X13. A category that does not exist is an invalid request.  When the
    request names, by a positive id, no category of the table, a create
    and an update of an own transaction both fail with invalid-request,
    whatever else the request holds, and nothing is written. *)
Theorem unknown_category_invalid
    (ctx : Context) (userID cid : Z) (req : TransactionReq.t) (w : World) :
  live ctx -> primary_keys (db w) -> userID <> 0 ->
  TransactionReq.CategoryID req = Some cid -> 0 < cid ->
  (forall c, In c (categories (db w)) -> Category.ID c <> cid) ->
  (exists e, fst (CrudTransaction.Create ctx userID req w) = Fail e
             /\ kind_of e = Some apperr.InvalidRequest
             /\ db (snd (CrudTransaction.Create ctx userID req w)) = db w)
  /\ forall t, In t (transactions (db w)) -> Transaction.UserID t = userID ->
       exists e,
         fst (CrudTransaction.Update ctx (Transaction.ID t) userID req w) = Fail e
         /\ kind_of e = Some apperr.InvalidRequest
         /\ db (snd (CrudTransaction.Update ctx (Transaction.ID t) userID req w))
            = db w.
Proof.
  intros Hctx Hpk Hu Hc Hpos Hno. split.
  - now apply (Create_unknown_category ctx userID cid).
  - intros t Ht Htu. apply Z.eqb_neq in Hu.
    assert (Hrun : CrudTransaction.Update ctx (Transaction.ID t) userID req w
                   = (Fail (SetDetail ErrInvalidRequest
                              "Invalid Category ID provided for update."),
                      logged (logged w (SelectTransactionByIDAndOwner
                                          (Transaction.ID t) userID))
                             (SelectCategoryByID cid))).
    { unfold CrudTransaction.Update. rewrite Hu, Hc.
      replace (cid >? 0) with true by (symmetry; apply Z.gtb_lt; lia).
      unfold bind at 1.
      rewrite TransactionRepository_GetByIDAndUserID_run by assumption.
      rewrite (transaction_by_key _ _ _ Hpk Ht Htu).
      unfold bind, call.
      rewrite CategoryRepository_GetByID_run by assumption.
      simpl. now rewrite (category_missing _ _ Hno). }
    rewrite Hrun. eexists. repeat split.
Qed.

Lemma unknown_category_invalid_witness :
  let req := TransactionReq.mk 0 (Some 9) 100 "income" (Some "pay") "2024-03-01" in
  (exists e, fst (CrudTransaction.Create background 1 req sample_world) = Fail e
             /\ kind_of e = Some apperr.InvalidRequest
             /\ db (snd (CrudTransaction.Create background 1 req sample_world))
                = db sample_world).
Proof.
  cbv zeta.
  destruct (unknown_category_invalid background 1 9
              (TransactionReq.mk 0 (Some 9) 100 "income" (Some "pay") "2024-03-01")
              sample_world) as [A _].
  - reflexivity.
  - exact sample_primary_keys.
  - lia.
  - reflexivity.
  - lia.
  - simpl. intros c [<-|[<-|[]]]; simpl; lia.
  - exact A.
Defined.

(** ** Reading writes nothing *)

Ltac reading Hctx :=
  run_m;
  repeat (match goal with
          | |- context [if ?b then _ else _] => destruct b
          | |- context [match ?o with Some _ => _ | None => _ end] => destruct o
          end; simpl);
  first [ apply only_reads_refl
        | split; [reflexivity | split; [reflexivity |]];
          eexists; split; [reflexivity | reflexivity] ].

(** X7. The four reading operations never write: whatever the caller, the
    context and the answer, the tables and the clock are as they were, and
    what has been sent to the engine is at most reads. *)
Theorem reading_never_writes `{Collation}
    (ConvertToJakartaTime : Time -> string)
    (ctx : Context) (userID : Z) (startDate endDate : string) (w : World) :
  only_reads w (snd (CrudTransaction.GetAll ConvertToJakartaTime ctx userID w))
  /\ only_reads w
       (snd (CrudTransaction.GetDailySummary ctx userID startDate endDate w))
  /\ only_reads w
       (snd (CrudTransaction.GetSummaryByCategoryAndType ctx userID
               startDate endDate w))
  /\ only_reads w (snd (CrudCategory.GetAll ConvertToJakartaTime ctx userID w)).
Proof.
  repeat match goal with |- only_reads _ _ /\ _ => split end.
  - unfold CrudTransaction.GetAll, TransactionRepository.GetAllByUserID.
    reading ctx.
  - unfold CrudTransaction.GetDailySummary,
      TransactionRepository.GetDailySummaryByUserID. reading ctx.
  - unfold CrudTransaction.GetSummaryByCategoryAndType,
      TransactionRepository.GetSummaryByCategoryAndTypeByUserID. reading ctx.
  - unfold CrudCategory.GetAll, CategoryRepository.GetAll. reading ctx.
Qed.

(** ** The list of transactions after a write to a category *)

Lemma insert_by_map {A B} (f : A -> B) (leb : A -> A -> bool) (leb' : B -> B -> bool)
    (x : A) (l : list A) :
  (forall a b, leb' (f a) (f b) = leb a b) ->
  insert_by leb' (f x) (map f l) = map f (insert_by leb x l).
Proof.
  intros Hleb. induction l as [|y l IH]; simpl; [reflexivity|].
  rewrite Hleb. destruct (leb x y); simpl; [reflexivity | now rewrite IH].
Qed.

(** [ORDER BY] does not look at what the order does not mention. *)
Lemma order_by_map {A B} (f : A -> B) (leb : A -> A -> bool) (leb' : B -> B -> bool)
    (l : list A) :
  (forall a b, leb' (f a) (f b) = leb a b) ->
  order_by leb' (map f l) = map f (order_by leb l).
Proof.
  intros Hleb. induction l as [|x l IH]; simpl; [reflexivity|].
  rewrite IH. now apply insert_by_map.
Qed.

Lemma joined_after_delete (cs : list Category.t) (id : Z) (t : Transaction.t) :
  joined (filter (fun c => negb (Category.ID c =? id)) cs)
         (if CategoryRepository.refers_to id t
          then CategoryRepository.clear_category t else t)
  = if CategoryRepository.refers_to id t
    then TransactionWithCategory.mk (CategoryRepository.clear_category t)
           NullString.null
    else joined cs t.
Proof.
  unfold joined. destruct (CategoryRepository.refers_to id t) eqn:E.
  - rewrite filter_nil; [reflexivity|]. intros c _. reflexivity.
  - rewrite filter_filter_kept; [reflexivity|].
    intros c _ Hc. apply negb_true_iff, Z.eqb_neq. intros Hid.
    rewrite Hid in Hc. congruence.
Qed.

Lemma joined_after_rename (cs : list Category.t) (id : Z) (name : string)
    (now : Time) (t : Transaction.t) :
  NoDup (map Category.ID cs) ->
  joined (map (fun x => if Category.ID x =? id then renamed name now x else x) cs) t
  = match filter (fun c => CategoryRepository.refers_to (Category.ID c) t) cs with
    | [] => TransactionWithCategory.mk t NullString.null
    | c :: _ =>
        TransactionWithCategory.mk t
          (NullString.mk
             (if (Category.ID c =? id) && negb (String.eqb name "")
              then name else Category.Name c) true)
    end.
Proof.
  intros Hpk. unfold joined.
  rewrite filter_map_swap by (intros x; now destruct (Category.ID x =? id)).
  destruct (filter _ cs) as [|c rest]; simpl; [reflexivity|].
  destruct (Category.ID c =? id); simpl; [|reflexivity].
  now destruct (String.eqb name "").
Qed.

Section ListAfterCategoryWrite.
Context `{Collation}.
Variable ConvertToJakartaTime : Time -> string.

(** X17. The list of transactions follows the writes to categories, on tables
    with a primary key.  After a delete of a category that succeeds, the
    list of any user is the list of before with the category and its name
    blanked on the rows that were in it; after an update of a category
    that succeeds, it is the list of before with the new name on the rows
    that are in it (an empty name in the request changes nothing).  Rows,
    order and everything else of a row are as before. *)
Theorem Transaction_list_follows_categories
    (ctx ctx' : Context) (id userID reader : Z) (req : CategoryReq.t) (w : World)
    (old : list TransactionResponse.t) :
  primary_keys (db w) ->
  fst (CrudTransaction.GetAll ConvertToJakartaTime ctx' reader w) = Ok old ->
  (fst (CrudCategory.Delete ctx id userID w) = Ok tt ->
   fst (CrudTransaction.GetAll ConvertToJakartaTime ctx' reader
          (snd (CrudCategory.Delete ctx id userID w)))
   = Ok (map (shown_uncategorised id) old))
  /\ (fst (CrudCategory.Update ctx id userID req w) = Ok tt ->
      fst (CrudTransaction.GetAll ConvertToJakartaTime ctx' reader
             (snd (CrudCategory.Update ctx id userID req w)))
      = Ok (map (shown_under id (CategoryReq.Name req)) old)).
Proof.
  intros [Hpk _] Hold. rewrite Transaction_GetAll_fst in Hold.
  destruct (reader =? 0) eqn:Hu; [discriminate|].
  destruct (deadline_exceeded ctx') eqn:Hctx; [discriminate|].
  inversion Hold as [Heq]. clear Hold Heq.
  rewrite (flat_map_one _ (joined (categories (db w))))
    by (intros t; now apply left_join_one).
  split; intros Hok.
  - destruct (Category_Delete_cases ctx id userID w)
      as [[Hno _] | (_ & c & _ & _ & _ & Hdb)]; [contradiction|].
    rewrite Transaction_GetAll_fst, Hu, Hctx, Hdb. simpl. f_equal.
    rewrite (flat_map_one _ (joined (filter (fun c => negb (Category.ID c =? id))
                                            (categories (db w)))))
      by (intros t; apply left_join_one; now apply where_keeps_key).
    rewrite filter_map_swap
      by (intros x; now destruct (CategoryRepository.refers_to id x)).
    rewrite map_map.
    rewrite (map_ext _ _ (joined_after_delete (categories (db w)) id)).
    rewrite <- (map_map (joined (categories (db w)))
                  (fun r => if CategoryRepository.refers_to id
                                 (TransactionWithCategory.Transaction r)
                            then TransactionWithCategory.mk
                                   (CategoryRepository.clear_category
                                      (TransactionWithCategory.Transaction r))
                                   NullString.null
                            else r)).
    + rewrite (order_by_map _ TransactionRepository.newest_first).
      * rewrite !map_map. apply map_ext.
        intros [[tid tu [i [|]] am ty de da ca ua] name];
          unfold shown_uncategorised, CrudTransaction.to_response,
            CategoryRepository.refers_to, NullInt64.Value; simpl;
          [|reflexivity].
        now destruct (i =? id).
      * intros [a na] [b nb]. simpl.
        unfold TransactionRepository.newest_first. simpl.
        now destruct (CategoryRepository.refers_to id a),
                     (CategoryRepository.refers_to id b).
  - destruct (Category_Update_cases ctx id userID req w)
      as [[Hno _] | (_ & c & _ & _ & _ & _ & Hdb)]; [contradiction|].
    rewrite Transaction_GetAll_fst, Hu, Hctx, Hdb. simpl. f_equal.
    rewrite (flat_map_one _ (joined (map (fun x => if Category.ID x =? id
                                                   then renamed (CategoryReq.Name req)
                                                          (clock w) x
                                                   else x)
                                         (categories (db w))))).
    2:{ intros t. apply left_join_one. rewrite map_map.
        rewrite (map_ext _ Category.ID); [exact Hpk|].
        intros x. now destruct (Category.ID x =? id). }
    set (under := fun r : TransactionWithCategory.t =>
           match NullInt64.Value (Transaction.CategoryID
                                    (TransactionWithCategory.Transaction r)),
                 NullString.Value (TransactionWithCategory.CategoryName r) with
           | Some c, Some _ =>
               if (c =? id) && negb (String.eqb (CategoryReq.Name req) "")
               then TransactionWithCategory.mk (TransactionWithCategory.Transaction r)
                      (NullString.mk (CategoryReq.Name req) true)
               else r
           | _, _ => r
           end).
    rewrite (map_ext _ (fun t => under (joined (categories (db w)) t))).
    2:{ intros t. rewrite joined_after_rename by exact Hpk.
        unfold under, joined. simpl.
        destruct (filter _ (categories (db w))) as [|c0 rest] eqn:E; simpl.
        - now destruct (NullInt64.Value (Transaction.CategoryID t)).
        - assert (Hc0 : In c0 (filter (fun c => CategoryRepository.refers_to
                                                  (Category.ID c) t)
                                      (categories (db w)))) by (rewrite E; now left).
          apply filter_In in Hc0. destruct Hc0 as [_ Href].
          unfold CategoryRepository.refers_to in Href.
          apply andb_true_iff in Href. destruct Href as [Hv Hi].
          apply Z.eqb_eq in Hi. unfold NullInt64.Value. rewrite Hv, Hi.
          now destruct ((Category.ID c0 =? id)
                        && negb (String.eqb (CategoryReq.Name req) "")). }
    rewrite <- (map_map (joined (categories (db w))) under).
    rewrite (order_by_map _ TransactionRepository.newest_first).
    + rewrite !map_map. apply map_ext.
      intros [[tid tu [i [|]] am ty de da ca ua] [s [|]]];
        unfold shown_under, under, CrudTransaction.to_response,
          NullInt64.Value, NullString.Value; simpl; try reflexivity.
      now destruct ((i =? id) && negb (String.eqb (CategoryReq.Name req) "")).
    + intros [a na] [b nb]. unfold under, TransactionRepository.newest_first.
      simpl.
      destruct (NullInt64.Value (Transaction.CategoryID a)),
               (NullString.Value na),
               (NullInt64.Value (Transaction.CategoryID b)),
               (NullString.Value nb);
        repeat match goal with
               | |- context [if ?c && ?d then _ else _] => destruct (c && d)
               end; reflexivity.
Qed.

End ListAfterCategoryWrite.

Lemma Transaction_list_follows_categories_witness :
  let conv (_ : Time) := "" in
  fst (CrudTransaction.GetAll conv background 1
         (snd (@CrudCategory.Delete background 1 1 sample_world)))
  = Ok [TransactionResponse.mk 1 1 None None 5000 "expense" (Some "lunch")
          "2024-01-15" "" ""]
  /\ fst (CrudTransaction.GetAll conv background 1
            (snd (@CrudCategory.Update binary_collation background 1 1
                    (CategoryReq.mk "Meals") sample_world)))
     = Ok [TransactionResponse.mk 1 1 (Some 1) (Some "Meals") 5000 "expense"
             (Some "lunch") "2024-01-15" "" ""].
Proof.
  cbv zeta.
  destruct (@Transaction_list_follows_categories binary_collation (fun _ => "")
              background background 1 1 1 (CategoryReq.mk "Meals") sample_world
              [TransactionResponse.mk 1 1 (Some 1) (Some "Food") 5000 "expense"
                 (Some "lunch") "2024-01-15" "" ""]
              sample_primary_keys eq_refl) as [A B].
  split; [exact (A eq_refl) | exact (B eq_refl)].
Defined.
